(** * The host agent of the GPU rental fleet: orchestrator, container
      supervisor, tunnel supervisor and control session.

    A shallow embedding of [distributed_agent] (main.py, backend_client.py,
    docker_manager.py, tunnel.py, models.py, config.py, hardware.py) and
    the properties of its command handlers.

    Conventions.
    - Python [int] is [Z]; a [float] is the rational number it is, in [Q];
      a [dict] used as a map is a [gmap]; [None] is [option].
    - Python [str] is [string], character by character: each [ascii] is one
      character, its number being the code point. The strings covered are
      those whose code points are below 256.
    - An object mutated in place is a record threaded through the calls; a
      method that may raise returns [result A] together with the state it
      leaves behind, because Python keeps the mutations made before the
      [raise].
    - What the Docker daemon, the operating system and the backend answer
      during one handler run is an explicit [World] of oracles. *)

From Stdlib Require Import ZArith QArith Qabs String Ascii List Lia.
From Stdlib Require Import DecimalString DecimalPos DecimalZ.
From stdpp Require Import base option gmap strings.

Open Scope Z_scope.
Open Scope string_scope.

(** ** Python builtins used by the agent *)

Module Py.

(** [str(n)] for an [int]. *)
Definition str_int (n : Z) : string := NilZero.string_of_int (Z.to_int n).

(** [s[:n]]: the first [n] characters. *)
Definition prefix (n : nat) (s : string) : string := String.substring 0 n s.

(** ["sep".join(l)]. *)
Fixpoint join (sep : string) (l : list string) : string :=
  match l with
  | [] => ""
  | [x] => x
  | x :: l' => x ++ sep ++ join sep l'
  end.

(** [repr] of a list of strings, as the f-string of [ImageNotAllowedError]
    prints it; exact for strings without quotes, backslashes and
    non-printable characters (image references have none). *)
Definition repr_str_list (l : list string) : string :=
  "[" ++ join ", " (map (fun s => "'" ++ s ++ "'") l) ++ "]".

(** *** [a / b] on two [int]s

    True division gives the double nearest to the quotient, ties going to
    the even significand, and raises OverflowError when that is beyond the
    largest double. Doubles are multiples of [2 ^ -1074]; one with
    [2 ^ e <= x < 2 ^ (e + 1)] and [-1022 <= e] is a multiple of
    [2 ^ (e - 52)]. *)

(** [n / d] rounded to the nearest integer, ties to the even one, for
    [0 < d]. *)
Definition div_half_even (n d : Z) : Z :=
  let q := (n / d)%Z in
  match (2 * (n mod d) ?= d)%Z with
  | Lt => q
  | Gt => (q + 1)%Z
  | Eq => if Z.even q then q else (q + 1)%Z
  end.

(** The quotient of two positive [int]s as a double, [None] when it
    overflows. With [A = a * 2 ^ 1074], the result is
    [m * 2 ^ k / 2 ^ 1074] for [k] the exponent of the last place of
    [A / b] and [m] the rounded significand. *)
Definition true_div_pos (a b : Z) : option Q :=
  let A := (a * 2 ^ 1074)%Z in
  let k := Z.max (Z.log2 (A / b) - 52) 0 in
  let m := div_half_even A (b * 2 ^ k) in
  if (2 ^ (2098 - k) <=? m)%Z then None
  else Some (Qred (Qmake (m * 2 ^ k) (Z.to_pos (2 ^ 1074)))).

Inductive TrueDiv : Type :=
| Quotient (x : Q)
| ZeroDivisionError
| OverflowError.

(** [a / b]. A zero of either sign is the rational 0. *)
Definition true_div (a b : Z) : TrueDiv :=
  if (b =? 0)%Z then ZeroDivisionError
  else if (a =? 0)%Z then Quotient 0
  else
    match true_div_pos (Z.abs a) (Z.abs b) with
    | None => OverflowError
    | Some x => Quotient (if (Z.sgn a * Z.sgn b <? 0)%Z then Qopp x else x)
    end.

End Py.

(** ** [fnmatch.fnmatch] on POSIX

    [os.path.normcase] is the identity on POSIX, so [fnmatch] is
    [fnmatchcase]: the pattern is translated to a regular expression that
    must match the whole name, [(?s:...)\Z]. The tokens of [translate]
    below stand for the pieces of that expression: [*] any run of
    characters (a run of stars is one star to the library, the same
    language), [?] any single character, a bracket expression a
    character set, an opening bracket without a closing one a literal.
    The text of a character set is rewritten as the library rewrites it
    and then read as the regular expression compiler reads a set. *)

Module Fnmatch.

Inductive SetItem : Type :=
| Single (c : ascii)
| Range (lo hi : ascii).

Inductive Token : Type :=
| TStar
| TAny
| TLit (c : ascii)
| TSet (negated : bool) (items : list SetItem).

Definition ascii_leb (a b : ascii) : bool := (nat_of_ascii a <=? nat_of_ascii b)%nat.

Definition ascii_ltb (a b : ascii) : bool := (nat_of_ascii a <? nat_of_ascii b)%nat.

(** [s.replace(c, '\\' + c)] for every [c] that is [special]. *)
Definition escape (special : ascii -> bool) (s : list ascii) : list ascii :=
  flat_map (fun c => if special c then ["\"%char; c] else [c]) s.

Definition is_backslash (c : ascii) : bool := Ascii.eqb c "\".

Definition is_hyphen (c : ascii) : bool := Ascii.eqb c "-".

(** The characters of [re.sub(r'([&~|])', r'\\\1', stuff)]. *)
Definition is_set_operator (c : ascii) : bool :=
  Ascii.eqb c "&" || Ascii.eqb c "~" || Ascii.eqb c "|".

(** The [while True] loop that cuts [stuff] at its range hyphens.
    [skip] counts the characters taken before a hyphen is looked for: 1
    at the start (2 after a leading [!]) and 2 after each cut, since the
    search resumes at [k + 3]. A hyphen that ends [stuff] is put back
    on the last chunk. *)
Fixpoint split_chunks (skip : nat) (chunk : list ascii) (stuff : list ascii)
    : list (list ascii) :=
  match stuff with
  | [] => match chunk with [] => [] | _ => [rev chunk] end
  | c :: rest =>
      match skip with
      | S skip' => split_chunks skip' (c :: chunk) rest
      | O =>
          if is_hyphen c then
            match rest with
            | [] => [rev (c :: chunk)]
            | _ => rev chunk :: split_chunks 2 [] rest
            end
          else split_chunks 0 (c :: chunk) rest
      end
  end.

(** The loop over [range(len(chunks)-1, 0, -1)]: from the right, a
    chunk whose last character is above the first of the next one is
    merged with it, both characters dropped. *)
Fixpoint remove_empty_ranges (chunks : list (list ascii)) : list (list ascii) :=
  match chunks with
  | [] => []
  | chunk :: rest =>
      match remove_empty_ranges rest with
      | [] => [chunk]
      | (hi :: next) :: rest' =>
          match rev chunk with
          | lo :: before =>
              if ascii_ltb hi lo then (rev before ++ next)%list :: rest'
              else chunk :: (hi :: next) :: rest'
          | [] => chunk :: (hi :: next) :: rest'
          end
      | [] :: rest' => chunk :: [] :: rest'
      end
  end.

(** ['-'.join(chunks)]. *)
Fixpoint join_hyphen (chunks : list (list ascii)) : list ascii :=
  match chunks with
  | [] => []
  | [chunk] => chunk
  | chunk :: rest => (chunk ++ "-"%char :: join_hyphen rest)%list
  end.

(** One member of a set as the compiler reads it: a character, or a
    backslash and the character it escapes (the only escapes [translate]
    writes are of [\ - & ~ | ^ []], each standing for itself). *)
Definition class_char (s : list ascii) : option (ascii * list ascii) :=
  match s with
  | [] => None
  | "\"%char :: c :: rest => Some (c, rest)
  | c :: rest => Some (c, rest)
  end.

(** The members of a set, read from the text between the brackets: a
    member followed by a hyphen and another member is a range, a hyphen
    before the closing bracket stands for itself, and a closing bracket
    ends the set unless it comes first. *)
Fixpoint class_items (fuel : nat) (first : bool) (s : list ascii) : list SetItem :=
  match fuel with
  | O => []
  | S fuel' =>
      match s with
      | [] => []
      | c :: _ =>
          if Ascii.eqb c "]" && negb first then []
          else
            match class_char s with
            | None => []
            | Some (code1, rest) =>
                match rest with
                | "-"%char :: rest' =>
                    match rest' with
                    | [] => [Single code1; Single "-"%char]
                    | "]"%char :: _ => [Single code1; Single "-"%char]
                    | _ =>
                        match class_char rest' with
                        | None => [Single code1; Single "-"%char]
                        | Some (code2, rest'') =>
                            Range code1 code2 :: class_items fuel' false rest''
                        end
                    end
                | _ => Single code1 :: class_items fuel' false rest
                end
            end
      end
  end.

(** [[text]] in the regular expression. *)
Definition regex_class (text : list ascii) : Token :=
  match text with
  | "^"%char :: body => TSet true (class_items (length body) true body)
  | _ => TSet false (class_items (length text) true text)
  end.

(** The branch of [translate] for [stuff = pat[i:j]], the text between
    an opening bracket and its closing one. An emptied set never matches
    ([(?!)], here the set without members); a lone [!] left over matches
    any character. *)
Definition make_set (stuff : list ascii) : Token :=
  let stuff :=
    if existsb is_hyphen stuff then
      let skip := match stuff with "!"%char :: _ => 2%nat | _ => 1%nat end in
      join_hyphen
        (map (fun chunk => escape is_hyphen (escape is_backslash chunk))
           (remove_empty_ranges (split_chunks skip [] stuff)))
    else escape is_backslash stuff in
  let stuff := escape is_set_operator stuff in
  match stuff with
  | [] => TSet false []
  | ["!"%char] => TAny
  | "!"%char :: rest => regex_class ("^"%char :: rest)
  | c :: _ =>
      if Ascii.eqb c "^" || Ascii.eqb c "["
      then regex_class ("\"%char :: stuff)
      else regex_class stuff
  end.

(** Where the scan for the closing bracket stands: right after the
    opening bracket, right after a leading [!], or further on. A
    closing bracket met in the first two positions belongs to the set. *)
Inductive ScanPos : Type := AtOpen | AfterBang | Inside.

Fixpoint translate (pat : list ascii) : list Token :=
  match pat with
  | [] => []
  | "*"%char :: rest => TStar :: translate rest
  | "?"%char :: rest => TAny :: translate rest
  | "["%char :: rest =>
      (fix scan (pos : ScanPos) (acc : list ascii) (r : list ascii) {struct r}
         : list Token :=
         match r with
         | [] => TLit "["%char :: translate rest
         | c :: r' =>
             match pos, c with
             | AtOpen, "!"%char => scan AfterBang (c :: acc) r'
             | Inside, "]"%char => make_set (rev acc) :: translate r'
             | _, _ => scan Inside (c :: acc) r'
             end
         end) AtOpen [] rest
  | c :: rest => TLit c :: translate rest
  end.

(** The scan of [translate] for the closing bracket, on its own: the
    text between the brackets and what follows the closing one. *)
Fixpoint closing (pos : ScanPos) (acc : list ascii) (r : list ascii)
    : option (list ascii * list ascii) :=
  match r with
  | [] => None
  | c :: r' =>
      match pos with
      | AtOpen =>
          if Ascii.eqb c "!" then closing AfterBang (c :: acc) r'
          else closing Inside (c :: acc) r'
      | AfterBang => closing Inside (c :: acc) r'
      | Inside =>
          if Ascii.eqb c "]" then Some (rev acc, r')
          else closing Inside (c :: acc) r'
      end
  end.

(** Every character. *)
Definition all_ascii : list ascii := map ascii_of_nat (seq 0 256).

#[global] Instance SetItem_eq_dec : EqDecision SetItem.
Proof. solve_decision. Defined.

#[global] Instance Token_eq_dec : EqDecision Token.
Proof. solve_decision. Defined.

Definition item_matches (c : ascii) (i : SetItem) : bool :=
  match i with
  | Single x => Ascii.eqb c x
  | Range lo hi => ascii_leb lo c && ascii_leb c hi
  end.

Definition token_matches (t : Token) (c : ascii) : bool :=
  match t with
  | TStar => true
  | TAny => true
  | TLit x => Ascii.eqb c x
  | TSet negated items => xorb negated (existsb (item_matches c) items)
  end.

(** Full match of a name against the translated pattern (the regular
    expression is anchored at both ends, [.] matches every character). *)
Fixpoint matches (ts : list Token) (name : list ascii) : bool :=
  match ts with
  | [] => match name with [] => true | _ => false end
  | TStar :: ts' =>
      (fix star (n : list ascii) : bool :=
         matches ts' n || match n with [] => false | _ :: n' => star n' end) name
  | t :: ts' =>
      match name with
      | [] => false
      | c :: name' => token_matches t c && matches ts' name'
      end
  end.

Definition fnmatch (name pat : string) : bool :=
  matches (translate (list_ascii_of_string pat)) (list_ascii_of_string name).

(** A pattern without glob syntax. *)
Definition is_meta (c : ascii) : bool :=
  Ascii.eqb c "*" || Ascii.eqb c "?" || Ascii.eqb c "[".

Definition literal_pattern (pat : string) : bool :=
  forallb (fun c => negb (is_meta c)) (list_ascii_of_string pat).

End Fnmatch.

(** ** models.py: statuses, commands, events *)

Module Models.

Inductive NodeStatus : Type := ONLINE | BUSY | MAINTENANCE | OFFLINE.

#[global] Instance NodeStatus_eq_dec : EqDecision NodeStatus.
Proof. solve_decision. Defined.

(** [NodeStatus.value]. *)
Definition status_value (s : NodeStatus) : string :=
  match s with
  | ONLINE => "online"
  | BUSY => "busy"
  | MAINTENANCE => "maintenance"
  | OFFLINE => "offline"
  end.

Record ConnectionInfo : Type := {
  ssh_host : string;
  ssh_port : Z;
  additional_ports : gmap string Z;
}.

Record ResourceLimits : Type := {
  gpu_indices : list string;
  cpu_cores : Z;
  ram_limit : string;
  disk_limit : option string;
}.

Record StartInstanceCommandData : Type := {
  start_rental_id : string;
  image : string;
  resource_limits : ResourceLimits;
  env_vars : gmap string string;
  proxy_port_mapping : gmap string Z;
}.

Record StopInstanceCommandData : Type := {
  stop_rental_id : string;
  stop_container_id : string;
  graceful : bool;
  timeout_seconds : Z;
}.

Record DrainNodeCommandData : Type := {
  drain_node_id : string;
  reason : option string;
}.

Record AgentConfigData : Type := {
  heartbeat_interval_ms : Z;
  max_concurrent_rentals : Z;
  cfg_allowed_images : list string;
}.

Record UpdateConfigCommandData : Type := {
  update_node_id : string;
  config : AgentConfigData;
}.

(** [BackendCommand], the union of the four command classes. *)
Inductive BackendCommand : Type :=
| StartInstanceCommand (data : StartInstanceCommandData)
| StopInstanceCommand (data : StopInstanceCommandData)
| DrainNodeCommand (data : DrainNodeCommandData)
| UpdateConfigCommand (data : UpdateConfigCommandData).

(** The [event] discriminator of a command. *)
Definition event_type (c : BackendCommand) : string :=
  match c with
  | StartInstanceCommand _ => "start_instance"
  | StopInstanceCommand _ => "stop_instance"
  | DrainNodeCommand _ => "drain_node"
  | UpdateConfigCommand _ => "update_config"
  end.

Record NodeMetrics : Type := {
  cpu_temp : option Q;
  cpu_usage_percent : Q;
  gpu_temp : list Q;
  gpu_utilization : list Q;
  gpu_memory_used_mb : list Z;
  ram_usage_mb : Z;
  ram_total_mb : Z;
  disk_usage_gb : Q;
  disk_total_gb : Q;
  network_rx_mbps : Q;
  network_tx_mbps : Q;
}.

(** Outbound events, by their payload. The [timestamp] of [agent_error]
    is the wall clock at construction and is left out. *)
Inductive Event : Type :=
| HeartbeatEvent (node_id : string) (status : NodeStatus) (metrics : NodeMetrics)
| InstanceStartedEvent (rental_id container_id : string)
    (connection_info : ConnectionInfo)
| InstanceStoppedEvent (rental_id container_id : string) (reason : string)
    (error_message : option string)
| AgentErrorEvent (node_id : string) (error_code message : string).

Definition is_instance_started (e : Event) : bool :=
  match e with InstanceStartedEvent _ _ _ => true | _ => false end.

Definition is_instance_stopped (e : Event) : bool :=
  match e with InstanceStoppedEvent _ _ _ _ => true | _ => false end.

End Models.

(** ** Exceptions *)

Module Exn.

(** The exception classes the agent defines, each with its message, and
    [Foreign] for every class it does not define (docker.errors.*,
    OSError, ValueError, ...). *)
Inductive t : Type :=
| ImageNotAllowedError (msg : string)
| ContainerStartError (msg : string)
| DockerError (msg : string)
| FRPCNotFoundError (msg : string)
| TunnelError (msg : string)
| Foreign (msg : string).

(** [str(e)]. *)
Definition str (e : t) : string :=
  match e with
  | ImageNotAllowedError m | ContainerStartError m | DockerError m
  | FRPCNotFoundError m | TunnelError m | Foreign m => m
  end.

Definition is_image_not_allowed (e : t) : bool :=
  match e with ImageNotAllowedError _ => true | _ => false end.

(** [isinstance(e, DockerError)]: the class and its two subclasses. *)
Definition is_docker_error (e : t) : bool :=
  match e with
  | DockerError _ | ImageNotAllowedError _ | ContainerStartError _ => true
  | _ => false
  end.

End Exn.

Inductive result (A : Type) : Type :=
| Ok (a : A)
| Raise (e : Exn.t).

Arguments Ok {A}.
Arguments Raise {A}.

Definition is_ok {A} (r : result A) : bool :=
  match r with Ok _ => true | Raise _ => false end.

(** A method body: it reads and mutates the object [S] and returns or
    raises. The state comes back in both cases. *)
Definition M (S A : Type) : Type := S -> result A * S.

#[global] Instance M_ret {S} : MRet (M S) := fun A a s => (Ok a, s).

#[global] Instance M_bind {S} : MBind (M S) := fun A B k m s =>
  match m s with
  | (Ok a, s') => k a s'
  | (Raise e, s') => (Raise e, s')
  end.

Definition raise {S A} (e : Exn.t) : M S A := fun s => (Raise e, s).
Definition get {S} : M S S := fun s => (Ok s, s).
Definition modify {S} (f : S -> S) : M S unit := fun s => (Ok tt, f s).
Definition pure_result {S A} (r : result A) : M S A := fun s => (r, s).

(** [a / b] on two [int]s ([operator.truediv]), as a [float]. *)
Definition truediv (a b : Z) : result Q :=
  match Py.true_div a b with
  | Py.Quotient x => Ok x
  | Py.ZeroDivisionError => Raise (Exn.Foreign "division by zero")
  | Py.OverflowError =>
      Raise (Exn.Foreign "integer division result too large for a float")
  end.

(** [try: m  except Exception as e: h e]. *)
Definition try_except {S A} (m : M S A) (h : Exn.t -> M S A) : M S A := fun s =>
  match m s with
  | (Ok a, s') => (Ok a, s')
  | (Raise e, s') => h e s'
  end.

(** Run [m] and hand its outcome, returned or raised, to the caller. *)
Definition attempt {S A} (m : M S A) : M S (result A) := fun s =>
  let '(r, s') := m s in (Ok r, s').

(** Run a method on a component [T] of a larger object [S]. *)
Definition zoom {S T A} (proj : S -> T) (inj : T -> S -> S) (m : M T A) : M S A :=
  fun s => let '(r, t') := m (proj s) in (r, inj t' s).

(** [for x in l: body x], stopping at the first raise. *)
Fixpoint for_each {S A} (l : list A) (body : A -> M S unit) : M S unit :=
  match l with
  | [] => mret tt
  | x :: l' => body x ;; for_each l' body
  end.

(** ** docker_manager.py *)

Module DockerManager.
Import Models.

Record DockerDefaults : Type := {
  network_mode : string;
  restart_policy : string;
}.

Record DockerConfig : Type := {
  allowed_images : list string;
  defaults : DockerDefaults;
  cleanup_after_seconds : Z;
}.

Definition set_allowed_images (l : list string) (c : DockerConfig) : DockerConfig :=
  {| allowed_images := l;
     defaults := defaults c;
     cleanup_after_seconds := cleanup_after_seconds c |}.

(** The keyword arguments of [client.containers.run]. *)
Record ContainerConfig : Type := {
  cc_image : string;
  cc_detach : bool;
  cc_environment : gmap string string;
  cc_network_mode : string;
  cc_restart_policy : string;
  cc_cpu_count : option Z;
  cc_mem_limit : option string;
  cc_device_requests : option (list string);
  cc_ports : option (gset string);
}.

(** *** What the daemon answers

    One constructor per outcome the code tells apart, and [..Raises]
    for whatever else comes out of the call and is caught by no
    [except] clause of the call site: the [DockerError] of the [client]
    property when the daemon cannot be reached, or an exception of a
    class foreign to the agent (a transport error, ...). *)

Inductive Escaping : Type :=
| ClientUnavailable (msg : string)
| Uncaught (msg : string).

Definition escaping_exn (x : Escaping) : Exn.t :=
  match x with
  | ClientUnavailable msg => Exn.DockerError ("Cannot connect to Docker: " +:+ msg)
  | Uncaught msg => Exn.Foreign msg
  end.

Inductive ImagesGet : Type :=
| ImagePresent
| ImageNotFound
| ImagesGetRaises (x : Escaping).

Inductive ImagesPull : Type :=
| Pulled
| PullAPIError (msg : string)
| PullRaises (x : Escaping).

Inductive ContainersRun : Type :=
| Started (container_id : string)
| RunContainerError (msg : string)
| RunImageNotFound (msg : string)
| RunAPIError (msg : string)
| RunRaises (x : Escaping).

(** [containers.get] followed by [stop(timeout)] or [kill()]. *)
Inductive StopOutcome : Type :=
| Stopped
| StopNotFound
| StopAPIError (msg : string)
| StopRaises (x : Escaping).

(** [containers.get(id).status]. *)
Inductive Inspect : Type :=
| Status (s : string)
| InspectNotFound
| InspectRaises (x : Escaping).

Record Daemon : Type := {
  images_get : string -> ImagesGet;
  images_pull : string -> ImagesPull;
  containers_run : ContainerConfig -> ContainersRun;
  get_and_stop : string -> bool -> Z -> StopOutcome;
  inspect : string -> Inspect;
  host_ports : string -> gmap string Z;
}.

(** The manager: its config (the very object [settings.docker]) and the
    map rental_id -> container_id. *)
Record t : Type := {
  config : DockerConfig;
  _active_containers : gmap string string;
}.

Definition set_config (c : DockerConfig) (m : t) : t :=
  {| config := c; _active_containers := _active_containers m |}.

Definition set_active (a : gmap string string) (m : t) : t :=
  {| config := config m; _active_containers := a |}.

Definition is_image_allowed (m : t) (image : string) : bool :=
  existsb (fun pattern => Fnmatch.fnmatch image pattern) (allowed_images (config m)).

Definition pull_image (d : Daemon) (image : string) : M t unit :=
  match images_get d image with
  | ImagePresent => mret tt
  | ImageNotFound =>
      match images_pull d image with
      | Pulled => mret tt
      | PullAPIError msg =>
          raise (Exn.DockerError ("Failed to pull image " ++ image ++ ": " ++ msg))
      | PullRaises x => raise (escaping_exn x)
      end
  | ImagesGetRaises x => raise (escaping_exn x)
  end.

Definition _build_container_config (m : t) (image : string)
    (limits : ResourceLimits) (env_vars : gmap string string)
    (port_mapping : gmap string Z) : ContainerConfig :=
  {| cc_image := image;
     cc_detach := true;
     cc_environment := env_vars;
     cc_network_mode := network_mode (defaults (config m));
     cc_restart_policy := restart_policy (defaults (config m));
     cc_cpu_count := if (0 <? cpu_cores limits)%Z then Some (cpu_cores limits) else None;
     cc_mem_limit := if String.eqb (ram_limit limits) "" then None
                     else Some (ram_limit limits);
     cc_device_requests := match gpu_indices limits with
                           | [] => None
                           | l => Some l
                           end;
     cc_ports := if decide (port_mapping = ∅) then None
                 else Some (set_map (fun p => p ++ "/tcp") (dom port_mapping)) |}.

Definition image_not_allowed_message (m : t) (image : string) : string :=
  "Image '" ++ image ++ "' is not in the allowed list. Allowed patterns: "
    ++ Py.repr_str_list (allowed_images (config m)).

Definition start_container (d : Daemon) (cfg : StartInstanceCommandData)
    : M t (string * ConnectionInfo) :=
  let rental_id := start_rental_id cfg in
  let image := image cfg in
  let port_mapping := proxy_port_mapping cfg in
  m ← get;
  if negb (is_image_allowed m image) then
    raise (Exn.ImageNotAllowedError (image_not_allowed_message m image))
  else
    pull_image d image ;;
    let container_config :=
      _build_container_config m image (resource_limits cfg) (env_vars cfg) port_mapping in
    match containers_run d container_config with
    | Started container_id =>
        modify (fun m => set_active (<[rental_id := container_id]> (_active_containers m)) m) ;;
        mret (container_id,
              {| ssh_host := "localhost";
                 ssh_port := 22;
                 additional_ports :=
                   filter (fun kv => kv.1 ≠ "22") port_mapping |})
    | RunContainerError msg =>
        raise (Exn.ContainerStartError ("Container exited with error: " ++ msg))
    | RunImageNotFound msg =>
        raise (Exn.ContainerStartError ("Image not found: " ++ msg))
    | RunAPIError msg =>
        raise (Exn.ContainerStartError ("Docker API error: " ++ msg))
    | RunRaises x => raise (escaping_exn x)
    end.

(** [if rental_id and rental_id in self._active_containers: del ...]. *)
Definition untrack (rental_id : option string) (m : t) : t :=
  match rental_id with
  | Some r =>
      if negb (String.eqb r "") && bool_decide (is_Some (_active_containers m !! r))
      then set_active (delete r (_active_containers m)) m
      else m
  | None => m
  end.

Definition stop_container (d : Daemon) (container_id : string)
    (rental_id : option string) (graceful : bool) (timeout : Z) : M t unit :=
  match get_and_stop d container_id graceful timeout with
  | Stopped => modify (untrack rental_id)
  | StopNotFound => modify (untrack rental_id)
  | StopAPIError msg => raise (Exn.DockerError ("Failed to stop container: " ++ msg))
  | StopRaises x => raise (escaping_exn x)
  end.

Definition get_container_status (d : Daemon) (container_id : string)
    : result (option string) :=
  match inspect d container_id with
  | Status s => Ok (Some s)
  | InspectNotFound => Ok None
  | InspectRaises x => Raise (escaping_exn x)
  end.

(** The loop of [list_active_rentals] over the tracked pairs, building
    [active]; a raise of the inspection leaves the loop at once. The
    pairs are taken in [map_to_list] order, Python takes them in
    insertion order: the resulting map is the same, only which of
    several raising inspections comes first can differ. *)
Fixpoint still_existing (d : Daemon) (items : list (string * string))
    (active : gmap string string) : result (gmap string string) :=
  match items with
  | [] => Ok active
  | (rental_id, container_id) :: rest =>
      match get_container_status d container_id with
      | Raise e => Raise e
      | Ok None => still_existing d rest active
      | Ok (Some _) => still_existing d rest (<[rental_id := container_id]> active)
      end
  end.

Definition list_active_rentals (d : Daemon) : M t (gmap string string) :=
  m ← get;
  active ← pure_result (still_existing d (map_to_list (_active_containers m)) ∅);
  modify (set_active active) ;;
  mret active.

(** Every failure inside [get_container_ports] is caught and yields the
    empty dict, so the call is total; [host_ports] is what it returns. *)
Definition get_container_ports (d : Daemon) (container_id : string) : gmap string Z :=
  host_ports d container_id.

(** [containers.get] followed by [remove(force=force)]. *)
Inductive RemoveOutcome : Type :=
| Removed
| RemoveNotFound
| RemoveAPIError (msg : string)
| RemoveRaises (x : Escaping).

Definition remove_container (remove : string -> bool -> RemoveOutcome)
    (container_id : string) (force : bool) : result unit :=
  match remove container_id force with
  | Removed => Ok tt
  | RemoveNotFound => Ok tt
  | RemoveAPIError msg => Raise (Exn.DockerError ("Failed to remove container: " +:+ msg))
  | RemoveRaises x => Raise (escaping_exn x)
  end.

(** Whether the inspection of a container raises, and whether it finds
    the container ([get_container_status] returns a status, not [None]). *)
Definition inspection_raises (d : Daemon) (container_id : string) : bool :=
  match inspect d container_id with
  | InspectRaises _ => true
  | _ => false
  end.

Definition is_present (d : Daemon) (container_id : string) : bool :=
  match inspect d container_id with
  | Status _ => true
  | _ => false
  end.

(** [status in ("exited", "dead")]; a missing container ([None]) is not. *)
Definition is_terminal (status : option string) : bool :=
  match status with
  | Some s => String.eqb s "exited" || String.eqb s "dead"
  | None => false
  end.

(** The loop of [cleanup_stopped_containers] over [list(items())]: the
    state is the manager, [removed] the list built so far. A
    [DockerError] of the removal is passed over; anything else that is
    raised leaves the loop. *)
Fixpoint cleanup_loop (d : Daemon) (remove : string -> bool -> RemoveOutcome)
    (items : list (string * string)) (removed : list string) : M t (list string) :=
  match items with
  | [] => mret removed
  | (rental_id, container_id) :: rest =>
      status ← pure_result (get_container_status d container_id);
      if is_terminal status then
        match remove_container remove container_id false with
        | Ok _ =>
            modify (fun m => set_active (delete rental_id (_active_containers m)) m) ;;
            cleanup_loop d remove rest (removed ++ [container_id])%list
        | Raise e =>
            if Exn.is_docker_error e then cleanup_loop d remove rest removed
            else raise e
        end
      else cleanup_loop d remove rest removed
  end.

(** A tracked container that [cleanup_stopped_containers] would drop:
    reported exited or dead, and its removal does not raise. *)
Definition removable (d : Daemon) (remove : string -> bool -> RemoveOutcome)
    (container_id : string) : bool :=
  match get_container_status d container_id with
  | Ok status => is_terminal status && is_ok (remove_container remove container_id false)
  | Raise _ => false
  end.

Definition cleanup_stopped_containers (d : Daemon)
    (remove : string -> bool -> RemoveOutcome) : M t (list string) :=
  m ← get;
  cleanup_loop d remove (map_to_list (_active_containers m)) [].

End DockerManager.

(** ** tunnel.py *)

Module TunnelManager.

Record FRPConfig : Type := {
  server_addr : string;
  server_port : Z;
  token : string;
  frpc_path_setting : option string;
}.

(** [subprocess.Popen] outcomes for the frpc child. *)
Inductive Popen : Type :=
| Spawned (pid : Z)
| PopenFileNotFound
| PopenRaises (msg : string).

(** What the operating system and the interpreter answer. A child
    process is known by its pid; [poll pid] is [Popen.poll()], the
    return code once the child has exited. [py_int] is the builtin
    [int] on a string, [None] when it raises [ValueError]. *)
Record Os : Type := {
  is_executable : string -> bool;
  which : string -> option string;
  expanduser : string -> string;
  mktemp : string -> string -> string;
  popen : string -> string -> Popen;
  poll : Z -> option Z;
  py_int : string -> option Z;
}.

(** The manager: its config (the very object [settings.frp]), the cached
    binary path, rental_id -> child process, rental_id -> config path. *)
Record t : Type := {
  config : FRPConfig;
  _frpc_path : option string;
  _active_tunnels : gmap string Z;
  _tunnel_configs : gmap string string;
}.

(** The manager and the disk its config files are written to (path ->
    text). File operations on the agent's own temp files do not fail. *)
Record Host : Type := {
  mgr : t;
  disk : gmap string string;
}.

Definition set_frpc_path (p : option string) (m : t) : t :=
  {| config := config m; _frpc_path := p;
     _active_tunnels := _active_tunnels m; _tunnel_configs := _tunnel_configs m |}.

Definition set_active_tunnels (a : gmap string Z) (m : t) : t :=
  {| config := config m; _frpc_path := _frpc_path m;
     _active_tunnels := a; _tunnel_configs := _tunnel_configs m |}.

Definition set_tunnel_configs (c : gmap string string) (m : t) : t :=
  {| config := config m; _frpc_path := _frpc_path m;
     _active_tunnels := _active_tunnels m; _tunnel_configs := c |}.

Definition on_mgr (f : t -> t) (h : Host) : Host :=
  {| mgr := f (mgr h); disk := disk h |}.

Definition on_disk (f : gmap string string -> gmap string string) (h : Host) : Host :=
  {| mgr := mgr h; disk := f (disk h) |}.

Definition common_paths (os : Os) : list string :=
  [ "/usr/local/bin/frpc"; "/usr/bin/frpc"; expanduser os "~/.local/bin/frpc";
    "./frpc"; "./bin/frpc" ].

(** The [frpc_path] property: cached value, else the configured path if
    executable, else PATH, else the common locations. *)
Definition frpc_path (os : Os) : M t string :=
  m ← get;
  match _frpc_path m with
  | Some p => mret p
  | None =>
      let configured :=
        match frpc_path_setting (config m) with
        | Some p => if negb (String.eqb p "") && is_executable os p then Some p else None
        | None => None
        end in
      match configured with
      | Some p => modify (set_frpc_path (Some p)) ;; mret p
      | None =>
          match which os "frpc" with
          | Some p => modify (set_frpc_path (Some p)) ;; mret p
          | None =>
              match List.find (is_executable os) (common_paths os) with
              | Some p => modify (set_frpc_path (Some p)) ;; mret p
              | None =>
                  raise (Exn.FRPCNotFoundError
                    "frpc binary not found. Please install FRP or set frpc_path in config.")
              end
          end
      end
  end.

Definition nl : string := String "010"%char EmptyString.

(** The proxy sections of the config file. [int(container_port)] is the
    default argument of [local_ports.get] and is evaluated for every
    port, present in [local_ports] or not. Ports are taken in
    [map_to_list] order (Python: insertion order), which only permutes
    the sections. *)
Fixpoint proxy_sections (os : Os) (rental_id : string) (local_ports : gmap string Z)
    (items : list (string * Z)) : result (list string) :=
  match items with
  | [] => Ok []
  | (container_port, public_port) :: rest =>
      match py_int os container_port with
      | None =>
          Raise (Exn.Foreign
            ("invalid literal for int() with base 10: '" +:+ container_port +:+ "'"))
      | Some n =>
          let local_port := default n (local_ports !! container_port) in
          let proxy_name := Py.prefix 8 rental_id +:+ "_" +:+ container_port in
          match proxy_sections os rental_id local_ports rest with
          | Raise e => Raise e
          | Ok lines =>
              Ok ([ "[" +:+ proxy_name +:+ "]";
                    "type = tcp";
                    "local_ip = 127.0.0.1";
                    "local_port = " +:+ Py.str_int local_port;
                    "remote_port = " +:+ Py.str_int public_port;
                    "" ] ++ lines)%list
          end
      end
  end.

Definition _generate_tunnel_config (os : Os) (m : t) (rental_id : string)
    (port_mapping local_ports : gmap string Z) : result string :=
  let config_lines :=
    ([ "[common]";
       "server_addr = " +:+ server_addr (config m);
       "server_port = " +:+ Py.str_int (server_port (config m)) ]
     ++ (if String.eqb (token (config m)) "" then []
         else [ "token = " +:+ token (config m) ])
     ++ [ "" ])%list in
  match proxy_sections os rental_id local_ports (map_to_list port_mapping) with
  | Raise e => Raise e
  | Ok sections => Ok (Py.join nl (config_lines ++ sections)%list)
  end.

(** [{p: int(p) for p in port_mapping.keys()}]. *)
Fixpoint identity_ports (os : Os) (keys : list string) : result (gmap string Z) :=
  match keys with
  | [] => Ok ∅
  | p :: rest =>
      match py_int os p with
      | None => Raise (Exn.Foreign ("invalid literal for int() with base 10: '" ++ p ++ "'"))
      | Some n =>
          match identity_ports os rest with
          | Raise e => Raise e
          | Ok m => Ok (<[p := n]> m)
          end
      end
  end.

(** [local_ports], defaulted to the identity mapping when absent. *)
Definition resolved_ports (os : Os) (port_mapping : gmap string Z)
    (local_ports : option (gmap string Z)) : result (gmap string Z) :=
  match local_ports with
  | Some lp => Ok lp
  | None => identity_ports os (map_to_list port_mapping).*1
  end.

(** [Path(tempfile.mktemp(prefix=f"frpc_{rental_id[:8]}_", suffix=".ini"))]. *)
Definition config_path (os : Os) (rental_id : string) : string :=
  mktemp os ("frpc_" +:+ Py.prefix 8 rental_id +:+ "_") ".ini".

(** [config_file.unlink(missing_ok=True)] and the guarded
    [if config_file.exists(): config_file.unlink()] both come to this. *)
Definition unlink (path : string) : M Host unit :=
  modify (on_disk (delete path)).

Definition create_tunnel (os : Os) (rental_id : string)
    (port_mapping : gmap string Z) (local_ports : option (gmap string Z))
    : M Host unit :=
  h ← get;
  if bool_decide (is_Some (_active_tunnels (mgr h) !! rental_id)) then mret tt
  else
    local_ports ← pure_result (resolved_ports os port_mapping local_ports);
    config_content ← pure_result
      (_generate_tunnel_config os (mgr h) rental_id port_mapping local_ports);
    let config_file := config_path os rental_id in
    modify (on_disk <[config_file := config_content]>) ;;
    modify (on_mgr (fun m =>
      set_tunnel_configs (<[rental_id := config_file]> (_tunnel_configs m)) m)) ;;
    found ← attempt (zoom mgr (fun m => on_mgr (fun _ => m)) (frpc_path os));
    match found with
    | Raise e =>
        (* the property raised inside the [try]: [except Exception as e] *)
        unlink config_file ;;
        raise (Exn.TunnelError ("Failed to start tunnel: " ++ Exn.str e))
    | Ok path =>
        match popen os path config_file with
        | Spawned pid =>
            modify (on_mgr (fun m =>
              set_active_tunnels (<[rental_id := pid]> (_active_tunnels m)) m))
        | PopenFileNotFound =>
            unlink config_file ;;
            raise (Exn.FRPCNotFoundError ("frpc not found at " ++ path))
        | PopenRaises msg =>
            unlink config_file ;;
            raise (Exn.TunnelError ("Failed to start tunnel: " ++ msg))
        end
    end.

(** [terminate], [wait] and [kill] act on the child only, and whatever
    they raise is caught and logged: they leave no trace in the manager. *)
Definition destroy_tunnel (rental_id : string) : M Host unit :=
  h ← get;
  match _active_tunnels (mgr h) !! rental_id with
  | None => mret tt
  | Some process =>
      modify (on_mgr (fun m =>
        set_active_tunnels (delete rental_id (_active_tunnels m)) m)) ;;
      h ← get;
      let config_file := _tunnel_configs (mgr h) !! rental_id in
      modify (on_mgr (fun m =>
        set_tunnel_configs (delete rental_id (_tunnel_configs m)) m)) ;;
      match config_file with
      | Some path => unlink path
      | None => mret tt
      end
  end.

Definition destroy_all_tunnels : M Host unit :=
  h ← get;
  let rental_ids := (map_to_list (_active_tunnels (mgr h))).*1 in
  for_each rental_ids destroy_tunnel.

Definition get_tunnel_status (os : Os) (m : t) (rental_id : string) : string :=
  match _active_tunnels m !! rental_id with
  | None => "not_found"
  | Some process =>
      match poll os process with
      | None => "running"
      | Some poll_result =>
          if (poll_result =? 0)%Z then "exited_ok"
          else "exited_error_" ++ Py.str_int poll_result
      end
  end.

(** One turn of the loop of [list_active_tunnels]. *)
Definition prune_or_keep (os : Os) (item : string * Z) (active : gmap string Z)
    : M Host (gmap string Z) :=
  let '(rental_id, process) := item in
  match poll os process with
  | None => mret (<[rental_id := process]> active)
  | Some _ =>
      h ← get;
      let config_file := _tunnel_configs (mgr h) !! rental_id in
      modify (on_mgr (fun m =>
        set_tunnel_configs (delete rental_id (_tunnel_configs m)) m)) ;;
      match config_file with
      | Some path => unlink path
      | None => mret tt
      end ;;
      modify (on_mgr (fun m =>
        set_active_tunnels (delete rental_id (_active_tunnels m)) m)) ;;
      mret active
  end.

Fixpoint prune_loop (os : Os) (items : list (string * Z)) (active : gmap string Z)
    : M Host (gmap string Z) :=
  match items with
  | [] => mret active
  | item :: rest =>
      active ← prune_or_keep os item active;
      prune_loop os rest active
  end.

Definition list_active_tunnels (os : Os) : M Host (gmap string Z) :=
  h ← get;
  prune_loop os (map_to_list (_active_tunnels (mgr h))) ∅.

Definition health_check (os : Os) (m : t) : gmap string string :=
  map_imap (fun rental_id _ => Some (get_tunnel_status os m rental_id))
    (_active_tunnels m).

End TunnelManager.

(** ** backend_client.py *)

Module BackendClient.
Import Models.

(** Outcome of [websockets.client.connect]. *)
Inductive Dial : Type :=
| Established
| InvalidStatusCode (status_code : Z)
| DialFails (msg : string).

(** Outcome of one [connection.send]. *)
Inductive Wire : Type :=
| Written
| ConnectionClosed
| SendFails (msg : string).

(** What the network answers: the next dial, and the write of the n-th
    frame handed to [send_message] (counted from 0 over the run). *)
Record Net : Type := {
  dial : Dial;
  wire : nat -> Wire;
}.

(** The client. [_connection] is whether a connection object is held
    ([is not None]). [sent] is not a field of the class: it is the
    trace of the calls of [send_message], each frame with the boolean
    the call returned (True: written to the connection). *)
Record t : Type := {
  reconnect_delay : Z;
  max_reconnect_attempts : Z;
  heartbeat_interval : Q;
  node_id : string;
  _connection : bool;
  _connected : bool;
  _should_run : bool;
  _reconnect_count : Z;
  _status : NodeStatus;
  _is_draining : bool;
  sent : list (Event * bool);
}.

Definition set_heartbeat_interval (x : Q) (c : t) : t :=
  {| reconnect_delay := reconnect_delay c;
     max_reconnect_attempts := max_reconnect_attempts c;
     heartbeat_interval := x; node_id := node_id c;
     _connection := _connection c; _connected := _connected c;
     _should_run := _should_run c; _reconnect_count := _reconnect_count c;
     _status := _status c; _is_draining := _is_draining c; sent := sent c |}.

Definition set_connection (x : bool) (c : t) : t :=
  {| reconnect_delay := reconnect_delay c;
     max_reconnect_attempts := max_reconnect_attempts c;
     heartbeat_interval := heartbeat_interval c; node_id := node_id c;
     _connection := x; _connected := _connected c;
     _should_run := _should_run c; _reconnect_count := _reconnect_count c;
     _status := _status c; _is_draining := _is_draining c; sent := sent c |}.

Definition set_connected (x : bool) (c : t) : t :=
  {| reconnect_delay := reconnect_delay c;
     max_reconnect_attempts := max_reconnect_attempts c;
     heartbeat_interval := heartbeat_interval c; node_id := node_id c;
     _connection := _connection c; _connected := x;
     _should_run := _should_run c; _reconnect_count := _reconnect_count c;
     _status := _status c; _is_draining := _is_draining c; sent := sent c |}.

Definition set_should_run (x : bool) (c : t) : t :=
  {| reconnect_delay := reconnect_delay c;
     max_reconnect_attempts := max_reconnect_attempts c;
     heartbeat_interval := heartbeat_interval c; node_id := node_id c;
     _connection := _connection c; _connected := _connected c;
     _should_run := x; _reconnect_count := _reconnect_count c;
     _status := _status c; _is_draining := _is_draining c; sent := sent c |}.

Definition set_reconnect_count (x : Z) (c : t) : t :=
  {| reconnect_delay := reconnect_delay c;
     max_reconnect_attempts := max_reconnect_attempts c;
     heartbeat_interval := heartbeat_interval c; node_id := node_id c;
     _connection := _connection c; _connected := _connected c;
     _should_run := _should_run c; _reconnect_count := x;
     _status := _status c; _is_draining := _is_draining c; sent := sent c |}.

(** The [status] setter. *)
Definition set_status (x : NodeStatus) (c : t) : t :=
  {| reconnect_delay := reconnect_delay c;
     max_reconnect_attempts := max_reconnect_attempts c;
     heartbeat_interval := heartbeat_interval c; node_id := node_id c;
     _connection := _connection c; _connected := _connected c;
     _should_run := _should_run c; _reconnect_count := _reconnect_count c;
     _status := x; _is_draining := _is_draining c; sent := sent c |}.

Definition record_send (frame : Event) (delivered : bool) (c : t) : t :=
  {| reconnect_delay := reconnect_delay c;
     max_reconnect_attempts := max_reconnect_attempts c;
     heartbeat_interval := heartbeat_interval c; node_id := node_id c;
     _connection := _connection c; _connected := _connected c;
     _should_run := _should_run c; _reconnect_count := _reconnect_count c;
     _status := _status c; _is_draining := _is_draining c;
     sent := (sent c ++ [(frame, delivered)])%list |}.

(** [BackendClient(backend_config, node_config)]. *)
Definition init (reconnect_delay_seconds max_attempts heartbeat_interval_seconds : Z)
    (id : string) : t :=
  {| reconnect_delay := reconnect_delay_seconds;
     max_reconnect_attempts := max_attempts;
     heartbeat_interval := inject_Z heartbeat_interval_seconds;
     node_id := id;
     _connection := false; _connected := false; _should_run := false;
     _reconnect_count := 0; _status := OFFLINE; _is_draining := false;
     sent := [] |}.

Definition is_connected (c : t) : bool := _connected c && _connection c.

(** The [status] property. *)
Definition status (c : t) : NodeStatus := _status c.

(** The frames handed to [send_message], oldest first. *)
Definition emitted (c : t) : list Event := (sent c).*1.

Definition connect (net : Net) (c : t) : bool * t :=
  if _connected c then (true, c)
  else
    match dial net with
    | Established =>
        (true, set_status ONLINE (set_reconnect_count 0
                 (set_connected true (set_connection true c))))
    | InvalidStatusCode _ => (false, c)
    | DialFails _ => (false, c)
    end.

Definition disconnect (c : t) : t :=
  set_connected false (set_connection false (set_status OFFLINE (set_should_run false c))).

(** [send_message] returns a boolean and never raises. *)
Definition send_message (net : Net) (message : Event) (c : t) : bool * t :=
  if negb (is_connected c) then (false, record_send message false c)
  else
    match wire net (length (sent c)) with
    | Written => (true, record_send message true c)
    | ConnectionClosed => (false, record_send message false (set_connected false c))
    | SendFails _ => (false, record_send message false c)
    end.

Definition send_heartbeat (net : Net) (metrics : NodeMetrics) (c : t) : bool * t :=
  send_message net (HeartbeatEvent (node_id c) (_status c) metrics) c.

Definition send_instance_started (net : Net) (rental_id container_id ssh_host : string)
    (ssh_port : Z) (additional_ports : gmap string Z) (c : t) : bool * t :=
  send_message net
    (InstanceStartedEvent rental_id container_id
       {| Models.ssh_host := ssh_host; Models.ssh_port := ssh_port;
          Models.additional_ports := additional_ports |}) c.

Definition send_instance_stopped (net : Net) (rental_id container_id reason : string)
    (error_message : option string) (c : t) : bool * t :=
  send_message net (InstanceStoppedEvent rental_id container_id reason error_message) c.

Definition send_error (net : Net) (error_code message : string) (c : t) : bool * t :=
  send_message net (AgentErrorEvent (node_id c) error_code message) c.

(** *** The run loop, one dial at a time *)

Inductive AfterDial : Type :=
| Break
| SleepAndRetry (delay : Z)
| Serve.

Definition backoff_delay (base count : Z) : Z :=
  Z.min (base * 2 ^ Z.min count 5) 300.

(** The head of the [while] body of [run]: dial, and on failure count
    the attempt and either give up or compute the delay to sleep. *)
Definition run_dial (net : Net) (c : t) : AfterDial * t :=
  let '(connected, c) := connect net c in
  if negb connected then
    let c := set_reconnect_count (_reconnect_count c + 1) c in
    if (0 <? max_reconnect_attempts c)%Z
       && (max_reconnect_attempts c <=? _reconnect_count c)%Z
    then (Break, c)
    else (SleepAndRetry (backoff_delay (reconnect_delay c) (_reconnect_count c)), c)
  else (Serve, c).

(** The tail of the [while] body, once the heartbeat or the listen task
    has completed: the sleep before the next dial, if any. *)
Definition run_after_serve (c : t) : option Z * t :=
  if _should_run c then
    (Some (reconnect_delay c),
     set_reconnect_count (_reconnect_count c + 1) (set_connected false c))
  else (None, c).

(** [n] dials in a row, each answered by [net]: the delays slept, until
    the loop breaks or a session is served. *)
Fixpoint dial_delays (net : Net) (n : nat) (c : t) : list Z :=
  match n with
  | O => []
  | S n' =>
      match run_dial net c with
      | (SleepAndRetry delay, c') => delay :: dial_delays net n' c'
      | (_, _) => []
      end
  end.

(** One turn of [_heartbeat_loop]: [None] when the loop condition fails,
    else the heartbeat is sent (a raising [get_metrics] is logged) and
    the turn ends on [sleep(self.heartbeat_interval)], read then. *)
Definition heartbeat_turn (net : Net) (get_metrics : result NodeMetrics) (c : t)
    : option Q * t :=
  if _should_run c && is_connected c then
    let c' := match get_metrics with
              | Ok metrics => (send_heartbeat net metrics c).2
              | Raise _ => c
              end in
    (Some (heartbeat_interval c'), c')
  else (None, c).

Definition stop (c : t) : t := set_should_run false c.

End BackendClient.

(** ** main.py: the orchestrator *)

Module AgentOrchestrator.
Import Models.

(** Everything outside the process, as it answers during one step. *)
Record World : Type := {
  daemon : DockerManager.Daemon;
  os : TunnelManager.Os;
  net : BackendClient.Net;
}.

(** The orchestrator with its three components. [settings.docker] and
    [settings.frp] are the config objects held by the two managers
    (the constructors store the reference, not a copy), so they are
    read and written there. Of the rest of [settings] only
    [settings.resources.max_concurrent_rentals] is kept. *)
Record t : Type := {
  settings_max_concurrent_rentals : Z;
  docker : DockerManager.t;
  tunnel : TunnelManager.Host;
  backend : BackendClient.t;
  _running : bool;
}.

Definition set_docker (x : DockerManager.t) (a : t) : t :=
  {| settings_max_concurrent_rentals := settings_max_concurrent_rentals a;
     docker := x; tunnel := tunnel a; backend := backend a; _running := _running a |}.

Definition set_tunnel (x : TunnelManager.Host) (a : t) : t :=
  {| settings_max_concurrent_rentals := settings_max_concurrent_rentals a;
     docker := docker a; tunnel := x; backend := backend a; _running := _running a |}.

Definition set_backend (x : BackendClient.t) (a : t) : t :=
  {| settings_max_concurrent_rentals := settings_max_concurrent_rentals a;
     docker := docker a; tunnel := tunnel a; backend := x; _running := _running a |}.

Definition set_running (x : bool) (a : t) : t :=
  {| settings_max_concurrent_rentals := settings_max_concurrent_rentals a;
     docker := docker a; tunnel := tunnel a; backend := backend a; _running := x |}.

Definition settings_docker (a : t) : DockerManager.DockerConfig :=
  DockerManager.config (docker a).

Definition settings_frp (a : t) : TunnelManager.FRPConfig :=
  TunnelManager.config (TunnelManager.mgr (tunnel a)).

Definition in_docker {A} (m : M DockerManager.t A) : M t A := zoom docker set_docker m.

Definition in_tunnel {A} (m : M TunnelManager.Host A) : M t A := zoom tunnel set_tunnel m.

(** A call into the backend client; none of its methods raises. *)
Definition in_backend {A} (f : BackendClient.t -> A * BackendClient.t) : M t A :=
  fun a => let '(r, b) := f (backend a) in (Ok r, set_backend b a).

Definition set_backend_status (s : NodeStatus) : M t unit :=
  modify (fun a => set_backend (BackendClient.set_status s (backend a)) a).

(** The [try] block of [_handle_start_instance]. *)
Definition start_instance_try (w : World) (data : StartInstanceCommandData) : M t unit :=
  let rental_id := start_rental_id data in
  '(container_id, connection_info) ←
    in_docker (DockerManager.start_container (daemon w) data);
  let local_ports := DockerManager.get_container_ports (daemon w) container_id in
  in_tunnel (TunnelManager.create_tunnel (os w) rental_id
               (proxy_port_mapping data) (Some local_ports)) ;;
  a ← get;
  in_backend (BackendClient.send_instance_started (net w) rental_id container_id
                (TunnelManager.server_addr (settings_frp a))
                (default 22 (proxy_port_mapping data !! "22"))
                (filter (fun kv => kv.1 ≠ "22") (proxy_port_mapping data))) ;;
  a ← get;
  if decide (BackendClient.status (backend a) = ONLINE)
  then set_backend_status BUSY
  else mret tt.

Definition _handle_start_instance (w : World) (command : BackendCommand) : M t unit :=
  match command with
  | StartInstanceCommand data =>
      try_except (start_instance_try w data)
        (fun e =>
           in_backend (BackendClient.send_error (net w)
                         "START_INSTANCE_FAILED" (Exn.str e)) ;;
           mret tt)
  | _ => mret tt
  end.

(** The [try] block of [_handle_stop_instance]. *)
Definition stop_instance_try (w : World) (data : StopInstanceCommandData) : M t unit :=
  let rental_id := stop_rental_id data in
  let container_id := stop_container_id data in
  in_tunnel (TunnelManager.destroy_tunnel rental_id) ;;
  in_docker (DockerManager.stop_container (daemon w) container_id
               (Some rental_id) (graceful data) (timeout_seconds data)) ;;
  in_backend (BackendClient.send_instance_stopped (net w)
                rental_id container_id "requested" None) ;;
  active ← in_docker (DockerManager.list_active_rentals (daemon w));
  if decide (active = ∅)
  then set_backend_status ONLINE
  else mret tt.

Definition _handle_stop_instance (w : World) (command : BackendCommand) : M t unit :=
  match command with
  | StopInstanceCommand data =>
      let rental_id := stop_rental_id data in
      let container_id := stop_container_id data in
      try_except (stop_instance_try w data)
        (fun e =>
           in_backend (BackendClient.send_instance_stopped (net w)
                         rental_id container_id "error" (Some (Exn.str e))) ;;
           mret tt)
  | _ => mret tt
  end.

Definition _handle_drain_node (command : BackendCommand) : M t unit :=
  match command with
  | DrainNodeCommand _ => set_backend_status MAINTENANCE
  | _ => mret tt
  end.

Definition _handle_update_config (command : BackendCommand) : M t unit :=
  match command with
  | UpdateConfigCommand data =>
      let config := config data in
      (if (0 <? heartbeat_interval_ms config)%Z
       then
         interval ← pure_result (truediv (heartbeat_interval_ms config) 1000);
         modify (fun a =>
           set_backend (BackendClient.set_heartbeat_interval interval (backend a)) a)
       else mret tt) ;;
      (match cfg_allowed_images config with
       | [] => mret tt
       | _ :: _ =>
           modify (fun a =>
             set_docker (DockerManager.set_config
                           (DockerManager.set_allowed_images (cfg_allowed_images config)
                              (settings_docker a)) (docker a)) a)
       end)
  | _ => mret tt
  end.

(** [self._command_handlers.get(event_type)] after the four
    [register_handler] calls of the constructor. *)
Definition registered_handler (w : World) (command : BackendCommand) : M t unit :=
  match command with
  | StartInstanceCommand _ => _handle_start_instance w command
  | StopInstanceCommand _ => _handle_stop_instance w command
  | DrainNodeCommand _ => _handle_drain_node command
  | UpdateConfigCommand _ => _handle_update_config command
  end.

(** A parsed command run the way [_handle_message] runs it: an
    exception escaping the handler becomes an [agent_error] with code
    HANDLER_ERROR. *)
Definition handle_command (w : World) (command : BackendCommand) : M t unit :=
  try_except (registered_handler w command)
    (fun e =>
       in_backend (BackendClient.send_error (net w) "HANDLER_ERROR" (Exn.str e)) ;;
       mret tt).

(** Whether the registered handler of [command] runs to its end. The
    start and stop handlers catch every exception in their own [try],
    and the drain handler has nothing that raises; the update handler
    has no [try] around its division. *)
Definition runs_to_end (command : BackendCommand) : bool :=
  match command with
  | UpdateConfigCommand data =>
      if (0 <? heartbeat_interval_ms (config data))%Z
      then is_ok (truediv (heartbeat_interval_ms (config data)) 1000)
      else true
  | _ => true
  end.

(** The state a handler leaves. *)
Definition exec (m : M t unit) (a : t) : t := (m a).2.

(** [connect] of the backend client, on the orchestrator's state. *)
Definition connect (w : World) (a : t) : bool * t :=
  let '(ok, b) := BackendClient.connect (net w) (backend a) in (ok, set_backend b a).

Definition shutdown (a : t) : t :=
  if negb (_running a) then a
  else
    let a := set_running false a in
    let a := set_backend (BackendClient.set_status OFFLINE (backend a)) a in
    let a := set_backend (BackendClient.disconnect (backend a)) a in
    exec (in_tunnel TunnelManager.destroy_all_tunnels) a.

(** The frame [send_instance_started] is called for. *)
Definition started_event (a : t) (data : StartInstanceCommandData)
    (container_id : string) : Event :=
  InstanceStartedEvent (start_rental_id data) container_id
    {| ssh_host := TunnelManager.server_addr (settings_frp a);
       ssh_port := default 22%Z (proxy_port_mapping data !! "22");
       additional_ports := filter (fun kv => kv.1 ≠ "22") (proxy_port_mapping data) |}.

(** The two frames [send_instance_stopped] is called for. *)
Definition requested_event (data : StopInstanceCommandData) : Event :=
  InstanceStoppedEvent (stop_rental_id data) (stop_container_id data) "requested" None.

Definition error_event (data : StopInstanceCommandData) (e : Exn.t) : Event :=
  InstanceStoppedEvent (stop_rental_id data) (stop_container_id data) "error"
    (Some (Exn.str e)).

(** The events a step hands to the session, given the states before
    and after it. *)
Definition emitted_during (before after : t) : list Event :=
  drop (length (BackendClient.sent (backend before)))
       (BackendClient.emitted (backend after)).

(** [AgentOrchestrator(settings)]: the two managers take the config
    objects, the client copies the scalars it needs. [disk0] is what the
    temp directory holds when the process starts. *)
Definition init (max_concurrent_rentals : Z) (docker_config : DockerManager.DockerConfig)
    (frp : TunnelManager.FRPConfig) (reconnect_delay_seconds max_reconnect_attempts
     heartbeat_interval_seconds : Z) (node_id : string)
    (disk0 : gmap string string) : t :=
  {| settings_max_concurrent_rentals := max_concurrent_rentals;
     docker := {| DockerManager.config := docker_config;
                  DockerManager._active_containers := ∅ |};
     tunnel := {| TunnelManager.mgr :=
                    {| TunnelManager.config := frp;
                       TunnelManager._frpc_path := None;
                       TunnelManager._active_tunnels := ∅;
                       TunnelManager._tunnel_configs := ∅ |};
                  TunnelManager.disk := disk0 |};
     backend := BackendClient.init reconnect_delay_seconds max_reconnect_attempts
                  heartbeat_interval_seconds node_id;
     _running := false |}.

End AgentOrchestrator.

(** ** hardware.py *)

Module Hardware.

(** [f"{cuda_version // 1000}.{(cuda_version % 1000) // 10}"] of
    [detect_gpus]. *)
Definition cuda_version_string (cuda_version : Z) : string :=
  Py.str_int (cuda_version / 1000) +:+ "." +:+ Py.str_int ((cuda_version mod 1000) / 10).

(** [psutil.sensors_temperatures()]: a dict from sensor name to its list
    of readings, kept in its order, each reading by its [current] value. *)
Definition Sensors : Type := list (string * list Q).

(** [temps[name]] for [name in temps]. *)
Fixpoint readings_of (name : string) (temps : Sensors) : option (list Q) :=
  match temps with
  | [] => None
  | (k, readings) :: rest =>
      if String.eqb k name then Some readings else readings_of name rest
  end.

(** The first loop of [_get_cpu_temperature], over the common names. *)
Fixpoint common_sensor (names : list string) (temps : Sensors) : option Q :=
  match names with
  | [] => None
  | name :: rest =>
      match readings_of name temps with
      | Some (reading :: _) => Some reading
      | _ => common_sensor rest temps
      end
  end.

(** The second loop, over [temps.values()]. *)
Fixpoint first_available (temps : Sensors) : option Q :=
  match temps with
  | [] => None
  | (_, reading :: _) :: _ => Some reading
  | (_, []) :: rest => first_available rest
  end.

(** [_get_cpu_temperature]; the argument is what
    [psutil.sensors_temperatures()] returned or raised. *)
Definition _get_cpu_temperature (sensors : result Sensors) : option Q :=
  match sensors with
  | Raise _ => None
  | Ok [] => None
  | Ok temps =>
      match common_sensor ["coretemp"; "cpu_thermal"; "k10temp"; "zenpower"] temps with
      | Some reading => Some reading
      | None => first_available temps
      end
  end.

End Hardware.

(** ** config.py *)

Module Config.

Record BackendConfig : Type := {
  url : string;
  api_key : string;
  reconnect_delay_seconds : Z;
  max_reconnect_attempts : Z;
}.

Record NodeConfig : Type := {
  id : string;
  heartbeat_interval_seconds : Z;
}.

Record ResourceConfig : Type := {
  max_concurrent_rentals : Z;
  reserved_cpu_cores : Z;
}.

(** [AgentSettings], without the logging section and the float
    [reserved_ram_gb]. *)
Record AgentSettings : Type := {
  backend : BackendConfig;
  node : NodeConfig;
  frp : TunnelManager.FRPConfig;
  docker : DockerManager.DockerConfig;
  resources : ResourceConfig;
}.

Definition validate_required (s : AgentSettings) : list string :=
  ((if String.eqb (url (backend s)) "" then ["backend.url"] else [])
   ++ (if String.eqb (api_key (backend s)) "" then ["backend.api_key"] else [])
   ++ (if String.eqb (id (node s)) "" then ["node.id"] else [])
   ++ (if String.eqb (TunnelManager.server_addr (frp s)) "" then ["frp.server_addr"] else [])
   ++ (if String.eqb (TunnelManager.token (frp s)) "" then ["frp.token"] else []))%list.

(** [AgentOrchestrator(settings)]. *)
Definition orchestrator (s : AgentSettings) (disk0 : gmap string string)
    : AgentOrchestrator.t :=
  AgentOrchestrator.init (max_concurrent_rentals (resources s)) (docker s) (frp s)
    (reconnect_delay_seconds (backend s)) (max_reconnect_attempts (backend s))
    (heartbeat_interval_seconds (node s)) (id (node s)) disk0.

End Config.

(** ** Steps of a run, and a concrete deployment to evaluate them on *)

Module Run.
Import Models AgentOrchestrator.

(** What can happen to the orchestrator between start and shutdown:
    a command arrives and is handled, the session is lost (the tail of
    the loop of [BackendClient.run]), or the session is (re)dialled. *)
Inductive Operation : Type :=
| Handle (command : BackendCommand)
| SessionLost
| Connect.

Definition perform (w : World) (op : Operation) (a : t) : t :=
  match op with
  | Handle command => exec (handle_command w command) a
  | SessionLost => set_backend (BackendClient.run_after_serve (backend a)).2 a
  | Connect => (connect w a).2
  end.

(** A run: steps in a row, each in the world of its moment. *)
Fixpoint perform_all (steps : list (World * Operation)) (a : t) : t :=
  match steps with
  | [] => a
  | (w, op) :: rest => perform_all rest (perform w op a)
  end.

Definition node_status (a : t) : NodeStatus := BackendClient.status (backend a).

Definition container_records (a : t) : gmap string string :=
  DockerManager._active_containers (docker a).

Definition tunnel_records (a : t) : gmap string Z :=
  TunnelManager._active_tunnels (TunnelManager.mgr (tunnel a)).

End Run.

(** Operations of the tunnel supervisor, with the set of config files
    written so far carried along (a ghost of the run, not a field). *)
Module TunnelRun.
Import TunnelManager.

Inductive Op : Type :=
| Create (os : Os) (rental_id : string) (port_mapping : gmap string Z)
    (local_ports : option (gmap string Z))
| Destroy (rental_id : string)
| ListActive (os : Os)
| DestroyAll.

Definition step (op : Op) (h : Host) : Host :=
  match op with
  | Create os rental_id port_mapping local_ports =>
      (create_tunnel os rental_id port_mapping local_ports h).2
  | Destroy rental_id => (destroy_tunnel rental_id h).2
  | ListActive os => (list_active_tunnels os h).2
  | DestroyAll => (destroy_all_tunnels h).2
  end.

(** The file [create_tunnel] writes, if it gets that far. *)
Definition written (op : Op) (h : Host) : gset string :=
  match op with
  | Create os rental_id port_mapping local_ports =>
      if bool_decide (is_Some (_active_tunnels (mgr h) !! rental_id)) then ∅
      else
        match resolved_ports os port_mapping local_ports with
        | Raise _ => ∅
        | Ok lp =>
            match _generate_tunnel_config os (mgr h) rental_id port_mapping lp with
            | Raise _ => ∅
            | Ok _ => {[ config_path os rental_id ]}
            end
        end
  | _ => ∅
  end.

Fixpoint run (ops : list Op) (h : Host) (generated : gset string) : Host * gset string :=
  match ops with
  | [] => (h, generated)
  | op :: rest => run rest (step op h) (generated ∪ written op h)
  end.

(** What [destroy_tunnel] does to a recorded tunnel, and
    [list_active_tunnels] to a dead one: both records dropped, the
    recorded config file removed. *)
Definition forget (rental_id : string) (h : Host) : Host :=
  {| mgr := set_tunnel_configs (delete rental_id (_tunnel_configs (mgr h)))
              (set_active_tunnels (delete rental_id (_active_tunnels (mgr h))) (mgr h));
     disk := match _tunnel_configs (mgr h) !! rental_id with
             | Some path => delete path (disk h)
             | None => disk h
             end |}.

(** Every generated file still on disk is the recorded config of an
    active tunnel. *)
Definition files_accounted (h : Host) (generated : gset string) : Prop :=
  forall path, path ∈ generated -> is_Some (disk h !! path) ->
    exists rental_id,
      is_Some (_active_tunnels (mgr h) !! rental_id)
      /\ _tunnel_configs (mgr h) !! rental_id = Some path.

(** Every active tunnel has a recorded config file, one of the
    generated. *)
Definition tunnels_have_config (h : Host) (generated : gset string) : Prop :=
  forall rental_id, is_Some (_active_tunnels (mgr h) !! rental_id) ->
    exists path, _tunnel_configs (mgr h) !! rental_id = Some path /\ path ∈ generated.

(** [TunnelManager(config)], on a disk holding [disk0]. *)
Definition init (config : FRPConfig) (disk0 : gmap string string) : Host :=
  {| mgr := {| config := config; _frpc_path := None;
               _active_tunnels := ∅; _tunnel_configs := ∅ |};
     disk := disk0 |}.

End TunnelRun.

Module Sample.
Import Models.

(** A healthy daemon; the next container it runs gets the id [next_id]. *)
Definition daemon_running (next_id : string) : DockerManager.Daemon :=
  {| DockerManager.images_get := fun _ => DockerManager.ImagePresent;
     DockerManager.images_pull := fun _ => DockerManager.Pulled;
     DockerManager.containers_run := fun _ => DockerManager.Started next_id;
     DockerManager.get_and_stop := fun _ _ _ => DockerManager.Stopped;
     DockerManager.inspect := fun _ => DockerManager.Status "running";
     DockerManager.host_ports := fun _ => {[ "22" := 49153 ]} |}.

Definition daemon : DockerManager.Daemon := daemon_running "c1".

(** A daemon that stops containers but answers the inspection of
    [container_id] with an API error (HTTP 500). *)
Definition daemon_failing_inspect (container_id : string) : DockerManager.Daemon :=
  {| DockerManager.images_get := DockerManager.images_get daemon;
     DockerManager.images_pull := DockerManager.images_pull daemon;
     DockerManager.containers_run := DockerManager.containers_run daemon;
     DockerManager.get_and_stop := DockerManager.get_and_stop daemon;
     DockerManager.inspect := fun id =>
       if String.eqb id container_id
       then DockerManager.InspectRaises
              (DockerManager.Uncaught "500 Server Error: Internal Server Error")
       else DockerManager.Status "running";
     DockerManager.host_ports := DockerManager.host_ports daemon |}.

(** Decimal literals with an optional sign: enough of [int()] for port
    keys. *)
Definition decimal (s : string) : option Z :=
  Z.of_int <$> NilZero.int_of_string s.

Definition os : TunnelManager.Os :=
  {| TunnelManager.is_executable := fun p => String.eqb p "/usr/bin/frpc";
     TunnelManager.which := fun _ => None;
     TunnelManager.expanduser := fun _ => "/root/.local/bin/frpc";
     TunnelManager.mktemp := fun prefix suffix => "/tmp/" +:+ prefix +:+ "k3j2" +:+ suffix;
     TunnelManager.popen := fun _ _ => TunnelManager.Spawned 4242;
     TunnelManager.poll := fun _ => None;
     TunnelManager.py_int := decimal |}.

(** The same machine once every child has exited with [code]. *)
Definition os_exited (code : Z) : TunnelManager.Os :=
  {| TunnelManager.is_executable := TunnelManager.is_executable os;
     TunnelManager.which := TunnelManager.which os;
     TunnelManager.expanduser := TunnelManager.expanduser os;
     TunnelManager.mktemp := TunnelManager.mktemp os;
     TunnelManager.popen := TunnelManager.popen os;
     TunnelManager.poll := fun _ => Some code;
     TunnelManager.py_int := TunnelManager.py_int os |}.

(** A backend that refuses every dial. *)
Definition net_down : BackendClient.Net :=
  {| BackendClient.dial := BackendClient.DialFails "Connection refused";
     BackendClient.wire := fun _ => BackendClient.Written |}.

Definition net : BackendClient.Net :=
  {| BackendClient.dial := BackendClient.Established;
     BackendClient.wire := fun _ => BackendClient.Written |}.

Definition world_with (d : DockerManager.Daemon) : AgentOrchestrator.World :=
  {| AgentOrchestrator.daemon := d;
     AgentOrchestrator.os := os;
     AgentOrchestrator.net := net |}.

Definition world : AgentOrchestrator.World := world_with daemon.

Definition frp : TunnelManager.FRPConfig :=
  {| TunnelManager.server_addr := "relay.example.com";
     TunnelManager.server_port := 7000;
     TunnelManager.token := "s3cret";
     TunnelManager.frpc_path_setting := None |}.

Definition docker_config (allowed : list string) : DockerManager.DockerConfig :=
  {| DockerManager.allowed_images := allowed;
     DockerManager.defaults := {| DockerManager.network_mode := "bridge";
                                  DockerManager.restart_policy := "no" |};
     DockerManager.cleanup_after_seconds := 300 |}.

(** [AgentOrchestrator(settings)] with the default settings, the given
    allow-list and node id "node-1", once [run] has set [_running] and
    [_should_run]. *)
Definition fresh (allowed : list string) : AgentOrchestrator.t :=
  {| AgentOrchestrator.settings_max_concurrent_rentals := 0;
     AgentOrchestrator.docker :=
       {| DockerManager.config := docker_config allowed;
          DockerManager._active_containers := ∅ |};
     AgentOrchestrator.tunnel := TunnelRun.init frp ∅;
     AgentOrchestrator.backend :=
       BackendClient.set_should_run true (BackendClient.init 5 0 5 "node-1");
     AgentOrchestrator._running := true |}.

Definition limits : ResourceLimits :=
  {| gpu_indices := ["0"]; cpu_cores := 4; ram_limit := "16g"; disk_limit := None |}.

Definition start_data (rental_id image : string) (ports : gmap string Z)
    : StartInstanceCommandData :=
  {| start_rental_id := rental_id; image := image; resource_limits := limits;
     env_vars := ∅; proxy_port_mapping := ports |}.

Definition start (rental_id image : string) (ports : gmap string Z) : BackendCommand :=
  StartInstanceCommand (start_data rental_id image ports).

Definition stop_data (rental_id container_id : string) : StopInstanceCommandData :=
  {| stop_rental_id := rental_id; stop_container_id := container_id;
     graceful := true; timeout_seconds := 30 |}.

Definition stop (rental_id container_id : string) : BackendCommand :=
  StopInstanceCommand (stop_data rental_id container_id).

Definition drain : BackendCommand :=
  DrainNodeCommand {| drain_node_id := "node-1"; reason := None |}.

Definition default_allowed : list string :=
  [ "pytorch/pytorch:*"; "tensorflow/tensorflow:*";
    "jupyter/scipy-notebook:*"; "nvidia/cuda:*" ].

(** The session is up, no rental yet. *)
Definition connected (allowed : list string) : AgentOrchestrator.t :=
  Run.perform world Run.Connect (fresh allowed).

(** Connected, then one rental started: the happy path of a start with
    [rental_id = "r1"], [image = "pytorch/pytorch:2.0.0"] and
    [proxy_port_mapping = {"22": 30022, "8888": 30888}]. *)
Definition one_rental : AgentOrchestrator.t :=
  Run.perform world
    (Run.Handle (start "r1" "pytorch/pytorch:2.0.0" {[ "22" := 30022; "8888" := 30888 ]}))
    (connected default_allowed).

(** A second rental, "r2" in container "c2", next to the first. *)
Definition two_rentals : AgentOrchestrator.t :=
  Run.perform (world_with (daemon_running "c2"))
    (Run.Handle (start "r2" "nvidia/cuda:12.2" {[ "22" := 30023 ]}))
    one_rental.

(** The node drained while the rental "r1" runs. *)
Definition drained : AgentOrchestrator.t :=
  Run.perform world (Run.Handle drain) one_rental.

Definition update (interval_ms max_rentals : Z) (images : list string) : BackendCommand :=
  UpdateConfigCommand
    {| update_node_id := "node-1";
       config := {| heartbeat_interval_ms := interval_ms;
                    max_concurrent_rentals := max_rentals;
                    cfg_allowed_images := images |} |}.

End Sample.

(** * Properties *)

Import Models.

Ltac unfold_method :=
  unfold mbind, M_bind, mret, M_ret, raise, get, modify, pure_result,
    try_except, attempt, zoom in *.

Ltac destruct_match :=
  match goal with
  | |- context [match ?x with _ => _ end] => destruct x eqn:?
  end.

(** ** Builtins and globs, on examples *)

Example fnmatch_tag_star :
  Fnmatch.fnmatch "pytorch/pytorch:2.0.0" "pytorch/pytorch:*" = true.
Proof. reflexivity. Qed.

Example fnmatch_tagless :
  Fnmatch.fnmatch "pytorch/pytorch:2.0.0" "pytorch/pytorch" = false.
Proof. reflexivity. Qed.

Example fnmatch_sets :
  (Fnmatch.fnmatch "cuda12" "cuda[0-9][!a-z]",
   Fnmatch.fnmatch "cudaX2" "cuda[0-9][!a-z]",
   Fnmatch.fnmatch "a]" "a[]]",
   Fnmatch.fnmatch "a[b" "a[b",
   Fnmatch.fnmatch "x-" "x[a-]",
   Fnmatch.fnmatch "xm" "x[z-a]",
   Fnmatch.fnmatch "xm" "x[!z-a]") = (true, false, true, true, true, false, true).
Proof. reflexivity. Qed.

(** A range that is empty leaves what else the brackets hold: a lone
    [!] then matches any character, and [!c] is the complement of [c]. *)
Example fnmatch_empty_ranges :
  (Fnmatch.fnmatch "repo/img:x" "repo/img:[z-a!]",
   Fnmatch.fnmatch "imgc" "img[b-a!c]",
   Fnmatch.fnmatch "imgd" "img[b-a!c]",
   Fnmatch.fnmatch "x-" "x[z-a!-c]",
   Fnmatch.fnmatch "xm" "x[a-cz-a]") = (true, false, true, false, false).
Proof. reflexivity. Qed.

Example str_int_examples :
  (Py.str_int 0, Py.str_int 137, Py.str_int (-15)) = ("0", "137", "-15").
Proof. reflexivity. Qed.

(** ** Control session: sending *)

Section Sending.
Import BackendClient.
Variables (net : Net) (message : Event) (c : t).

Lemma sent_send_message :
  sent (send_message net message c).2
  = (sent c ++ [(message, (send_message net message c).1)])%list.
Proof.
  unfold send_message.
  destruct (negb (is_connected c)); [reflexivity|].
  destruct (wire net (length (sent c))); reflexivity.
Qed.

Lemma status_send_message : _status (send_message net message c).2 = _status c.
Proof.
  unfold send_message.
  destruct (negb (is_connected c)); [reflexivity|].
  destruct (wire net (length (sent c))); reflexivity.
Qed.

Lemma heartbeat_interval_send_message :
  heartbeat_interval (send_message net message c).2 = heartbeat_interval c.
Proof.
  unfold send_message.
  destruct (negb (is_connected c)); [reflexivity|].
  destruct (wire net (length (sent c))); reflexivity.
Qed.

Lemma emitted_send_message :
  emitted (send_message net message c).2 = (emitted c ++ [message])%list.
Proof. unfold emitted. rewrite sent_send_message, fmap_app. reflexivity. Qed.

End Sending.

(** ** Reconnect backoff *)

Section Backoff.
Import BackendClient.

Lemma connect_false net c :
  (connect net c).1 = false ->
  _connected c = false /\ dial net <> Established /\ (connect net c).2 = c.
Proof.
  unfold connect. destruct (_connected c); [discriminate|].
  destruct (dial net); simpl; intros H; try discriminate; repeat split; discriminate.
Qed.

Lemma run_dial_failed net c :
  _connected c = false -> dial net <> Established ->
  let n := (_reconnect_count c + 1)%Z in
  run_dial net c =
    (if (0 <? max_reconnect_attempts c)%Z && (max_reconnect_attempts c <=? n)%Z
     then Break
     else SleepAndRetry (backoff_delay (reconnect_delay c) n),
     set_reconnect_count n c).
Proof.
  intros Hc Hd. unfold run_dial, connect. rewrite Hc.
  destruct (dial net); [congruence| |]; simpl;
    destruct (_ && _); reflexivity.
Qed.

Lemma dial_delays_unlimited net k : forall c,
  _connected c = false -> dial net <> Established ->
  max_reconnect_attempts c = 0%Z ->
  dial_delays net k c
  = map (fun i => backoff_delay (reconnect_delay c) (_reconnect_count c + Z.of_nat i))
        (seq 1 k).
Proof.
  induction k as [|k IH]; intros c Hc Hd Hmax; [reflexivity|].
  cbn [dial_delays]. rewrite run_dial_failed by assumption.
  rewrite Hmax. cbn [Z.ltb Z.compare andb seq map].
  rewrite IH by assumption. cbn [set_reconnect_count reconnect_delay _reconnect_count].
  f_equal.
  rewrite <- (seq_shift k 1), map_map.
  apply map_ext. intros i. f_equal. lia.
Qed.

End Backoff.

(** C6. After a failed dial the attempt counter n is the previous count
    plus one (1 for the first failure of a fresh client) and, unless the
    configured maximum of attempts is reached and the loop breaks, the
    loop sleeps min(base * 2^min(n,5), 300) seconds before the next dial.
    With unlimited attempts, k failures in a row give these delays for
    n = count+1 .. count+k, and from a fresh client with base 5 the first
    four are 10, 20, 40, 80. *)
Theorem reconnect_backoff (net : BackendClient.Net) (c : BackendClient.t) :
  (BackendClient.connect net c).1 = false ->
  let base := BackendClient.reconnect_delay c in
  let limit := BackendClient.max_reconnect_attempts c in
  let n := (BackendClient._reconnect_count c + 1)%Z in
  BackendClient._reconnect_count (BackendClient.run_dial net c).2 = n
  /\ (BackendClient.run_dial net c).1
     = (if (0 <? limit)%Z && (limit <=? n)%Z then BackendClient.Break
        else BackendClient.SleepAndRetry (Z.min (base * 2 ^ Z.min n 5) 300))
  /\ (limit = 0%Z -> forall k,
        BackendClient.dial_delays net k c
        = map (fun i =>
                 let n := (BackendClient._reconnect_count c + Z.of_nat i)%Z in
                 Z.min (base * 2 ^ Z.min n 5) 300) (seq 1 k))
  /\ (limit = 0%Z -> base = 5%Z -> BackendClient._reconnect_count c = 0%Z ->
        BackendClient.dial_delays net 4 c = [10; 20; 40; 80]%Z).
Proof.
  intros Hfail base limit n.
  destruct (connect_false _ _ Hfail) as (Hc & Hd & _).
  pose proof (run_dial_failed net c Hc Hd) as Hrun. cbv zeta in Hrun.
  rewrite Hrun. cbn [fst snd]. repeat split.
  - intros Hlimit k. apply dial_delays_unlimited; assumption.
  - intros Hlimit Hbase Hcount.
    rewrite dial_delays_unlimited by assumption.
    subst base. rewrite Hbase, Hcount. reflexivity.
Qed.

Lemma reconnect_backoff_witness :
  BackendClient.dial_delays Sample.net_down 4 (BackendClient.init 5 0 5 "node-1")
  = [10; 20; 40; 80]%Z.
Proof.
  apply (reconnect_backoff Sample.net_down (BackendClient.init 5 0 5 "node-1"));
    reflexivity.
Defined.

(** ** Python builtins *)

Lemma to_int_proper (z : Z) : Z.to_int z <> Decimal.Pos Decimal.Nil /\ Z.to_int z <> Decimal.Neg Decimal.Nil.
Proof.
  destruct z as [|p|p]; cbn; split; try discriminate; intros [= H];
    exact (DecimalPos.Unsigned.to_uint_nonnil p H).
Qed.

Lemma str_int_inj (n m : Z) : Py.str_int n = Py.str_int m -> n = m.
Proof.
  unfold Py.str_int. intros H.
  destruct (to_int_proper n) as [Hn1 Hn2], (to_int_proper m) as [Hm1 Hm2].
  pose proof (NilZero.isi _ Hn1 Hn2) as En.
  pose proof (NilZero.isi _ Hm1 Hm2) as Em.
  rewrite H in En. rewrite En in Em. injection Em as Em.
  rewrite <- (DecimalZ.of_to n), <- (DecimalZ.of_to m). now f_equal.
Qed.

(** ** Tunnel status *)

(** C8, as stated, fails: a tunnel child that exited with code 1 is
    reported as "exited_error_1", not "exited_code_1". *)
Lemma tunnel_status_is_not_exited_code :
  let m := TunnelManager.mgr (AgentOrchestrator.tunnel Sample.one_rental) in
  TunnelManager._active_tunnels m !! "r1" = Some 4242%Z
  /\ TunnelManager.poll (Sample.os_exited 1) 4242 = Some 1%Z
  /\ TunnelManager.get_tunnel_status (Sample.os_exited 1) m "r1" = "exited_error_1"
  /\ TunnelManager.get_tunnel_status (Sample.os_exited 1) m "r1"
     <> "exited_code_" +:+ Py.str_int 1.
Proof. vm_compute. repeat split; discriminate. Qed.

(** C8, amended. The status of a rental_id is exactly one of four: it is
    "not_found" iff no tunnel process is recorded for it, "running" iff
    the recorded process has not exited, "exited_ok" iff it exited with
    code 0, and "exited_error_N" iff it exited with the nonzero code N. *)
Theorem tunnel_status_cases (os : TunnelManager.Os) (m : TunnelManager.t)
    (rental_id : string) :
  let status := TunnelManager.get_tunnel_status os m rental_id in
  let recorded := TunnelManager._active_tunnels m !! rental_id in
  (status = "not_found" <-> recorded = None)
  /\ (status = "running" <->
      exists process, recorded = Some process /\ TunnelManager.poll os process = None)
  /\ (status = "exited_ok" <->
      exists process, recorded = Some process
                      /\ TunnelManager.poll os process = Some 0%Z)
  /\ (forall N : Z, N <> 0%Z ->
      (status = "exited_error_" +:+ Py.str_int N <->
       exists process, recorded = Some process
                       /\ TunnelManager.poll os process = Some N)).
Proof.
  cbv zeta. unfold TunnelManager.get_tunnel_status.
  destruct (TunnelManager._active_tunnels m !! rental_id) as [process|] eqn:Hrec;
    [destruct (TunnelManager.poll os process) as [code|] eqn:Hpoll;
     [destruct (code =? 0)%Z eqn:Hcode;
      [apply Z.eqb_eq in Hcode; subst code | apply Z.eqb_neq in Hcode] |] |];
    repeat split; intros;
    repeat match goal with
      | H : exists _, _ /\ _ |- _ => destruct H as (? & ? & ?)
      | H : Some _ = Some _ |- _ => injection H as H; subst
      | H : "exited_error_" +:+ _ = "exited_error_" +:+ _ |- _ =>
          cbn in H; injection H as H; apply str_int_inj in H; subst
      end;
    try discriminate; try congruence; eauto.
Qed.

Lemma tunnel_status_cases_witness :
  TunnelManager.get_tunnel_status (Sample.os_exited 1)
    (TunnelManager.mgr (AgentOrchestrator.tunnel Sample.one_rental)) "r1"
  = "exited_error_" +:+ Py.str_int 1.
Proof.
  apply (tunnel_status_cases (Sample.os_exited 1)
           (TunnelManager.mgr (AgentOrchestrator.tunnel Sample.one_rental)) "r1").
  - discriminate.
  - exists 4242%Z. split; vm_compute; reflexivity.
Defined.

(** ** True division of ints *)

Section TrueDivision.
Import Py.

Lemma div_half_even_bounds n d :
  0 < d -> n / d <= div_half_even n d <= n / d + 1.
Proof.
  intros Hd. unfold div_half_even.
  destruct (2 * (n mod d) ?= d)%Z; [destruct (Z.even (n / d))| |]; lia.
Qed.

Lemma div_half_even_lower n d c :
  0 < d -> c * d <= n -> c <= div_half_even n d.
Proof.
  intros Hd Hc. pose proof (div_half_even_bounds n d Hd).
  assert (c <= n / d) by (apply Z.div_le_lower_bound; lia). lia.
Qed.

Lemma div_half_even_below n d c :
  0 < d -> 2 * n < (2 * c - 1) * d -> div_half_even n d < c.
Proof.
  intros Hd Hn. unfold div_half_even.
  pose proof (Z.div_mod n d ltac:(lia)) as Hdm.
  pose proof (Z.mod_pos_bound n d Hd) as Hr.
  assert (Hq : n / d < c) by (apply Z.div_lt_upper_bound; nia).
  destruct (Z.compare_spec (2 * (n mod d)) d) as [He|Hl|Hg]; [|lia|];
    [destruct (Z.even (n / d)); [lia|]|]; nia.
Qed.

Lemma div_half_even_up n d c :
  0 < d -> Z.even c = true -> (2 * c - 1) * d <= 2 * n -> c <= div_half_even n d.
Proof.
  intros Hd Hc Hn. unfold div_half_even.
  pose proof (Z.div_mod n d ltac:(lia)) as Hdm.
  pose proof (Z.mod_pos_bound n d Hd) as Hr.
  assert (Hq : c - 1 <= n / d) by (apply Z.div_le_lower_bound; nia).
  destruct (Z.compare_spec (2 * (n mod d)) d) as [He|Hl|Hg].
  - destruct (Z.even (n / d)) eqn:Hev; [|lia].
    assert (n / d <> c - 1); [|lia].
    intros Heq. rewrite Heq in Hev.
    replace (c - 1) with (Z.pred c) in Hev by lia.
    rewrite Z.even_pred in Hev. rewrite <- Z.negb_even in Hev. rewrite Hc in Hev. discriminate.
  - assert (n / d <> c - 1) by nia. lia.
  - lia.
Qed.

(** |m - n/d| <= 1/2 *)
Lemma div_half_even_near n d :
  0 < d -> Z.abs (2 * (div_half_even n d * d - n)) <= d.
Proof.
  intros Hd. unfold div_half_even.
  pose proof (Z.div_mod n d ltac:(lia)) as Hdm.
  pose proof (Z.mod_pos_bound n d Hd) as Hr.
  destruct (Z.compare_spec (2 * (n mod d)) d) as [He|Hl|Hg];
    [destruct (Z.even (n / d))| |]; nia.
Qed.


(** The last place of [A / b]: with [k] as in [true_div_pos], the
    scaled quotient is below [2 ^ 53], and at least [2 ^ 52] unless the
    quotient is subnormal. *)
Lemma last_place a b :
  0 < a -> 0 < b ->
  let A := a * 2 ^ 1074 in
  let E := Z.log2 (A / b) in
  let k := Z.max (E - 52) 0 in
  0 <= E /\ 0 <= k
  /\ A < 2 ^ 53 * (b * 2 ^ k)
  /\ A < 2 ^ (E + 1) * b
  /\ (0 < A / b -> 2 ^ E * b <= A)
  /\ (52 <= E -> k = E - 52 /\ 2 ^ 52 * (b * 2 ^ k) <= A).
Proof.
  intros Ha Hb A E k.
  assert (HA : 0 < A) by (subst A; apply Z.mul_pos_pos; [lia | apply Z.pow_pos_nonneg; lia]).
  pose proof (Z.log2_nonneg (A / b)) as HE. fold E in HE.
  pose proof (Z.div_mod A b ltac:(lia)) as Hdm.
  pose proof (Z.mod_pos_bound A b Hb) as Hr.
  assert (Hq0 : 0 <= A / b) by (apply Z.div_pos; lia).
  assert (Hup : A < 2 ^ (E + 1) * b).
  { destruct (Z.eq_dec (A / b) 0) as [Hz|Hnz].
    - pose proof (Z.pow_pos_nonneg 2 (E + 1) ltac:(lia) ltac:(lia)). nia.
    - pose proof (Z.log2_spec (A / b) ltac:(lia)) as [_ Hs]. fold E in Hs.
      replace (Z.succ E) with (E + 1) in Hs by lia. nia. }
  assert (Hlow : 0 < A / b -> 2 ^ E * b <= A).
  { intros Hpos. pose proof (Z.log2_spec (A / b) Hpos) as [Hs _]. fold E in Hs. nia. }
  split; [exact HE|]. split; [lia|]. split; [|split; [exact Hup|split; [exact Hlow|]]].
  - destruct (Z.le_gt_cases 52 E) as [H52|H52].
    + replace k with (E - 52) by lia.
      replace (2 ^ 53 * (b * 2 ^ (E - 52))) with (2 ^ (E + 1) * b); [exact Hup|].
      replace (E + 1) with (53 + (E - 52)) by lia.
      rewrite Z.pow_add_r by lia. ring.
    + replace k with 0 by lia. rewrite Z.pow_0_r.
      assert (2 ^ (E + 1) <= 2 ^ 52) by (apply Z.pow_le_mono_r; lia).
      assert (2 ^ 52 < 2 ^ 53) by (apply Z.pow_lt_mono_r; lia).
      nia.
  - intros H52. split; [lia|].
    replace k with (E - 52) by lia.
    replace (2 ^ 52 * (b * 2 ^ (E - 52))) with (2 ^ E * b).
    + apply Hlow. destruct (Z.eq_dec (A / b) 0) as [Hz|]; [|lia].
      exfalso. unfold E in H52. rewrite Hz in H52. cbn in H52. lia.
    + replace E with (52 + (E - 52)) at 1 by lia.
      rewrite Z.pow_add_r by lia. ring.
Qed.

(** The largest double is [2 ^ 1024 - 2 ^ 971]; a quotient rounds beyond
    it from [2 ^ 1024 - 2 ^ 970] on. *)
Lemma true_div_pos_overflow a b :
  0 < a -> 0 < b ->
  (true_div_pos a b = None <-> (2 ^ 1024 - 2 ^ 970) * b <= a).
Proof.
  intros Ha Hb. unfold true_div_pos.
  destruct (last_place a b Ha Hb) as (HE & Hk & Hlt & Hup & Hlow & H52).
  set (A := a * 2 ^ 1074) in *. set (E := Z.log2 (A / b)) in *.
  set (k := Z.max (E - 52) 0) in *.
  set (m := div_half_even A (b * 2 ^ k)).
  assert (Hd : 0 < b * 2 ^ k) by (apply Z.mul_pos_pos; [lia | apply Z.pow_pos_nonneg; lia]).
  assert (Hm53 : m <= 2 ^ 53).
  { pose proof (div_half_even_bounds A (b * 2 ^ k) Hd) as [_ Hm]. fold m in Hm.
    assert (A / (b * 2 ^ k) < 2 ^ 53) by (apply Z.div_lt_upper_bound; lia). lia. }
  assert (Hsplit : 2 ^ 1024 - 2 ^ 970 = (2 ^ 54 - 1) * 2 ^ 970) by reflexivity.
  assert (H2045 : 2 ^ 2045 = 2 ^ 970 * 2 ^ 1075) by reflexivity.
  assert (H1075 : 2 ^ 1075 = 2 * 2 ^ 1074) by reflexivity.
  destruct (2 ^ (2098 - k) <=? m)%Z eqn:Hov.
  - apply Z.leb_le in Hov. split; [intros _|reflexivity].
    (* not overflowing below the threshold *)
    destruct (Z.le_gt_cases ((2 ^ 1024 - 2 ^ 970) * b) a) as [|Hbelow]; [assumption|].
    exfalso.
    assert (HE97 : E <= 2097).
    { destruct (Z.le_gt_cases E 2097) as [|Hgt]; [assumption|]. exfalso.
      assert (0 < A / b).
      { destruct (Z.eq_dec (A / b) 0) as [Hz|]; [|assert (0 <= A / b) by (apply Z.div_pos; lia); lia].
        unfold E in Hgt. rewrite Hz in Hgt. cbn in Hgt. lia. }
      specialize (Hlow H).
      assert (2 ^ 2098 <= 2 ^ E) by (apply Z.pow_le_mono_r; lia).
      assert (H2098 : 2 ^ 2098 = 2 ^ 1024 * 2 ^ 1074) by reflexivity.
      assert (0 < 2 ^ 970) by reflexivity. assert (0 < 2 ^ 1074) by reflexivity.
      assert (0 < 2 ^ 1024) by reflexivity.
      subst A. nia. }
    destruct (Z.eq_dec E 2097) as [HE7|HE7].
    + assert (k = 2045) by lia.
      assert (m < 2 ^ 53).
      { apply div_half_even_below; [exact Hd|].
        replace k with 2045 by lia. subst A.
        rewrite H2045. assert (0 < 2 ^ 1074) by reflexivity.
        rewrite Hsplit in Hbelow. rewrite H1075. nia. }
      replace (2098 - k) with 53 in Hov by lia. lia.
    + assert (54 <= 2098 - k) by lia.
      assert (2 ^ 54 <= 2 ^ (2098 - k)) by (apply Z.pow_le_mono_r; lia).
      assert (2 ^ 53 < 2 ^ 54) by reflexivity. lia.
  - apply Z.leb_gt in Hov. split; [discriminate|]. intros Habove. exfalso.
    assert (HA : (2 ^ 1024 - 2 ^ 970) * b * 2 ^ 1074 <= A).
    { subst A. apply Z.mul_le_mono_nonneg_r; [|exact Habove]. apply Z.pow_nonneg. lia. }
    assert (Hq : 2 ^ 2097 <= A / b).
    { apply Z.div_le_lower_bound; [lia|].
      assert (H2097 : 2 ^ 2097 = 2 ^ 1023 * 2 ^ 1074) by reflexivity.
      assert (2 ^ 1023 <= 2 ^ 1024 - 2 ^ 970) by (vm_compute; discriminate).
      assert (0 < 2 ^ 1074) by reflexivity. rewrite H2097. nia. }
    assert (HE97 : 2097 <= E).
    { unfold E. apply Z.log2_le_pow2; [|exact Hq].
      assert (0 < 2 ^ 2097) by reflexivity. lia. }
    destruct (H52 ltac:(lia)) as [Hkeq H52'].
    destruct (Z.eq_dec E 2097) as [HE7|HE7].
    + assert (2 ^ 53 <= m).
      { apply div_half_even_up; [exact Hd|reflexivity|].
        replace k with 2045 by lia. rewrite H2045. subst A.
        rewrite Hsplit in Habove. rewrite H1075.
        assert (0 < 2 ^ 1074) by reflexivity. nia. }
      replace (2098 - k) with 53 in Hov by lia. lia.
    + assert (2 ^ 52 <= m) by (apply div_half_even_lower; [exact Hd|lia]).
      assert (2 ^ (2098 - k) <= 2 ^ 52).
      { destruct (Z.le_gt_cases 0 (2098 - k)).
        - apply Z.pow_le_mono_r; lia.
        - rewrite Z.pow_neg_r by lia. apply Z.pow_nonneg. lia. }
      lia.
Qed.


(** A quotient in the normal range ([2 ^ -1022 <= a / b]) that does not
    overflow becomes a positive double within half a unit in the last
    place: the relative error is at most [2 ^ -53]. *)
Lemma true_div_pos_near a b x :
  0 < a -> 0 < b -> 2 ^ 52 * b <= a * 2 ^ 1074 ->
  true_div_pos a b = Some x ->
  exists M, x = Qred (M # Z.to_pos (2 ^ 1074))
            /\ 0 < M
            /\ 2 ^ 53 * Z.abs (M * b - a * 2 ^ 1074) <= a * 2 ^ 1074.
Proof.
  intros Ha Hb Hnormal. unfold true_div_pos.
  destruct (last_place a b Ha Hb) as (HE & Hk & Hlt & Hup & Hlow & H52).
  set (A := a * 2 ^ 1074) in *. set (E := Z.log2 (A / b)) in *.
  set (k := Z.max (E - 52) 0) in *.
  set (m := div_half_even A (b * 2 ^ k)).
  destruct (2 ^ (2098 - k) <=? m)%Z; [discriminate|]. intros [= <-].
  assert (Hd : 0 < b * 2 ^ k) by (apply Z.mul_pos_pos; [lia | apply Z.pow_pos_nonneg; lia]).
  assert (HE52 : 52 <= E).
  { unfold E. apply Z.log2_le_pow2.
    - apply Z.lt_le_trans with (2 ^ 52); [reflexivity|].
      apply Z.div_le_lower_bound; lia.
    - apply Z.div_le_lower_bound; lia. }
  destruct (H52 HE52) as [Hkeq Hlow52].
  exists (m * 2 ^ k). split; [reflexivity|].
  assert (Hm : 2 ^ 52 <= m) by (apply div_half_even_lower; [exact Hd | lia]).
  assert (0 < 2 ^ k) by (apply Z.pow_pos_nonneg; lia).
  assert (0 < 2 ^ 52) by reflexivity.
  split; [nia|].
  pose proof (div_half_even_near A (b * 2 ^ k) Hd) as Hnear. fold m in Hnear.
  replace (m * 2 ^ k * b - A) with (m * (b * 2 ^ k) - A) by ring.
  assert (H53 : 2 ^ 53 = 2 * 2 ^ 52) by reflexivity. rewrite H53.
  assert (Z.abs (2 * (m * (b * 2 ^ k) - A)) = 2 * Z.abs (m * (b * 2 ^ k) - A)) by lia.
  nia.
Qed.


Lemma Qabs_near (M a : Z) (D b P : positive) :
  (Z.pos P * Z.abs (M * Z.pos b - a * Z.pos D) <= a * Z.pos D)%Z ->
  (Qabs ((M # D) - (a # b)) <= (a # b) * (1 # P))%Q.
Proof.
  intros H. unfold Qminus, Qplus, Qopp, Qmult, Qabs, Qle. cbn [Qnum Qden].
  rewrite !Pos2Z.inj_mul.
  replace (M * Z.pos b + - a * Z.pos D)%Z with (M * Z.pos b - a * Z.pos D)%Z by ring.
  nia.
Qed.

(** [ms / 1000] for a positive [ms]: it overflows from
    [1000 * (2 ^ 1024 - 2 ^ 970)] on, and is otherwise a positive double
    within a relative error of [2 ^ -53] of the quotient. *)
Lemma true_div_1000 ms :
  (0 < ms)%Z ->
  match Py.true_div ms 1000 with
  | Quotient x =>
      (ms < 1000 * (2 ^ 1024 - 2 ^ 970))%Z
      /\ (0 < x)%Q
      /\ (Qabs (x - (ms # 1000)) <= (ms # 1000) * (1 # 2 ^ 53))%Q
  | ZeroDivisionError => False
  | OverflowError => (1000 * (2 ^ 1024 - 2 ^ 970) <= ms)%Z
  end.
Proof.
  intros Hms. unfold Py.true_div.
  change (1000 =? 0)%Z with false. cbv iota.
  destruct (ms =? 0)%Z eqn:Hz; [apply Z.eqb_eq in Hz; lia|].
  replace (Z.abs ms) with ms by lia. change (Z.abs 1000) with 1000%Z.
  rewrite (Z.sgn_pos ms) by lia. change (1 * Z.sgn 1000 <? 0)%Z with false.
  pose proof (true_div_pos_overflow ms 1000 Hms ltac:(lia)) as Hov.
  destruct (true_div_pos ms 1000) as [x|] eqn:Hdiv.
  - split; [|split].
    + destruct (Z.le_gt_cases ((2 ^ 1024 - 2 ^ 970) * 1000) ms) as [Hle|Hgt]; [|lia].
      apply Hov in Hle. discriminate.
    + destruct (true_div_pos_near ms 1000 x Hms ltac:(lia)) as (M & -> & HM & _);
        [|exact Hdiv|].
      * assert (0 < 2 ^ 1074)%Z by reflexivity.
        assert (2 ^ 52 * 1000 < 2 ^ 1074)%Z by reflexivity. nia.
      * rewrite Qred_correct. unfold Qlt. cbn [Qnum Qden]. lia.
    + destruct (true_div_pos_near ms 1000 x Hms ltac:(lia)) as (M & -> & _ & HM);
        [|exact Hdiv|].
      * assert (0 < 2 ^ 1074)%Z by reflexivity.
        assert (2 ^ 52 * 1000 < 2 ^ 1074)%Z by reflexivity. nia.
      * rewrite Qred_correct. apply Qabs_near.
        rewrite Z2Pos.id by reflexivity.
        change (Z.pos (2 ^ 53)) with (2 ^ 53)%Z. exact HM.
  - assert ((2 ^ 1024 - 2 ^ 970) * 1000 <= ms)%Z by (now apply Hov). lia.
Qed.

(** The same for the division as the handler makes it. *)
Lemma true_div_1000_result ms :
  (0 < ms)%Z ->
  if (1000 * (2 ^ 1024 - 2 ^ 970) <=? ms)%Z
  then truediv ms 1000
       = Raise (Exn.Foreign "integer division result too large for a float")
  else exists x, truediv ms 1000 = Ok x
                 /\ (0 < x)%Q
                 /\ (Qabs (x - (ms # 1000)) <= (ms # 1000) * (1 # 2 ^ 53))%Q.
Proof.
  intros Hms. pose proof (true_div_1000 ms Hms) as H. unfold truediv.
  destruct (Py.true_div ms 1000) as [x| |].
  - destruct H as (Hlt & Hpos & Hnear).
    destruct (Z.leb_spec (1000 * (2 ^ 1024 - 2 ^ 970)) ms) as [Hle|_]; [lia|].
    exists x. auto.
  - destruct H.
  - destruct (Z.leb_spec (1000 * (2 ^ 1024 - 2 ^ 970)) ms) as [_|Hlt]; [reflexivity|lia].
Qed.

End TrueDivision.

(** ** Orchestrator: general facts about the handlers *)

Section Handlers.
Import AgentOrchestrator.
Variable w : World.

Lemma set_docker_same a : set_docker (docker a) a = a.
Proof. destruct a; reflexivity. Qed.

Lemma emitted_during_send a message :
  emitted_during a (set_backend (BackendClient.send_message (net w) message (backend a)).2 a)
  = [message].
Proof.
  unfold emitted_during. cbn [backend set_backend].
  rewrite emitted_send_message. unfold BackendClient.emitted.
  rewrite <- (length_fmap fst (BackendClient.sent (backend a))).
  rewrite drop_app_length. reflexivity.
Qed.

Lemma emitted_during_nothing a a' :
  BackendClient.sent (backend a') = BackendClient.sent (backend a) ->
  emitted_during a a' = [].
Proof.
  unfold emitted_during, BackendClient.emitted. intros ->.
  rewrite <- (length_fmap fst (BackendClient.sent (backend a))).
  apply drop_all.
Qed.

(** A [try] whose [except] clause only reports never raises. *)
Lemma reporting_try_returns body (report : Exn.t -> BackendClient.t -> bool * BackendClient.t) a :
  (try_except body (fun e => in_backend (report e) ;; mret tt) a).1 = Ok tt.
Proof.
  unfold_method. unfold in_backend.
  destruct (body a) as [[[]|e] a']; cbn; [reflexivity|].
  destruct (report e (backend a')); reflexivity.
Qed.

Lemma handler_returns command a :
  runs_to_end command = true -> (registered_handler w command a).1 = Ok tt.
Proof.
  destruct command as [data|data|data|data]; intros Hend.
  - apply reporting_try_returns.
  - apply reporting_try_returns.
  - reflexivity.
  - cbn in *. unfold_method.
    destruct (0 <? _)%Z; [destruct (truediv _ _); [|discriminate]|];
      destruct (cfg_allowed_images _); reflexivity.
Qed.

(** So the HANDLER_ERROR clause of [_handle_message] is not taken by a
    handler that runs to its end. *)
Lemma exec_handle_command command a :
  runs_to_end command = true ->
  exec (handle_command w command) a = exec (registered_handler w command) a.
Proof.
  intros Hend.
  unfold exec, handle_command. pose proof (handler_returns command a Hend) as H.
  unfold try_except.
  destruct (registered_handler w command a) as [[[]|e] a'];
    [reflexivity | discriminate].
Qed.

(** The update handler when its division raises: nothing is applied,
    and [_handle_message] reports the exception. *)
Lemma update_config_raises data a e :
  (0 < heartbeat_interval_ms (config data))%Z ->
  truediv (heartbeat_interval_ms (config data)) 1000 = Raise e ->
  _handle_update_config (UpdateConfigCommand data) a = (Raise e, a)
  /\ exec (handle_command w (UpdateConfigCommand data)) a
     = set_backend
         (BackendClient.send_message (net w)
            (AgentErrorEvent (BackendClient.node_id (backend a)) "HANDLER_ERROR"
               (Exn.str e)) (backend a)).2 a.
Proof.
  intros Hms Hdiv.
  assert (H : _handle_update_config (UpdateConfigCommand data) a = (Raise e, a)).
  { unfold _handle_update_config. unfold_method.
    apply Z.ltb_lt in Hms. rewrite Hms, Hdiv. reflexivity. }
  split; [exact H|].
  unfold exec, handle_command, try_except. cbn [registered_handler]. rewrite H.
  unfold in_backend, BackendClient.send_error. unfold_method.
  destruct (BackendClient.send_message _ _ _); reflexivity.
Qed.

(** The update handler when it runs to its end. *)
Lemma update_config_returns data a :
  runs_to_end (UpdateConfigCommand data) = true ->
  let cfg := config data in
  _handle_update_config (UpdateConfigCommand data) a
  = (Ok tt,
     let a1 :=
       if (0 <? heartbeat_interval_ms cfg)%Z then
         match truediv (heartbeat_interval_ms cfg) 1000 with
         | Ok interval =>
             set_backend (BackendClient.set_heartbeat_interval interval (backend a)) a
         | Raise _ => a
         end
       else a in
     match cfg_allowed_images cfg with
     | [] => a1
     | _ :: _ =>
         set_docker (DockerManager.set_config
                       (DockerManager.set_allowed_images (cfg_allowed_images cfg)
                          (settings_docker a1)) (docker a1)) a1
     end).
Proof.
  cbn. intros Hend. unfold _handle_update_config. unfold_method.
  destruct (0 <? _)%Z; [destruct (truediv _ _); [|discriminate]|];
    destruct (cfg_allowed_images _); reflexivity.
Qed.


(** *** A disallowed image *)

Lemma start_container_rejected d data m :
  DockerManager.is_image_allowed m (image data) = false ->
  DockerManager.start_container d data m
  = (Raise (Exn.ImageNotAllowedError
              (DockerManager.image_not_allowed_message m (image data))), m).
Proof.
  intros H. unfold DockerManager.start_container. unfold_method.
  rewrite H. reflexivity.
Qed.

Lemma escaping_not_image_error x :
  Exn.is_image_not_allowed (DockerManager.escaping_exn x) = false.
Proof. destruct x; reflexivity. Qed.

Lemma pull_image_outcome d image m :
  DockerManager.pull_image d image m = (Ok tt, m)
  \/ exists e, DockerManager.pull_image d image m = (Raise e, m)
               /\ Exn.is_image_not_allowed e = false.
Proof.
  unfold DockerManager.pull_image.
  destruct (DockerManager.images_get d image);
    [| destruct (DockerManager.images_pull d image) |];
    first [left; reflexivity
          | right; eexists; split; [reflexivity|];
            first [reflexivity | apply escaping_not_image_error]].
Qed.

Lemma start_container_allowed d data m e m' :
  DockerManager.is_image_allowed m (image data) = true ->
  DockerManager.start_container d data m = (Raise e, m') ->
  Exn.is_image_not_allowed e = false.
Proof.
  intros H. unfold DockerManager.start_container.
  unfold mbind, M_bind, get. rewrite H. cbn [negb].
  destruct (pull_image_outcome d (image data) m) as [-> | (e' & -> & He')].
  - destruct (DockerManager.containers_run d _); cbn;
      intros [= <- <-] || intros [=];
      first [reflexivity | apply escaping_not_image_error].
  - intros [= <- <-]. exact He'.
Qed.

Lemma start_instance_rejected data a :
  DockerManager.is_image_allowed (docker a) (image data) = false ->
  _handle_start_instance w (StartInstanceCommand data) a
  = (Ok tt,
     set_backend
       (BackendClient.send_error (net w) "START_INSTANCE_FAILED"
          (DockerManager.image_not_allowed_message (docker a) (image data))
          (backend a)).2 a).
Proof.
  intros H. unfold _handle_start_instance, start_instance_try, in_docker, in_backend.
  unfold_method. rewrite (start_container_rejected _ _ _ H).
  rewrite set_docker_same. cbn.
  destruct (BackendClient.send_error _ _ _ _); reflexivity.
Qed.

End Handlers.

(** ** Tunnel supervisor: what each operation does to the records and
       to the disk *)

Section TunnelFacts.
Import TunnelManager.

Lemma set_frpc_path_same m : set_frpc_path (_frpc_path m) m = m.
Proof. destruct m; reflexivity. Qed.

(** Resolving the binary touches the cache only. *)
Lemma frpc_path_frame os m :
  exists cache, (frpc_path os m).2 = set_frpc_path cache m.
Proof.
  unfold frpc_path. unfold_method.
  destruct (_frpc_path m) eqn:Hc.
  { exists (_frpc_path m). now rewrite set_frpc_path_same. }
  repeat (destruct_match; cbn); eauto.
  exists (_frpc_path m). now rewrite set_frpc_path_same.
Qed.

(** [create_tunnel], with the plumbing of the method calls removed. *)
Lemma create_tunnel_unfold os rental_id port_mapping local_ports h :
  create_tunnel os rental_id port_mapping local_ports h =
  if bool_decide (is_Some (_active_tunnels (mgr h) !! rental_id)) then (Ok tt, h)
  else
    match resolved_ports os port_mapping local_ports with
    | Raise e => (Raise e, h)
    | Ok ports =>
        match _generate_tunnel_config os (mgr h) rental_id port_mapping ports with
        | Raise e => (Raise e, h)
        | Ok content =>
            let p0 := config_path os rental_id in
            let m1 := set_tunnel_configs (<[rental_id := p0]> (_tunnel_configs (mgr h)))
                        (mgr h) in
            let disk1 := <[p0 := content]> (disk h) in
            let '(found, m2) := frpc_path os m1 in
            match found with
            | Raise e =>
                (Raise (Exn.TunnelError ("Failed to start tunnel: " +:+ Exn.str e)),
                 {| mgr := m2; disk := delete p0 disk1 |})
            | Ok path =>
                match popen os path p0 with
                | Spawned pid =>
                    (Ok tt,
                     {| mgr := set_active_tunnels
                                 (<[rental_id := pid]> (_active_tunnels m2)) m2;
                        disk := disk1 |})
                | PopenFileNotFound =>
                    (Raise (Exn.FRPCNotFoundError ("frpc not found at " +:+ path)),
                     {| mgr := m2; disk := delete p0 disk1 |})
                | PopenRaises msg =>
                    (Raise (Exn.TunnelError ("Failed to start tunnel: " +:+ msg)),
                     {| mgr := m2; disk := delete p0 disk1 |})
                end
            end
        end
    end.
Proof.
  unfold create_tunnel, unlink. unfold_method.
  destruct (bool_decide _); [reflexivity|].
  destruct (resolved_ports _ _ _); [|reflexivity];
    (destruct (_generate_tunnel_config _ _ _ _ _); [|reflexivity]);
    cbn; (destruct (frpc_path _ _) as [[path|e] m2]; [|reflexivity]);
    destruct (popen _ _ _); reflexivity.
Qed.

(** The four ways [create_tunnel] can go. *)
Lemma create_tunnel_cases os rental_id port_mapping local_ports h :
  let out := create_tunnel os rental_id port_mapping local_ports h in
  let h' := out.2 in
  let p0 := config_path os rental_id in
  let written := TunnelRun.written (TunnelRun.Create os rental_id port_mapping local_ports) h in
  config (mgr h') = config (mgr h)
  /\ ( (* already present *)
       (is_Some (_active_tunnels (mgr h) !! rental_id) /\ out = (Ok tt, h) /\ written = ∅)
     \/ (* the config text could not be generated *)
       (_active_tunnels (mgr h) !! rental_id = None
        /\ (exists e, out = (Raise e, h)) /\ written = ∅)
     \/ (* file written, child not started *)
       (_active_tunnels (mgr h) !! rental_id = None
        /\ (exists e, out.1 = Raise e) /\ written = {[ p0 ]}
        /\ _active_tunnels (mgr h') = _active_tunnels (mgr h)
        /\ _tunnel_configs (mgr h') = <[rental_id := p0]> (_tunnel_configs (mgr h))
        /\ disk h' = delete p0 (disk h))
     \/ (* file written, child started *)
       (_active_tunnels (mgr h) !! rental_id = None
        /\ out.1 = Ok tt /\ written = {[ p0 ]}
        /\ exists pid content,
             _active_tunnels (mgr h') = <[rental_id := pid]> (_active_tunnels (mgr h))
             /\ _tunnel_configs (mgr h') = <[rental_id := p0]> (_tunnel_configs (mgr h))
             /\ disk h' = <[p0 := content]> (disk h)) ).
Proof.
  cbv zeta. rewrite create_tunnel_unfold.
  unfold TunnelRun.written.
  destruct (bool_decide (is_Some (_active_tunnels (mgr h) !! rental_id))) eqn:Hpresent.
  { apply bool_decide_eq_true in Hpresent. split; [reflexivity|]. left. auto. }
  apply bool_decide_eq_false in Hpresent.
  rewrite <- eq_None_not_Some in Hpresent.
  destruct (resolved_ports os port_mapping local_ports) as [ports|e].
  2:{ split; [reflexivity|]. right; left. eauto. }
  destruct (_generate_tunnel_config os (mgr h) rental_id port_mapping ports)
    as [content|e].
  2:{ split; [reflexivity|]. right; left. eauto. }
  cbv zeta.
  destruct (frpc_path_frame os
              (set_tunnel_configs
                 (<[rental_id := config_path os rental_id]> (_tunnel_configs (mgr h)))
                 (mgr h))) as [cache Hcache].
  destruct (frpc_path os _) as [found m2]. cbn [snd] in Hcache. subst m2.
  destruct found as [path|e]; cbn.
  2:{ split; [reflexivity|]. right; right; left.
      repeat split; eauto. now rewrite delete_insert_eq. }
  destruct (popen os path _) as [pid| |msg]; cbn.
  - split; [reflexivity|]. right; right; right. repeat split; eauto.
  - split; [reflexivity|]. right; right; left.
    repeat split; eauto. now rewrite delete_insert_eq.
  - split; [reflexivity|]. right; right; left.
    repeat split; eauto. now rewrite delete_insert_eq.
Qed.

End TunnelFacts.

(** ** Orchestrator: start_instance *)

Section StartInstance.
Import AgentOrchestrator.
Variable w : World.

Lemma emitted_during_app a a' l :
  BackendClient.sent (backend a') = (BackendClient.sent (backend a) ++ l)%list ->
  emitted_during a a' = l.*1.
Proof.
  unfold emitted_during, BackendClient.emitted. intros ->.
  rewrite fmap_app, <- (length_fmap fst (BackendClient.sent (backend a))).
  apply drop_app_length.
Qed.

(** The dict comprehension that drops the key "22" is [del] of it. *)
Lemma without_ssh_port (port_mapping : gmap string Z) :
  filter (fun kv => kv.1 ≠ "22") port_mapping = delete "22" port_mapping.
Proof.
  apply map_eq. intros k. apply option_eq. intros v.
  rewrite map_lookup_filter_Some, lookup_delete_Some. cbn.
  split; intros [H1 H2]; split; congruence.
Qed.

(** [_handle_start_instance]'s [try] block, with the plumbing of the
    method calls removed. *)
Lemma start_instance_try_unfold data a :
  start_instance_try w data a =
  match DockerManager.start_container (daemon w) data (docker a) with
  | (Raise e, d') => (Raise e, set_docker d' a)
  | (Ok (container_id, _), d') =>
      let a1 := set_docker d' a in
      match TunnelManager.create_tunnel (os w) (start_rental_id data)
              (proxy_port_mapping data)
              (Some (DockerManager.get_container_ports (daemon w) container_id))
              (tunnel a) with
      | (Raise e, h') => (Raise e, set_tunnel h' a1)
      | (Ok _, h') =>
          let a2 := set_tunnel h' a1 in
          let b := (BackendClient.send_message (net w)
                      (started_event a2 data container_id) (backend a)).2 in
          (Ok tt,
           if decide (BackendClient.status b = ONLINE)
           then set_backend (BackendClient.set_status BUSY b) (set_backend b a2)
           else set_backend b a2)
      end
  end.
Proof.
  unfold start_instance_try, in_docker, in_tunnel, in_backend, set_backend_status.
  unfold_method.
  destruct (DockerManager.start_container _ _ _) as [[[container_id ci]|e] d'];
    [|reflexivity]. cbn.
  destruct (TunnelManager.create_tunnel _ _ _ _ _) as [[[]|e] h']; [|reflexivity].
  cbn. unfold BackendClient.send_instance_started, started_event.
  destruct (BackendClient.send_message _ _ _) as [ok b]. cbn.
  destruct (decide _); reflexivity.
Qed.

End StartInstance.

(** ** Image allowance *)

Section Globs.
Import Fnmatch.

Lemma translate_literal_char c rest :
  is_meta c = false -> translate (c :: rest) = TLit c :: translate rest.
Proof.
  destruct c as [[] [] [] [] [] [] [] []]; intros H; try discriminate H; reflexivity.
Qed.

Lemma translate_literal pat :
  forallb (fun c => negb (is_meta c)) pat = true -> translate pat = map TLit pat.
Proof.
  induction pat as [|c pat IH]; [reflexivity|].
  cbn [forallb]. intros [Hc Hpat]%andb_prop.
  apply negb_true_iff in Hc.
  rewrite translate_literal_char by assumption. cbn [map]. now rewrite IH.
Qed.

Lemma matches_literal pat : forall name,
  matches (map TLit pat) name = true <-> name = pat.
Proof.
  induction pat as [|c pat IH]; intros [|x name]; cbn; try easy.
  rewrite andb_true_iff, IH. split.
  - intros [Hx ->]. apply Ascii.eqb_eq in Hx. now subst.
  - intros [= -> ->]. split; [apply Ascii.eqb_refl | reflexivity].
Qed.

Lemma list_ascii_of_string_inj s1 s2 :
  list_ascii_of_string s1 = list_ascii_of_string s2 -> s1 = s2.
Proof.
  intros H. rewrite <- (string_of_list_ascii_of_string s1),
    <- (string_of_list_ascii_of_string s2). now f_equal.
Qed.

(** A pattern without [*], [?] and [[] matches its own text and nothing
    else: no tag is implied. *)
Lemma fnmatch_literal name pat :
  literal_pattern pat = true -> (fnmatch name pat = true <-> name = pat).
Proof.
  unfold literal_pattern, fnmatch. intros H.
  rewrite translate_literal by assumption. rewrite matches_literal.
  split; [apply list_ascii_of_string_inj | now intros ->].
Qed.

Lemma translate_literal_app pat rest :
  forallb (fun c => negb (is_meta c)) pat = true ->
  translate (pat ++ rest) = (map TLit pat ++ translate rest)%list.
Proof.
  induction pat as [|c pat IH]; [reflexivity|].
  cbn [forallb]. intros [Hc Hpat]%andb_prop. apply negb_true_iff in Hc.
  cbn [app]. rewrite translate_literal_char by assumption.
  cbn [map app]. now rewrite IH.
Qed.

Lemma matches_star name : matches [TStar] name = true.
Proof. induction name as [|c name IH]; [reflexivity|]. cbn in *. exact IH. Qed.

Lemma matches_literal_then pat ts : forall name,
  matches (map TLit pat ++ ts) name = true
  <-> exists rest, name = (pat ++ rest)%list /\ matches ts rest = true.
Proof.
  induction pat as [|c pat IH]; intros name.
  - cbn. split; [eauto | now intros (rest & -> & H)].
  - destruct name as [|x name]; cbn.
    + split; [discriminate | intros (rest & [=] & _)].
    + rewrite andb_true_iff, IH. split.
      * intros [Hx (rest & -> & H)]. apply Ascii.eqb_eq in Hx. subst. eauto.
      * intros (rest & [= -> ->] & H). split; [apply Ascii.eqb_refl | eauto].
Qed.

Lemma list_ascii_of_string_app s1 s2 :
  list_ascii_of_string (s1 +:+ s2)
  = (list_ascii_of_string s1 ++ list_ascii_of_string s2)%list.
Proof. induction s1 as [|c s1 IH]; [reflexivity|]. simpl. f_equal. exact IH. Qed.

Lemma fnmatch_trailing_star name prefix :
  literal_pattern prefix = true ->
  (fnmatch name (prefix +:+ "*") = true <-> exists rest, name = prefix +:+ rest).
Proof.
  unfold literal_pattern, fnmatch. intros Hlit.
  rewrite list_ascii_of_string_app, translate_literal_app by assumption.
  change (translate (list_ascii_of_string "*")) with [TStar].
  rewrite matches_literal_then. split.
  - intros (rest & Hname & _). exists (string_of_list_ascii rest).
    apply list_ascii_of_string_inj.
    now rewrite list_ascii_of_string_app, list_ascii_of_string_of_list_ascii.
  - intros (rest & ->). exists (list_ascii_of_string rest).
    split; [apply list_ascii_of_string_app | apply matches_star].
Qed.

Lemma scan_closing rest : forall r pos acc,
  (fix scan (pos : ScanPos) (acc : list ascii) (r : list ascii) {struct r}
     : list Token :=
     match r with
     | [] => TLit "["%char :: translate rest
     | c :: r' =>
         match pos, c with
         | AtOpen, "!"%char => scan AfterBang (c :: acc) r'
         | Inside, "]"%char => make_set (rev acc) :: translate r'
         | _, _ => scan Inside (c :: acc) r'
         end
     end) pos acc r
  = match closing pos acc r with
    | None => TLit "["%char :: translate rest
    | Some (stuff, r') => make_set stuff :: translate r'
    end.
Proof.
  induction r as [|c r IH]; intros pos acc; [reflexivity|].
  cbn [closing].
  destruct pos; destruct c as [[] [] [] [] [] [] [] []];
    cbv beta iota; cbn [Ascii.eqb Bool.eqb]; cbv iota; first [apply IH | reflexivity].
Qed.

Lemma translate_bracket rest :
  translate ("["%char :: rest)
  = match closing AtOpen [] rest with
    | None => TLit "["%char :: translate rest
    | Some (stuff, r') => make_set stuff :: translate r'
    end.
Proof. apply scan_closing. Qed.


Lemma all_ascii_complete (P : ascii -> bool) :
  forallb P all_ascii = true -> forall c, P c = true.
Proof.
  intros H c. rewrite forallb_forall in H. apply H.
  rewrite <- (ascii_nat_embedding c). unfold all_ascii.
  apply in_map, in_seq. pose proof (nat_ascii_bounded c). lia.
Qed.

(** The set of one range, whatever its two ends are: an empty range
    leaves a set without members. *)
Lemma make_set_range lo hi :
  lo <> "!"%char -> hi <> "]"%char ->
  make_set [lo; "-"%char; hi]
  = if ascii_ltb hi lo then TSet false [] else TSet false [Range lo hi].
Proof.
  intros Hlo Hhi.
  assert (H : forallb (fun lo => forallb (fun hi =>
                Ascii.eqb lo "!" || Ascii.eqb hi "]"
                || bool_decide (make_set [lo; "-"%char; hi]
                                = if ascii_ltb hi lo then TSet false []
                                  else TSet false [Range lo hi]))
                all_ascii) all_ascii = true) by (vm_compute; reflexivity).
  pose proof (all_ascii_complete _ (all_ascii_complete _ H lo) hi) as Hc.
  cbv beta in Hc.
  apply Ascii.eqb_neq in Hlo, Hhi. rewrite Hlo, Hhi in Hc.
  now apply bool_decide_eq_true in Hc.
Qed.

(** The same after [!]: the complement, which is every character when
    the range is empty. *)
Lemma make_set_negated_range lo hi :
  hi <> "]"%char ->
  make_set ["!"%char; lo; "-"%char; hi]
  = if ascii_ltb hi lo then TAny else TSet true [Range lo hi].
Proof.
  intros Hhi.
  assert (H : forallb (fun lo => forallb (fun hi =>
                Ascii.eqb hi "]"
                || bool_decide (make_set ["!"%char; lo; "-"%char; hi]
                                = if ascii_ltb hi lo then TAny
                                  else TSet true [Range lo hi]))
                all_ascii) all_ascii = true) by (vm_compute; reflexivity).
  pose proof (all_ascii_complete _ (all_ascii_complete _ H lo) hi) as Hc.
  cbv beta in Hc.
  apply Ascii.eqb_neq in Hhi. rewrite Hhi in Hc.
  now apply bool_decide_eq_true in Hc.
Qed.


(** A token for one character between two literal texts. *)
Lemma matches_between p1 t p2 name :
  t <> TStar ->
  (matches (map TLit p1 ++ t :: map TLit p2) name = true
   <-> exists c, token_matches t c = true /\ name = (p1 ++ c :: p2)%list).
Proof.
  intros Ht. rewrite matches_literal_then. split.
  - intros (rest & -> & H). destruct rest as [|c rest].
    + destruct t; [contradiction | discriminate..].
    + assert (H' : token_matches t c && matches (map TLit p2) rest = true)
        by (destruct t; [contradiction | exact H..]).
      apply andb_prop in H' as [Hc Hrest]. apply matches_literal in Hrest. subst rest.
      eauto.
  - intros (c & Hc & ->). exists (c :: p2). split; [reflexivity|].
    assert (matches (map TLit p2) p2 = true) by now apply matches_literal.
    destruct t; [contradiction | cbn in *; now rewrite ?Hc..].
Qed.

Lemma string_between name p1 c p2 :
  list_ascii_of_string name
  = (list_ascii_of_string p1 ++ c :: list_ascii_of_string p2)%list
  <-> name = p1 +:+ String c p2.
Proof.
  split.
  - intros H. apply list_ascii_of_string_inj.
    now rewrite list_ascii_of_string_app.
  - intros ->. now rewrite list_ascii_of_string_app.
Qed.

(** [?] between two texts without glob characters stands for exactly
    one character. *)
Lemma fnmatch_question name p1 p2 :
  literal_pattern p1 = true -> literal_pattern p2 = true ->
  (fnmatch name (p1 +:+ String "?" p2) = true
   <-> exists c, name = p1 +:+ String c p2).
Proof.
  unfold literal_pattern, fnmatch. intros H1 H2.
  rewrite list_ascii_of_string_app, translate_literal_app by assumption.
  cbn [list_ascii_of_string translate]. rewrite (translate_literal _ H2).
  rewrite matches_between by discriminate. split.
  - intros (c & _ & H). exists c. now apply string_between.
  - intros (c & H). exists c. split; [reflexivity | now apply string_between].
Qed.

(** [[lo-hi]] between two such texts stands for one character from [lo]
    to [hi], so for none when [hi] is below [lo]; [[!lo-hi]] for one
    character outside, so for any when [hi] is below [lo]. *)
Lemma fnmatch_range (negated : bool) name p1 p2 lo hi :
  literal_pattern p1 = true -> literal_pattern p2 = true ->
  (negated = false -> lo <> "!"%char) -> hi <> "]"%char ->
  (fnmatch name
     (p1 +:+ "[" +:+ (if negated then "!" else "") +:+ String lo (String "-" (String hi ("]" +:+ p2))))
   = true
   <-> exists c,
         xorb negated (ascii_leb lo c && ascii_leb c hi) = true
         /\ name = p1 +:+ String c p2).
Proof.
  unfold literal_pattern, fnmatch. intros H1 H2 Hlo Hhi.
  rewrite list_ascii_of_string_app, translate_literal_app by assumption.
  assert (Htr : translate
            (list_ascii_of_string
               ("[" +:+ (if negated then "!" else "")
                +:+ String lo (String "-" (String hi ("]" +:+ p2)))))
          = (if negated
             then if ascii_ltb hi lo then TAny else TSet true [Range lo hi]
             else if ascii_ltb hi lo then TSet false [] else TSet false [Range lo hi])
            :: map TLit (list_ascii_of_string p2)).
  { apply Ascii.eqb_neq in Hhi.
    destruct negated;
      rewrite !list_ascii_of_string_app; cbn [list_ascii_of_string app];
      rewrite list_ascii_of_string_app; cbn [list_ascii_of_string app];
      rewrite translate_bracket; cbn [closing Ascii.eqb Bool.eqb rev app].
    - change (Ascii.eqb "-" "]") with false. cbv iota. rewrite Hhi.
      change (Ascii.eqb "]" "]") with true. cbv iota. cbn [rev app].
      rewrite make_set_negated_range by (now apply Ascii.eqb_neq).
      now rewrite (translate_literal _ H2).
    - specialize (Hlo eq_refl). apply Ascii.eqb_neq in Hlo. rewrite Hlo.
      change (Ascii.eqb "-" "]") with false. cbv iota. rewrite Hhi.
      change (Ascii.eqb "]" "]") with true. cbv iota. cbn [rev app].
      rewrite make_set_range by (now apply Ascii.eqb_neq).
      now rewrite (translate_literal _ H2). }
  rewrite Htr. rewrite matches_between by (destruct negated, (ascii_ltb hi lo); discriminate).
  assert (Htok : forall c,
            token_matches
              (if negated
               then if ascii_ltb hi lo then TAny else TSet true [Range lo hi]
               else if ascii_ltb hi lo then TSet false [] else TSet false [Range lo hi]) c
            = xorb negated (ascii_leb lo c && ascii_leb c hi)).
  { intros c. unfold ascii_ltb, ascii_leb.
    destruct (Nat.ltb_spec (nat_of_ascii hi) (nat_of_ascii lo)) as [Hlt|Hge].
    - assert (Hnone : (nat_of_ascii lo <=? nat_of_ascii c)%nat
                      && (nat_of_ascii c <=? nat_of_ascii hi)%nat = false).
      { apply andb_false_iff.
        destruct (Nat.leb_spec (nat_of_ascii lo) (nat_of_ascii c)); [right|left; reflexivity].
        apply Nat.leb_gt. lia. }
      rewrite Hnone. destruct negated; reflexivity.
    - destruct negated; cbn; unfold ascii_leb; now rewrite orb_false_r. }
  split.
  - intros (c & Hc & H). exists c. rewrite <- Htok. split; [exact Hc | now apply string_between].
  - intros (c & Hc & H). exists c. rewrite Htok. split; [exact Hc | now apply string_between].
Qed.

Lemma is_image_allowed_false m image :
  DockerManager.is_image_allowed m image = false
  <-> Forall (fun pattern => fnmatch image pattern = false)
        (DockerManager.allowed_images (DockerManager.config m)).
Proof.
  unfold DockerManager.is_image_allowed.
  induction (DockerManager.allowed_images (DockerManager.config m)) as [|p l IH]; cbn.
  - split; [constructor | reflexivity].
  - rewrite orb_false_iff, IH. split.
    + intros [H1 H2]. now constructor.
    + intros H. inversion H; subst. now split.
Qed.

End Globs.

(** C3. Container start raises ImageNotAllowedError exactly when the
    image reference matches none of the allowed patterns under fnmatch.
    Of that matching: a pattern without glob characters (thus a tag-less
    one) matches only the identical reference; such a text followed by a
    star matches the references that begin with it; [?] stands for
    exactly one character; [[lo-hi]] stands for one character from lo to
    hi and [[!lo-hi]] for one outside, so that with hi below lo the
    first matches nothing and the second any character. When no pattern
    matches, the handler leaves the container records and the tunnel
    supervisor (records and disk) as they were and hands the session one
    event, agent_error with code START_INSTANCE_FAILED, hence no
    instance_started. *)
Theorem disallowed_image_is_rejected (w : AgentOrchestrator.World)
    (data : StartInstanceCommandData) (a : AgentOrchestrator.t) :
  let allowed := DockerManager.allowed_images (AgentOrchestrator.settings_docker a) in
  let no_match := Forall (fun pattern => Fnmatch.fnmatch (image data) pattern = false) allowed in
  let a' := AgentOrchestrator.exec
              (AgentOrchestrator.handle_command w (StartInstanceCommand data)) a in
  ((exists msg,
      (DockerManager.start_container (AgentOrchestrator.daemon w) data
         (AgentOrchestrator.docker a)).1 = Raise (Exn.ImageNotAllowedError msg))
   <-> no_match)
  /\ (forall pattern name, Fnmatch.literal_pattern pattern = true ->
        (Fnmatch.fnmatch name pattern = true <-> name = pattern))
  /\ (forall prefix name, Fnmatch.literal_pattern prefix = true ->
        (Fnmatch.fnmatch name (prefix +:+ "*") = true
         <-> exists rest, name = prefix +:+ rest))
  /\ (forall p1 p2 name,
        Fnmatch.literal_pattern p1 = true -> Fnmatch.literal_pattern p2 = true ->
        (Fnmatch.fnmatch name (p1 +:+ String "?" p2) = true
         <-> exists c, name = p1 +:+ String c p2))
  /\ (forall (negated : bool) p1 p2 lo hi name,
        Fnmatch.literal_pattern p1 = true -> Fnmatch.literal_pattern p2 = true ->
        (negated = false -> lo <> "!"%char) -> hi <> "]"%char ->
        (Fnmatch.fnmatch name
           (p1 +:+ "[" +:+ (if negated then "!" else "")
            +:+ String lo (String "-" (String hi ("]" +:+ p2)))) = true
         <-> exists c,
               xorb negated (Fnmatch.ascii_leb lo c && Fnmatch.ascii_leb c hi) = true
               /\ name = p1 +:+ String c p2))
  /\ (no_match ->
        AgentOrchestrator.docker a' = AgentOrchestrator.docker a
        /\ AgentOrchestrator.tunnel a' = AgentOrchestrator.tunnel a
        /\ Run.node_status a' = Run.node_status a
        /\ exists msg,
             AgentOrchestrator.emitted_during a a'
             = [AgentErrorEvent (BackendClient.node_id (AgentOrchestrator.backend a))
                  "START_INSTANCE_FAILED" msg]).
Proof.
  cbv zeta. unfold AgentOrchestrator.settings_docker.
  split; [|split; [|split; [|split; [|split]]]].
  - rewrite <- is_image_allowed_false. split.
    + intros [msg Hmsg].
      destruct (DockerManager.is_image_allowed _ _) eqn:Hallowed; [|reflexivity].
      destruct (DockerManager.start_container _ _ _) as [r m'] eqn:Hstart.
      cbn in Hmsg. subst r.
      apply (start_container_allowed _ _ _ _ _ Hallowed) in Hstart. discriminate.
    + intros H. rewrite (start_container_rejected _ _ _ H). eauto.
  - intros pattern name. apply fnmatch_literal.
  - intros prefix name. apply fnmatch_trailing_star.
  - intros p1 p2 name. apply fnmatch_question.
  - intros negated p1 p2 lo hi name. apply fnmatch_range.
  - intros H%is_image_allowed_false.
    rewrite exec_handle_command by reflexivity. unfold AgentOrchestrator.exec.
    cbn [AgentOrchestrator.registered_handler].
    rewrite (start_instance_rejected w _ _ H). cbn [snd].
    repeat split.
    + unfold Run.node_status, BackendClient.status. cbn.
      apply status_send_message.
    + eexists. apply (emitted_during_send w).
Qed.

Lemma disallowed_image_is_rejected_witness :
  let data := Sample.start_data "r1" "evil/image:latest" {[ "22" := 30022%Z ]} in
  let a := Sample.connected ["pytorch/pytorch:*"] in
  let a' := AgentOrchestrator.exec
              (AgentOrchestrator.handle_command Sample.world (StartInstanceCommand data)) a in
  AgentOrchestrator.docker a' = AgentOrchestrator.docker a
  /\ AgentOrchestrator.tunnel a' = AgentOrchestrator.tunnel a
  /\ Run.node_status a' = Run.node_status a
  /\ exists msg,
       AgentOrchestrator.emitted_during a a'
       = [AgentErrorEvent (BackendClient.node_id (AgentOrchestrator.backend a))
            "START_INSTANCE_FAILED" msg].
Proof.
  apply (disallowed_image_is_rejected Sample.world
           (Sample.start_data "r1" "evil/image:latest" {[ "22" := 30022%Z ]})
           (Sample.connected ["pytorch/pytorch:*"])).
  repeat constructor.
Defined.

Example disallowed_image_scenario :
  let a := Sample.connected ["pytorch/pytorch:*"] in
  let a' := Run.perform Sample.world
              (Run.Handle (Sample.start "r1" "evil/image:latest" {[ "22" := 30022%Z ]})) a in
  Run.container_records a' = ∅
  /\ Run.tunnel_records a' = ∅
  /\ AgentOrchestrator.emitted_during a a'
     = [AgentErrorEvent "node-1" "START_INSTANCE_FAILED"
          "Image 'evil/image:latest' is not in the allowed list. Allowed patterns: ['pytorch/pytorch:*']"].
Proof. vm_compute. repeat split. Qed.

(** C10. With an empty allow-list [is_image_allowed] is False for every
    image reference, container start raises ImageNotAllowedError, and
    the start_instance handler reports START_INSTANCE_FAILED, whatever
    the image requested. *)
Theorem empty_allow_list_rejects_every_image (w : AgentOrchestrator.World)
    (data : StartInstanceCommandData) (a : AgentOrchestrator.t) :
  DockerManager.allowed_images (AgentOrchestrator.settings_docker a) = [] ->
  DockerManager.is_image_allowed (AgentOrchestrator.docker a) (image data) = false
  /\ (exists msg,
       DockerManager.start_container (AgentOrchestrator.daemon w) data
         (AgentOrchestrator.docker a)
       = (Raise (Exn.ImageNotAllowedError msg), AgentOrchestrator.docker a))
  /\ (exists msg,
       AgentOrchestrator.emitted_during a
         (AgentOrchestrator.exec
            (AgentOrchestrator.handle_command w (StartInstanceCommand data)) a)
       = [AgentErrorEvent (BackendClient.node_id (AgentOrchestrator.backend a))
            "START_INSTANCE_FAILED" msg]).
Proof.
  unfold AgentOrchestrator.settings_docker. intros Hempty.
  assert (H : DockerManager.is_image_allowed (AgentOrchestrator.docker a) (image data)
              = false).
  { unfold DockerManager.is_image_allowed. now rewrite Hempty. }
  split; [exact H | split].
  - rewrite (start_container_rejected _ _ _ H). eauto.
  - rewrite exec_handle_command by reflexivity. unfold AgentOrchestrator.exec.
    cbn [AgentOrchestrator.registered_handler].
    rewrite (start_instance_rejected w _ _ H). cbn [snd].
    eexists. apply (emitted_during_send w).
Qed.

Lemma empty_allow_list_rejects_every_image_witness :
  DockerManager.is_image_allowed (AgentOrchestrator.docker (Sample.connected []))
    "pytorch/pytorch:2.0.0" = false.
Proof.
  apply (empty_allow_list_rejects_every_image Sample.world
           (Sample.start_data "r1" "pytorch/pytorch:2.0.0" {[ "22" := 30022%Z ]})
           (Sample.connected [])).
  reflexivity.
Defined.

(** C4. When the [try] block of the start_instance handler runs to its
    end, the handler hands the session exactly one event, instance_started,
    whose ssh_host is the configured relay address ([settings.frp.server_addr]),
    whose ssh_port is proxy_port_mapping["22"] if that key is present and 22
    otherwise, and whose additional_ports is proxy_port_mapping with the key
    "22" deleted; its container_id is the one container start returned. *)
Theorem instance_started_connection_info (w : AgentOrchestrator.World)
    (data : StartInstanceCommandData) (a : AgentOrchestrator.t) :
  (AgentOrchestrator.start_instance_try w data a).1 = Ok tt ->
  exists container_id info d',
    DockerManager.start_container (AgentOrchestrator.daemon w) data
      (AgentOrchestrator.docker a) = (Ok (container_id, info), d')
    /\ AgentOrchestrator.emitted_during a
         (AgentOrchestrator.exec
            (AgentOrchestrator.handle_command w (StartInstanceCommand data)) a)
       = [InstanceStartedEvent (start_rental_id data) container_id
            {| ssh_host := TunnelManager.server_addr (AgentOrchestrator.settings_frp a);
               ssh_port := match proxy_port_mapping data !! "22" with
                           | Some port => port
                           | None => 22%Z
                           end;
               additional_ports := delete "22" (proxy_port_mapping data) |}].
Proof.
  intros Hok. rewrite exec_handle_command by reflexivity. unfold AgentOrchestrator.exec.
  cbn [AgentOrchestrator.registered_handler AgentOrchestrator._handle_start_instance].
  unfold try_except. rewrite start_instance_try_unfold in *.
  destruct (DockerManager.start_container _ _ _) as [[[container_id info]|e] d'];
    [|discriminate Hok].
  pose proof (create_tunnel_cases (AgentOrchestrator.os w) (start_rental_id data)
                (proxy_port_mapping data)
                (Some (DockerManager.get_container_ports
                         (AgentOrchestrator.daemon w) container_id))
                (AgentOrchestrator.tunnel a)) as [Hconfig _].
  cbv zeta in Hconfig.
  destruct (TunnelManager.create_tunnel _ _ _ _ _) as [[[]|e] h'];
    [|discriminate Hok].
  exists container_id, info, d'. split; [reflexivity|].
  cbn [snd] in Hconfig. cbv zeta. cbn [snd].
  match goal with
  | |- AgentOrchestrator.emitted_during _ (if ?c then _ else _) = _ => destruct c
  end;
    (erewrite emitted_during_app;
     [| cbn [AgentOrchestrator.backend AgentOrchestrator.set_backend
             BackendClient.sent BackendClient.set_status];
        apply sent_send_message]);
    cbn [fmap list_fmap fst]; unfold AgentOrchestrator.started_event, AgentOrchestrator.settings_frp;
    cbn [AgentOrchestrator.tunnel AgentOrchestrator.set_tunnel
         AgentOrchestrator.set_docker];
    rewrite Hconfig, without_ssh_port; reflexivity.
Qed.

Lemma instance_started_connection_info_witness :
  exists container_id info d',
    DockerManager.start_container Sample.daemon
      (Sample.start_data "r1" "pytorch/pytorch:2.0.0" {[ "8888" := 30888%Z ]})
      (AgentOrchestrator.docker (Sample.connected Sample.default_allowed))
    = (Ok (container_id, info), d')
    /\ AgentOrchestrator.emitted_during (Sample.connected Sample.default_allowed)
         (AgentOrchestrator.exec
            (AgentOrchestrator.handle_command Sample.world
               (StartInstanceCommand
                  (Sample.start_data "r1" "pytorch/pytorch:2.0.0" {[ "8888" := 30888%Z ]})))
            (Sample.connected Sample.default_allowed))
       = [InstanceStartedEvent "r1" container_id
            {| ssh_host := "relay.example.com";
               ssh_port := 22%Z;
               additional_ports := delete "22" ({[ "8888" := 30888%Z ]} : gmap string Z) |}].
Proof.
  assert (Hok : (AgentOrchestrator.start_instance_try Sample.world
                    (Sample.start_data "r1" "pytorch/pytorch:2.0.0" {[ "8888" := 30888%Z ]})
                    (Sample.connected Sample.default_allowed)).1 = Ok tt)
    by (vm_compute; reflexivity).
  exact (instance_started_connection_info Sample.world
           (Sample.start_data "r1" "pytorch/pytorch:2.0.0" {[ "8888" := 30888%Z ]})
           (Sample.connected Sample.default_allowed) Hok).
Defined.

(** ** Orchestrator: update_config *)



(** ** Orchestrator: stop_instance *)

Section StopInstance.
Import AgentOrchestrator.
Variable w : World.

(** [destroy_tunnel] never raises; it forgets the rental and removes
    its config file. *)
Lemma destroy_tunnel_unfold rental_id h :
  TunnelManager.destroy_tunnel rental_id h =
  match TunnelManager._active_tunnels (TunnelManager.mgr h) !! rental_id with
  | None => (Ok tt, h)
  | Some _ =>
      (Ok tt,
       {| TunnelManager.mgr :=
            TunnelManager.set_tunnel_configs
              (delete rental_id (TunnelManager._tunnel_configs (TunnelManager.mgr h)))
              (TunnelManager.set_active_tunnels
                 (delete rental_id (TunnelManager._active_tunnels (TunnelManager.mgr h)))
                 (TunnelManager.mgr h));
          TunnelManager.disk :=
            match TunnelManager._tunnel_configs (TunnelManager.mgr h) !! rental_id with
            | Some path => delete path (TunnelManager.disk h)
            | None => TunnelManager.disk h
            end |})
  end.
Proof.
  unfold TunnelManager.destroy_tunnel, TunnelManager.unlink. unfold_method.
  destruct (_ !! rental_id); [|reflexivity]. cbn.
  destruct (_ !! rental_id); reflexivity.
Qed.

Lemma destroy_tunnel_returns rental_id h :
  (TunnelManager.destroy_tunnel rental_id h).1 = Ok tt.
Proof. rewrite destroy_tunnel_unfold. destruct (_ !! rental_id); reflexivity. Qed.

Lemma list_active_rentals_unfold d m :
  DockerManager.list_active_rentals d m =
  match DockerManager.still_existing d
          (map_to_list (DockerManager._active_containers m)) ∅ with
  | Raise e => (Raise e, m)
  | Ok active => (Ok active, DockerManager.set_active active m)
  end.
Proof.
  unfold DockerManager.list_active_rentals. unfold_method.
  destruct (DockerManager.still_existing _ _ _); reflexivity.
Qed.

(** [_handle_stop_instance], with the plumbing of the method calls
    removed. *)
Lemma handle_stop_instance_unfold data a :
  exec (_handle_stop_instance w (StopInstanceCommand data)) a =
  let a1 := set_tunnel (TunnelManager.destroy_tunnel (stop_rental_id data) (tunnel a)).2 a in
  let send event b := (BackendClient.send_message (net w) event b).2 in
  match DockerManager.stop_container (daemon w) (stop_container_id data)
          (Some (stop_rental_id data)) (graceful data) (timeout_seconds data)
          (docker a) with
  | (Raise e, d') =>
      set_backend (send (error_event data e) (backend a)) (set_docker d' a1)
  | (Ok _, d') =>
      let b := send (requested_event data) (backend a) in
      match DockerManager.still_existing (daemon w)
              (map_to_list (DockerManager._active_containers d')) ∅ with
      | Raise e =>
          set_backend (send (error_event data e) b) (set_docker d' a1)
      | Ok active =>
          let a2 := set_docker (DockerManager.set_active active d') a1 in
          if decide (active = ∅)
          then set_backend (BackendClient.set_status ONLINE b) a2
          else set_backend b a2
      end
  end.
Proof.
  unfold exec, _handle_stop_instance, stop_instance_try, in_tunnel, in_docker,
    in_backend, set_backend_status.
  unfold try_except, mbind, M_bind, zoom, mret, M_ret.
  pose proof (destroy_tunnel_returns (stop_rental_id data) (tunnel a)) as Hd.
  destruct (TunnelManager.destroy_tunnel _ _) as [r h']. cbn in Hd. subst r.
  cbn [snd]. cbn [docker set_tunnel].
  destruct (DockerManager.stop_container _ _ _ _ _ _) as [[[]|e] d']; cbn.
  2:{ unfold BackendClient.send_instance_stopped, error_event.
      destruct (BackendClient.send_message _ _ _); reflexivity. }
  unfold BackendClient.send_instance_stopped at 1. fold (requested_event data).
  destruct (BackendClient.send_message (net w) (requested_event data) (backend a))
    as [ok b]. cbn.
  rewrite list_active_rentals_unfold.
  destruct (DockerManager.still_existing _ _ _) as [active|e]; cbn.
  - unfold modify. destruct (decide (active = ∅)); reflexivity.
  - unfold BackendClient.send_instance_stopped, error_event.
    destruct (BackendClient.send_message _ _ _); reflexivity.
Qed.

(** The three ways the handler can go, by the events it hands over. *)
Lemma stop_instance_outcomes data a :
  let a' := exec (_handle_stop_instance w (StopInstanceCommand data)) a in
  (emitted_during a a' = [requested_event data]
   /\ ((Run.node_status a' = ONLINE /\ Run.container_records a' = ∅)
       \/ (Run.node_status a' = Run.node_status a /\ Run.container_records a' <> ∅)))
  \/ (exists e, emitted_during a a' = [error_event data e]
                /\ Run.node_status a' = Run.node_status a)
  \/ (exists e, emitted_during a a' = [requested_event data; error_event data e]
                /\ Run.node_status a' = Run.node_status a).
Proof.
  cbv zeta. rewrite handle_stop_instance_unfold. cbv zeta.
  unfold Run.node_status, Run.container_records, BackendClient.status.
  destruct (DockerManager.stop_container _ _ _ _ _ _) as [[[]|e] d'].
  2:{ right; left. exists e. split.
      - erewrite emitted_during_app; [|cbn; apply sent_send_message]. reflexivity.
      - cbn. apply status_send_message. }
  destruct (DockerManager.still_existing _ _ _) as [active|e].
  - left. split.
    + destruct (decide (active = ∅));
        (erewrite emitted_during_app; [|cbn; apply sent_send_message]); reflexivity.
    + destruct (decide (active = ∅)) as [->|Hne]; cbn.
      * left. split; reflexivity.
      * right. split; [apply status_send_message | exact Hne].
  - right; right. exists e. split.
    + erewrite emitted_during_app.
      2:{ cbn. rewrite !sent_send_message, <- app_assoc. reflexivity. }
      reflexivity.
    + cbn. now rewrite !status_send_message.
Qed.

End StopInstance.

(** C5, at a failing input. The agent tracks rentals r1 (container c1)
    and r2 (container c2). It handles stop_instance for r1; the daemon
    stops c1, then answers the inspection of c2, made by
    [list_active_rentals] inside the same [try], with an API error. The
    handler has already sent instance_stopped with reason "requested" and
    now sends a second instance_stopped, with reason "error": two events
    for one command, though tunnel destruction and container stop both
    succeeded (the tunnel and container records of r1 are gone). *)
Theorem stop_instance_reports_twice :
  let w := Sample.world_with (Sample.daemon_failing_inspect "c2") in
  let a := Sample.two_rentals in
  let a' := Run.perform w (Run.Handle (Sample.stop "r1" "c1")) a in
  Run.container_records a = {[ "r1" := "c1"; "r2" := "c2" ]}
  /\ AgentOrchestrator.emitted_during a a'
     = [ InstanceStoppedEvent "r1" "c1" "requested" None;
         InstanceStoppedEvent "r1" "c1" "error"
           (Some "500 Server Error: Internal Server Error") ]
  /\ length (filter (fun e => is_instance_stopped e = true)
               (AgentOrchestrator.emitted_during a a')) = 2%nat
  /\ Run.container_records a' !! "r1" = None
  /\ Run.tunnel_records a' !! "r1" = None.
Proof. vm_compute. repeat split. Qed.

(** ** Node status *)

Section Status.
Import AgentOrchestrator.
Variable w : World.

Lemma start_instance_keeps_status data a :
  Run.node_status a <> ONLINE ->
  Run.node_status (exec (_handle_start_instance w (StartInstanceCommand data)) a)
  = Run.node_status a.
Proof.
  unfold Run.node_status, BackendClient.status. intros Hst.
  unfold exec, _handle_start_instance, try_except.
  rewrite start_instance_try_unfold.
  unfold in_backend, BackendClient.send_error. unfold_method.
  destruct (DockerManager.start_container _ _ _) as [[[container_id info]|e] d'].
  2:{ cbn. destruct (BackendClient.send_message _ _ _) eqn:Hs. cbn.
      change t0 with (b, t0).2. rewrite <- Hs. apply status_send_message. }
  destruct (TunnelManager.create_tunnel _ _ _ _ _) as [[[]|e] h'].
  2:{ cbn. destruct (BackendClient.send_message _ _ _) eqn:Hs. cbn.
      change t0 with (b, t0).2. rewrite <- Hs. apply status_send_message. }
  cbv zeta. cbn [snd]. unfold BackendClient.status.
  rewrite status_send_message.
  destruct (decide (BackendClient._status (backend a) = ONLINE)); [contradiction|].
  cbn. apply status_send_message.
Qed.

Lemma update_config_keeps_status data a :
  Run.node_status (exec (handle_command w (UpdateConfigCommand data)) a)
  = Run.node_status a.
Proof.
  unfold Run.node_status, BackendClient.status.
  unfold exec, handle_command, try_except. cbn [registered_handler].
  unfold _handle_update_config, in_backend, BackendClient.send_error. unfold_method.
  destruct (0 <? heartbeat_interval_ms (config data))%Z;
    [destruct (truediv _ _)|];
    try (destruct (cfg_allowed_images (config data)); reflexivity).
  cbn. destruct (BackendClient.send_message _ _ _) eqn:Hs. cbn.
  change t0 with (b, t0).2. rewrite <- Hs. apply status_send_message.
Qed.

Lemma connect_status a :
  Run.node_status (connect w a).2
  = if BackendClient._connected (backend a) then Run.node_status a
    else match BackendClient.dial (net w) with
         | BackendClient.Established => ONLINE
         | _ => Run.node_status a
         end.
Proof.
  unfold connect, BackendClient.connect, Run.node_status.
  destruct (BackendClient._connected (backend a)); [reflexivity|].
  destruct (BackendClient.dial (net w)); reflexivity.
Qed.

End Status.

(** C1, as stated, fails. The node is drained while rental r1 runs, so
    its status is Maintenance. Handling stop_instance for r1 then sets
    the status to Online (no rental remains); and, without any stop, a
    lost session followed by a successful dial sets it to Online too. *)
Lemma maintenance_is_not_sticky :
  Run.node_status Sample.drained = MAINTENANCE
  /\ Run.node_status
       (Run.perform Sample.world (Run.Handle (Sample.stop "r1" "c1")) Sample.drained)
     = ONLINE
  /\ Run.node_status
       (Run.perform Sample.world Run.Connect
          (Run.perform Sample.world Run.SessionLost Sample.drained))
     = ONLINE.
Proof. vm_compute. repeat split. Qed.

(** C1, amended. From status Maintenance, within one run: handling
    start_instance, drain_node or update_config, and losing the session,
    leave the status Maintenance; handling stop_instance leaves it
    Maintenance unless the stop goes through and no active rental remains
    (the handler emitted only instance_stopped "requested" and the
    container map is empty), in which case the status becomes Online; and
    a connect that dials (the session was not connected) and succeeds
    sets the status to Online, any other connect leaves it Maintenance. *)
Theorem maintenance_after_operation (w : AgentOrchestrator.World)
    (op : Run.Operation) (a : AgentOrchestrator.t) :
  Run.node_status a = MAINTENANCE ->
  let a' := Run.perform w op a in
  match op with
  | Run.Handle (StopInstanceCommand data) =>
      (Run.node_status a' = ONLINE \/ Run.node_status a' = MAINTENANCE)
      /\ (Run.node_status a' = ONLINE <->
          AgentOrchestrator.emitted_during a a' = [AgentOrchestrator.requested_event data]
          /\ Run.container_records a' = ∅)
  | Run.Connect =>
      Run.node_status a'
      = if BackendClient._connected (AgentOrchestrator.backend a) then MAINTENANCE
        else match BackendClient.dial (AgentOrchestrator.net w) with
             | BackendClient.Established => ONLINE
             | _ => MAINTENANCE
             end
  | _ => Run.node_status a' = MAINTENANCE
  end.
Proof.
  intros Hm. cbv zeta.
  destruct op as [[data|data|data|data]| |]; unfold Run.perform;
    rewrite ?exec_handle_command by reflexivity;
    cbn [AgentOrchestrator.registered_handler].
  - rewrite start_instance_keeps_status; [exact Hm | congruence].
  - pose proof (stop_instance_outcomes w data a) as H. cbv zeta in H.
    rewrite Hm in H.
    destruct H as [(He & [(Hs & Hr) | (Hs & Hr)]) | [(e & He & Hs) | (e & He & Hs)]];
      rewrite ?He, ?Hs; (split; [auto|]); split; intros H1;
      try discriminate H1;
      try match type of H1 with
          | _ /\ _ => destruct H1 as [H1 H2]; first [discriminate H1 | contradiction]
          end;
      auto.
  - reflexivity.
  - now rewrite update_config_keeps_status.
  - unfold Run.node_status, BackendClient.run_after_serve in *.
    destruct (BackendClient._should_run _); exact Hm.
  - rewrite connect_status, Hm.
    destruct (BackendClient._connected _); [reflexivity|].
    destruct (BackendClient.dial _); reflexivity.
Qed.

Lemma maintenance_after_operation_witness :
  Run.node_status
    (Run.perform Sample.world
       (Run.Handle (Sample.start "r2" "nvidia/cuda:12.2" {[ "22" := 30023%Z ]}))
       Sample.drained)
  = MAINTENANCE.
Proof.
  assert (Hm : Run.node_status Sample.drained = MAINTENANCE) by (vm_compute; reflexivity).
  exact (maintenance_after_operation Sample.world
           (Run.Handle (Sample.start "r2" "nvidia/cuda:12.2" {[ "22" := 30023%Z ]}))
           Sample.drained Hm).
Defined.

(** ** Two starts of one rental *)

Section Idempotence.
Import AgentOrchestrator.

Lemma start_container_frame d data m :
  forall k, k <> start_rental_id data ->
    DockerManager._active_containers (DockerManager.start_container d data m).2 !! k
    = DockerManager._active_containers m !! k.
Proof.
  intros k Hk. unfold DockerManager.start_container.
  unfold mbind, M_bind, get.
  destruct (negb _); [reflexivity|].
  destruct (pull_image_outcome d (image data) m) as [-> | (e & -> & _)];
    [|reflexivity].
  destruct (DockerManager.containers_run d _); try reflexivity.
  cbn. apply lookup_insert_ne. congruence.
Qed.

Lemma create_tunnel_frame os rental_id port_mapping local_ports h :
  forall k, k <> rental_id ->
    TunnelManager._active_tunnels
      (TunnelManager.mgr
         (TunnelManager.create_tunnel os rental_id port_mapping local_ports h).2) !! k
    = TunnelManager._active_tunnels (TunnelManager.mgr h) !! k.
Proof.
  intros k Hk.
  destruct (create_tunnel_cases os rental_id port_mapping local_ports h)
    as [_ [(_ & -> & _) | [(_ & (e & ->) & _)
         | [(_ & _ & _ & -> & _) | (_ & _ & _ & pid & content & -> & _)]]]];
    try reflexivity.
  apply lookup_insert_ne. congruence.
Qed.

(** A start touches the records of its own rental only. *)
Lemma start_instance_frame w data a :
  let a' := exec (handle_command w (StartInstanceCommand data)) a in
  forall k, k <> start_rental_id data ->
    Run.container_records a' !! k = Run.container_records a !! k
    /\ Run.tunnel_records a' !! k = Run.tunnel_records a !! k.
Proof.
  cbv zeta. intros k Hk. rewrite exec_handle_command by reflexivity.
  unfold exec, registered_handler, _handle_start_instance, try_except.
  rewrite start_instance_try_unfold.
  unfold Run.container_records, Run.tunnel_records, in_backend. unfold_method.
  pose proof (start_container_frame (daemon w) data (docker a) k Hk) as Hc.
  destruct (DockerManager.start_container _ _ _) as [[[container_id info]|e] d'];
    cbn [snd] in Hc.
  2:{ cbn. destruct (BackendClient.send_error _ _ _ _). cbn. auto. }
  pose proof (create_tunnel_frame (os w) (start_rental_id data) (proxy_port_mapping data)
                (Some (DockerManager.get_container_ports (daemon w) container_id))
                (tunnel a) k Hk) as Ht.
  destruct (TunnelManager.create_tunnel _ _ _ _ _) as [[[]|e] h']; cbn [snd] in Ht.
  2:{ cbn. destruct (BackendClient.send_error _ _ _ _). cbn. auto. }
  cbv zeta. cbn [snd]. destruct (decide _); cbn; auto.
Qed.

(** A map that differs from another at one key at most has at most one
    entry more. *)
Lemma size_one_key {V} (m m' : gmap string V) (r : string) :
  (forall k, k <> r -> m' !! k = m !! k) -> (size m' <= S (size m))%nat.
Proof.
  intros Hframe. destruct (m' !! r) as [v|] eqn:Hr.
  - assert (m' = <[r := v]> m) as ->.
    { apply map_eq. intros k. destruct (decide (k = r)) as [->|Hk].
      - now rewrite lookup_insert_eq.
      - rewrite lookup_insert_ne by congruence. now apply Hframe. }
    destruct (m !! r) eqn:Hm.
    + rewrite map_size_insert_Some by eauto. apply le_S, le_n.
    + rewrite map_size_insert_None by assumption. apply le_n.
  - apply le_S, map_subseteq_size.
    apply map_subseteq_spec. intros k x Hkx.
    destruct (decide (k = r)) as [->|Hk]; [congruence|].
    now rewrite <- Hframe.
Qed.

End Idempotence.

(** C2. Two consecutive start_instance commands with the same rental_id
    change the container map and the tunnel map at that rental_id only:
    every other key keeps its record, so each map ends with at most one
    record more than it had, the one filed under rental_id. And the
    tunnel supervisor's create on a rental_id that is already present
    returns normally with the supervisor and the disk unchanged. *)
Theorem two_starts_one_record (w1 w2 : AgentOrchestrator.World)
    (data1 data2 : StartInstanceCommandData) (a : AgentOrchestrator.t) :
  start_rental_id data2 = start_rental_id data1 ->
  let rental_id := start_rental_id data1 in
  let a1 := Run.perform w1 (Run.Handle (StartInstanceCommand data1)) a in
  let a2 := Run.perform w2 (Run.Handle (StartInstanceCommand data2)) a1 in
  (forall k, k <> rental_id ->
     Run.container_records a2 !! k = Run.container_records a !! k
     /\ Run.tunnel_records a2 !! k = Run.tunnel_records a !! k)
  /\ (size (Run.container_records a2) <= S (size (Run.container_records a)))%nat
  /\ (size (Run.tunnel_records a2) <= S (size (Run.tunnel_records a)))%nat
  /\ (forall os port_mapping local_ports h,
        is_Some (TunnelManager._active_tunnels (TunnelManager.mgr h) !! rental_id) ->
        TunnelManager.create_tunnel os rental_id port_mapping local_ports h = (Ok tt, h)).
Proof.
  intros Hsame. cbv zeta. unfold Run.perform.
  assert (Hframe : forall k, k <> start_rental_id data1 ->
            Run.container_records
              (AgentOrchestrator.exec
                 (AgentOrchestrator.handle_command w2 (StartInstanceCommand data2))
                 (AgentOrchestrator.exec
                    (AgentOrchestrator.handle_command w1 (StartInstanceCommand data1)) a))
              !! k = Run.container_records a !! k
            /\ Run.tunnel_records
                 (AgentOrchestrator.exec
                    (AgentOrchestrator.handle_command w2 (StartInstanceCommand data2))
                    (AgentOrchestrator.exec
                       (AgentOrchestrator.handle_command w1 (StartInstanceCommand data1)) a))
                 !! k = Run.tunnel_records a !! k).
  { intros k Hk.
    destruct (start_instance_frame w2 data2
                (AgentOrchestrator.exec
                   (AgentOrchestrator.handle_command w1 (StartInstanceCommand data1)) a)
                k ltac:(congruence)) as [-> ->].
    now apply start_instance_frame. }
  split; [exact Hframe|]. split; [|split].
  - apply (size_one_key _ _ (start_rental_id data1)). intros k Hk. now apply Hframe.
  - apply (size_one_key _ _ (start_rental_id data1)). intros k Hk. now apply Hframe.
  - intros os port_mapping local_ports h Hpresent.
    rewrite create_tunnel_unfold. now rewrite bool_decide_eq_true_2.
Qed.

Lemma two_starts_one_record_witness :
  let data := Sample.start_data "r1" "pytorch/pytorch:2.0.0" {[ "22" := 30022%Z ]} in
  let a := Sample.connected Sample.default_allowed in
  let a2 := Run.perform (Sample.world_with (Sample.daemon_running "c9"))
              (Run.Handle (StartInstanceCommand data))
              (Run.perform Sample.world (Run.Handle (StartInstanceCommand data)) a) in
  (size (Run.container_records a2) <= S (size (Run.container_records a)))%nat
  /\ (size (Run.tunnel_records a2) <= S (size (Run.tunnel_records a)))%nat.
Proof.
  cbv zeta.
  destruct (two_starts_one_record Sample.world
              (Sample.world_with (Sample.daemon_running "c9"))
              (Sample.start_data "r1" "pytorch/pytorch:2.0.0" {[ "22" := 30022%Z ]})
              (Sample.start_data "r1" "pytorch/pytorch:2.0.0" {[ "22" := 30022%Z ]})
              (Sample.connected Sample.default_allowed) eq_refl)
    as (_ & Hc & Ht & _).
  split; [exact Hc | exact Ht].
Defined.

Example two_starts_scenario :
  let data := Sample.start_data "r1" "pytorch/pytorch:2.0.0" {[ "22" := 30022%Z ]} in
  let a2 := Run.perform (Sample.world_with (Sample.daemon_running "c9"))
              (Run.Handle (StartInstanceCommand data))
              (Run.perform Sample.world (Run.Handle (StartInstanceCommand data))
                 (Sample.connected Sample.default_allowed)) in
  Run.container_records a2 = {[ "r1" := "c9" ]}
  /\ Run.tunnel_records a2 = {[ "r1" := 4242%Z ]}.
Proof. vm_compute. repeat split. Qed.

(** ** Tunnel supervisor: cleanup *)

Section Cleanup.
Import TunnelManager TunnelRun.

Lemma destroy_tunnel_forget rental_id h :
  destroy_tunnel rental_id h
  = (Ok tt, match _active_tunnels (mgr h) !! rental_id with
            | Some _ => forget rental_id h
            | None => h
            end).
Proof.
  rewrite destroy_tunnel_unfold. destruct (_ !! rental_id); reflexivity.
Qed.

Lemma prune_or_keep_forget os rental_id process active h :
  (prune_or_keep os (rental_id, process) active h).2
  = match poll os process with
    | Some _ => forget rental_id h
    | None => h
    end.
Proof.
  unfold prune_or_keep, unlink, forget. unfold_method.
  destruct (poll os process); [|reflexivity]. cbn.
  destruct (_ !! rental_id); reflexivity.
Qed.

Lemma prune_or_keep_returns os item active h :
  exists active', (prune_or_keep os item active h).1 = Ok active'.
Proof.
  destruct item as [rental_id process].
  unfold prune_or_keep, unlink. unfold_method.
  destruct (poll os process); [|eauto]. cbn.
  destruct (_ !! rental_id); eauto.
Qed.

Section Invariants.
Variable generated : gset string.

Lemma forget_files_accounted rental_id h :
  files_accounted h generated -> files_accounted (forget rental_id h) generated.
Proof.
  intros Hinv path Hgen Hdisk.
  assert (Hbefore : is_Some (disk h !! path)).
  { cbn in Hdisk. destruct (_tunnel_configs (mgr h) !! rental_id); [|exact Hdisk].
    apply lookup_delete_is_Some in Hdisk. tauto. }
  destruct (Hinv path Hgen Hbefore) as (r & Hactive & Hconfig).
  assert (Hr : r <> rental_id).
  { intros ->. cbn in Hdisk. rewrite Hconfig in Hdisk.
    apply lookup_delete_is_Some in Hdisk. tauto. }
  exists r. cbn. rewrite !lookup_delete_ne by congruence. auto.
Qed.

Lemma forget_tunnels_have_config rental_id h :
  tunnels_have_config h generated -> tunnels_have_config (forget rental_id h) generated.
Proof.
  intros Hinv r Hactive. cbn in Hactive.
  apply lookup_delete_is_Some in Hactive as [Hr Hactive].
  destruct (Hinv r Hactive) as (path & Hconfig & Hgen).
  exists path. cbn. rewrite lookup_delete_ne by congruence. auto.
Qed.

Lemma destroy_preserves rental_id h :
  files_accounted h generated /\ tunnels_have_config h generated ->
  files_accounted (destroy_tunnel rental_id h).2 generated
  /\ tunnels_have_config (destroy_tunnel rental_id h).2 generated.
Proof.
  intros [H1 H2]. rewrite destroy_tunnel_forget. cbn [snd].
  destruct (_ !! rental_id); [|auto].
  split; [now apply forget_files_accounted | now apply forget_tunnels_have_config].
Qed.

Lemma prune_loop_preserves os items : forall active h,
  files_accounted h generated /\ tunnels_have_config h generated ->
  files_accounted (prune_loop os items active h).2 generated
  /\ tunnels_have_config (prune_loop os items active h).2 generated.
Proof.
  induction items as [|[rental_id process] items IH]; intros active h Hinv;
    [exact Hinv|].
  cbn [prune_loop]. unfold mbind, M_bind.
  pose proof (prune_or_keep_forget os rental_id process active h) as Hstep.
  destruct (prune_or_keep_returns os (rental_id, process) active h) as [active' Hret].
  destruct (prune_or_keep os (rental_id, process) active h) as [r h'].
  cbn in Hret, Hstep. subst r h'. apply IH.
  destruct (poll os process); [|exact Hinv].
  destruct Hinv.
  split; [now apply forget_files_accounted | now apply forget_tunnels_have_config].
Qed.

End Invariants.

(** [destroy_all_tunnels] is [destroy_tunnel] folded over the keys. *)
Lemma for_each_destroy l : forall h,
  for_each l destroy_tunnel h
  = (Ok tt, foldl (fun h rental_id => (destroy_tunnel rental_id h).2) h l).
Proof.
  induction l as [|r l IH]; intros h; [reflexivity|].
  cbn [for_each foldl]. unfold mbind, M_bind.
  rewrite destroy_tunnel_forget. cbn [snd]. apply IH.
Qed.

Lemma active_after_destroy rental_id h :
  _active_tunnels (mgr (destroy_tunnel rental_id h).2)
  = delete rental_id (_active_tunnels (mgr h)).
Proof.
  rewrite destroy_tunnel_forget. cbn [snd].
  destruct (_ !! rental_id) eqn:H; [reflexivity|].
  symmetry. now apply delete_id.
Qed.

Lemma active_after_destroy_list l : forall h k,
  _active_tunnels
    (mgr (foldl (fun h rental_id => (destroy_tunnel rental_id h).2) h l)) !! k
  = if decide (k ∈ l) then None else _active_tunnels (mgr h) !! k.
Proof.
  induction l as [|r l IH]; intros h k; [reflexivity|].
  cbn [foldl]. rewrite IH, active_after_destroy.
  destruct (decide (k ∈ l)) as [Hin|Hnin].
  - rewrite decide_True by (now right). reflexivity.
  - destruct (decide (k = r)) as [->|Hne].
    + rewrite decide_True by left. apply lookup_delete_eq.
    + rewrite decide_False by (rewrite elem_of_cons; tauto).
      now apply lookup_delete_ne.
Qed.

Lemma destroy_all_tunnels_unfold h :
  destroy_all_tunnels h
  = (Ok tt, foldl (fun h rental_id => (destroy_tunnel rental_id h).2) h
              (map_to_list (_active_tunnels (mgr h))).*1).
Proof. unfold destroy_all_tunnels, mbind, M_bind, get. apply for_each_destroy. Qed.

Lemma destroy_all_tunnels_empties h :
  _active_tunnels (mgr (destroy_all_tunnels h).2) = ∅.
Proof.
  rewrite destroy_all_tunnels_unfold. cbn [snd].
  apply map_empty. intros k. rewrite active_after_destroy_list.
  destruct (decide _) as [|Hnin]; [reflexivity|].
  destruct (_active_tunnels (mgr h) !! k) as [pid|] eqn:Hk; [|reflexivity].
  exfalso. apply Hnin. apply list_elem_of_fmap. exists (k, pid).
  split; [reflexivity|]. now apply elem_of_map_to_list.
Qed.

Lemma destroy_all_preserves generated h :
  files_accounted h generated /\ tunnels_have_config h generated ->
  files_accounted (destroy_all_tunnels h).2 generated
  /\ tunnels_have_config (destroy_all_tunnels h).2 generated.
Proof.
  rewrite destroy_all_tunnels_unfold. cbn [snd].
  generalize ((map_to_list (_active_tunnels (mgr h))).*1). intros l. revert h.
  induction l as [|r l IH]; intros h Hinv; [exact Hinv|].
  cbn [foldl]. apply IH. now apply destroy_preserves.
Qed.

Lemma create_preserves generated os rental_id port_mapping local_ports h :
  let op := Create os rental_id port_mapping local_ports in
  files_accounted h generated /\ tunnels_have_config h generated ->
  files_accounted (step op h) (generated ∪ written op h)
  /\ tunnels_have_config (step op h) (generated ∪ written op h).
Proof.
  cbv zeta. intros [H1 H2]. cbn [step].
  destruct (create_tunnel_cases os rental_id port_mapping local_ports h)
    as [_ [(_ & -> & ->) | [(_ & (e & ->) & ->)
         | [(Hnone & _ & -> & Ha & Hc & Hd)
           | (Hnone & _ & -> & pid & content & Ha & Hc & Hd)]]]];
    cbn [snd].
  - rewrite (right_id_L ∅ (∪)). auto.
  - rewrite (right_id_L ∅ (∪)). auto.
  - split.
    + intros path Hgen Hdisk. rewrite Hd in Hdisk.
      apply lookup_delete_is_Some in Hdisk as [Hp Hdisk].
      assert (Hg : path ∈ generated).
      { apply elem_of_union in Hgen as [Hg|Hg%elem_of_singleton];
          [exact Hg | congruence]. }
      destruct (H1 path Hg Hdisk) as (r & Hactive & Hconfig).
      exists r. rewrite Ha, Hc. split; [exact Hactive|].
      rewrite lookup_insert_ne; [exact Hconfig|].
      intros <-. rewrite Hnone in Hactive. now destruct Hactive.
    + intros r Hactive. rewrite Ha in Hactive.
      destruct (H2 r Hactive) as (path & Hconfig & Hgen).
      exists path. rewrite Hc. split; [|set_solver].
      rewrite lookup_insert_ne; [exact Hconfig|].
      intros <-. rewrite Hnone in Hactive. now destruct Hactive.
  - split.
    + intros path Hgen Hdisk. rewrite Ha, Hc.
      destruct (decide (path = config_path os rental_id)) as [->|Hp].
      * exists rental_id. rewrite !lookup_insert_eq. eauto.
      * rewrite Hd, lookup_insert_ne in Hdisk by congruence.
        assert (Hg : path ∈ generated).
        { apply elem_of_union in Hgen as [Hg|Hg%elem_of_singleton];
            [exact Hg | congruence]. }
        destruct (H1 path Hg Hdisk) as (r & Hactive & Hconfig).
        assert (Hr : rental_id <> r).
        { intros <-. rewrite Hnone in Hactive. now destruct Hactive. }
        exists r. rewrite !lookup_insert_ne by exact Hr. auto.
    + intros r Hactive. rewrite Ha in Hactive. rewrite Hc.
      destruct (decide (rental_id = r)) as [<-|Hr].
      * exists (config_path os rental_id). rewrite lookup_insert_eq.
        split; [reflexivity | set_solver].
      * rewrite lookup_insert_ne in Hactive by exact Hr.
        destruct (H2 r Hactive) as (path & Hconfig & Hgen).
        exists path. rewrite lookup_insert_ne by exact Hr.
        split; [exact Hconfig | set_solver].
Qed.

Lemma step_preserves generated op h :
  files_accounted h generated /\ tunnels_have_config h generated ->
  files_accounted (step op h) (generated ∪ written op h)
  /\ tunnels_have_config (step op h) (generated ∪ written op h).
Proof.
  destruct op as [os rental_id port_mapping local_ports | rental_id | os |].
  - apply create_preserves.
  - cbn [step written]. rewrite (right_id_L ∅ (∪)). apply destroy_preserves.
  - cbn [step written]. rewrite (right_id_L ∅ (∪)).
    unfold list_active_tunnels, mbind, M_bind, get. apply prune_loop_preserves.
  - cbn [step written]. rewrite (right_id_L ∅ (∪)). apply destroy_all_preserves.
Qed.

Lemma run_preserves ops : forall h generated,
  files_accounted h generated /\ tunnels_have_config h generated ->
  files_accounted (run ops h generated).1 (run ops h generated).2
  /\ tunnels_have_config (run ops h generated).1 (run ops h generated).2.
Proof.
  induction ops as [|op ops IH]; intros h generated Hinv; [exact Hinv|].
  cbn [run]. apply IH. now apply step_preserves.
Qed.

Lemma init_invariants config disk0 :
  files_accounted (init config disk0) ∅ /\ tunnels_have_config (init config disk0) ∅.
Proof.
  split.
  - intros path Hgen. set_solver.
  - intros r [pid Hactive]. cbn in Hactive. now rewrite lookup_empty in Hactive.
Qed.

End Cleanup.

(** C9. Take any finite sequence of tunnel operations (creates,
    destroys, listings, destroy-alls, under any answers of the operating
    system) from a new tunnel supervisor. Then [destroy_all_tunnels]
    returns normally, leaves the active-tunnel map empty, and leaves on
    disk none of the config files generated so far; in particular every
    tunnel that was active had a recorded config file, one of the
    generated, and that file is gone. *)
Theorem destroy_all_tunnels_cleans_up (config : TunnelManager.FRPConfig)
    (disk0 : gmap string string) (ops : list TunnelRun.Op) :
  let h := (TunnelRun.run ops (TunnelRun.init config disk0) ∅).1 in
  let generated := (TunnelRun.run ops (TunnelRun.init config disk0) ∅).2 in
  let out := TunnelManager.destroy_all_tunnels h in
  out.1 = Ok tt
  /\ TunnelManager._active_tunnels (TunnelManager.mgr out.2) = ∅
  /\ (forall path, path ∈ generated -> TunnelManager.disk out.2 !! path = None)
  /\ (forall rental_id,
        is_Some (TunnelManager._active_tunnels (TunnelManager.mgr h) !! rental_id) ->
        exists path,
          TunnelManager._tunnel_configs (TunnelManager.mgr h) !! rental_id = Some path
          /\ path ∈ generated
          /\ TunnelManager.disk out.2 !! path = None).
Proof.
  cbv zeta.
  pose proof (run_preserves ops _ _ (init_invariants config disk0)) as Hinv.
  set (h := (TunnelRun.run ops (TunnelRun.init config disk0) ∅).1) in *.
  set (generated := (TunnelRun.run ops (TunnelRun.init config disk0) ∅).2) in *.
  pose proof (destroy_all_preserves generated h Hinv) as [Hfiles _].
  pose proof (destroy_all_tunnels_empties h) as Hempty.
  assert (Hgone : forall path, path ∈ generated ->
            TunnelManager.disk (TunnelManager.destroy_all_tunnels h).2 !! path = None).
  { intros path Hgen.
    destruct (TunnelManager.disk _ !! path) as [text|] eqn:Hdisk; [|reflexivity].
    destruct (Hfiles path Hgen) as (r & [pid Hactive] & _).
    - rewrite Hdisk. eauto.
    - rewrite Hempty, lookup_empty in Hactive. discriminate. }
  split; [now rewrite destroy_all_tunnels_unfold|].
  split; [exact Hempty|]. split; [exact Hgone|].
  intros rental_id Hactive. destruct Hinv as [_ Hhave].
  destruct (Hhave rental_id Hactive) as (path & Hconfig & Hgen).
  exists path. auto.
Qed.

Lemma destroy_all_tunnels_cleans_up_witness :
  let ops := [ TunnelRun.Create Sample.os "r1" {[ "22" := 30022%Z ]} None;
               TunnelRun.Create Sample.os "r2" {[ "8888" := 30888%Z ]} (Some ∅) ] in
  let h := (TunnelRun.run ops (TunnelRun.init Sample.frp ∅) ∅).1 in
  TunnelManager.disk (TunnelManager.destroy_all_tunnels h).2 !! "/tmp/frpc_r1_k3j2.ini"
  = None.
Proof.
  cbv zeta.
  apply (destroy_all_tunnels_cleans_up Sample.frp ∅
           [ TunnelRun.Create Sample.os "r1" {[ "22" := 30022%Z ]} None;
             TunnelRun.Create Sample.os "r2" {[ "8888" := 30888%Z ]} (Some ∅) ]).
  vm_compute. reflexivity.
Defined.

Example tunnels_before_cleanup :
  let ops := [ TunnelRun.Create Sample.os "r1" {[ "22" := 30022%Z ]} None;
               TunnelRun.Create Sample.os "r2" {[ "8888" := 30888%Z ]} (Some ∅) ] in
  let h := (TunnelRun.run ops (TunnelRun.init Sample.frp ∅) ∅).1 in
  TunnelManager._active_tunnels (TunnelManager.mgr h) = {[ "r1" := 4242%Z; "r2" := 4242%Z ]}
  /\ dom (TunnelManager.disk h)
     = ({[ "/tmp/frpc_r1_k3j2.ini"; "/tmp/frpc_r2_k3j2.ini" ]} : gset string)
  /\ TunnelManager.disk (TunnelManager.destroy_all_tunnels h).2 = ∅.
Proof. vm_compute. repeat split. Qed.

(** ** A rental from start to stop, evaluated *)

Example start_then_stop :
  let a0 := Sample.connected Sample.default_allowed in
  let a1 := Sample.one_rental in
  let a2 := Run.perform Sample.world (Run.Handle (Sample.stop "r1" "c1")) a1 in
  Run.node_status a0 = ONLINE
  /\ AgentOrchestrator.emitted_during a0 a1
     = [ InstanceStartedEvent "r1" "c1"
           {| ssh_host := "relay.example.com"; ssh_port := 30022%Z;
              additional_ports := {[ "8888" := 30888%Z ]} |} ]
  /\ Run.node_status a1 = BUSY
  /\ Run.container_records a1 = {[ "r1" := "c1" ]}
  /\ Run.tunnel_records a1 = {[ "r1" := 4242%Z ]}
  /\ AgentOrchestrator.emitted_during a1 a2
     = [ InstanceStoppedEvent "r1" "c1" "requested" None ]
  /\ Run.node_status a2 = ONLINE
  /\ Run.container_records a2 = ∅
  /\ Run.tunnel_records a2 = ∅
  /\ TunnelManager.disk (AgentOrchestrator.tunnel a2) = ∅.
Proof. vm_compute. repeat split. Qed.


(** * Further properties of the code *)

(** ** Allowed images: patterns that end in a star *)

(** X1. When every allowed pattern is a text without glob characters
    followed by one star (the shape of the default allow-list), an image
    is allowed exactly when its reference begins with one of these texts. *)
Theorem star_patterns_allow_by_prefix (m : DockerManager.t) (prefixes : list string)
    (image : string) :
  Forall (fun prefix => Fnmatch.literal_pattern prefix = true) prefixes ->
  DockerManager.allowed_images (DockerManager.config m)
  = map (fun prefix => prefix +:+ "*") prefixes ->
  (DockerManager.is_image_allowed m image = true
   <-> exists prefix rest, In prefix prefixes /\ image = prefix +:+ rest).
Proof.
  intros Hlit Hallowed. unfold DockerManager.is_image_allowed. rewrite Hallowed.
  clear Hallowed. induction Hlit as [|prefix prefixes Hp Hlit IH]; cbn [map existsb].
  - split; [discriminate | intros (? & ? & [] & _)].
  - rewrite orb_true_iff, IH, (fnmatch_trailing_star _ _ Hp). split.
    + intros [(rest & ->) | (p & rest & Hin & ->)].
      * exists prefix, rest. split; [now left | reflexivity].
      * exists p, rest. split; [now right | reflexivity].
    + intros (p & rest & [<- | Hin] & ->).
      * left. now exists rest.
      * right. now exists p, rest.
Qed.

Lemma star_patterns_allow_by_prefix_witness :
  DockerManager.is_image_allowed
    (AgentOrchestrator.docker (Sample.fresh Sample.default_allowed))
    "nvidia/cuda:12.2-runtime" = true
  <-> exists prefix rest,
        In prefix [ "pytorch/pytorch:"; "tensorflow/tensorflow:";
                    "jupyter/scipy-notebook:"; "nvidia/cuda:" ]
        /\ "nvidia/cuda:12.2-runtime" = prefix +:+ rest.
Proof.
  apply (star_patterns_allow_by_prefix
           (AgentOrchestrator.docker (Sample.fresh Sample.default_allowed))
           [ "pytorch/pytorch:"; "tensorflow/tensorflow:";
             "jupyter/scipy-notebook:"; "nvidia/cuda:" ]).
  - repeat constructor.
  - reflexivity.
Defined.

(** ** Container supervisor *)

Section Containers.
Import DockerManager.

(** X2. [start_container] changes the manager only when it returns, and
    then only by filing the new container id under the rental_id (over a
    previous record of that rental, if any). It returns only for an
    allowed image whose pull went through, the id it records and returns
    is the one the daemon gave for the run of the built container
    config, and the connection info is a placeholder (localhost, port 22,
    the mapping without "22"). When it raises, the manager is unchanged,
    and the image was not allowed, or the pull raised, or the daemon did
    not start the container. *)
Theorem start_container_records_on_success_only (d : Daemon)
    (data : StartInstanceCommandData) (m : t) :
  let run := containers_run d
               (_build_container_config m (image data) (resource_limits data)
                  (env_vars data) (proxy_port_mapping data)) in
  match start_container d data m with
  | (Ok (container_id, info), m') =>
      is_image_allowed m (image data) = true
      /\ pull_image d (image data) m = (Ok tt, m)
      /\ run = Started container_id
      /\ config m' = config m
      /\ _active_containers m' = <[start_rental_id data := container_id]> (_active_containers m)
      /\ info = {| ssh_host := "localhost"; ssh_port := 22%Z;
                   additional_ports := delete "22" (proxy_port_mapping data) |}
  | (Raise e, m') =>
      m' = m
      /\ (is_image_allowed m (image data) = false
          \/ (pull_image d (image data) m).1 = Raise e
          \/ forall container_id, run <> Started container_id)
  end.
Proof.
  cbv zeta. unfold start_container. unfold mbind, M_bind, get.
  destruct (is_image_allowed m (image data)) eqn:Hallowed; cbn [negb];
    [|split; [reflexivity | now left]].
  destruct (pull_image_outcome d (image data) m) as [Hpull | (e & Hpull & _)];
    rewrite Hpull; [|split; [reflexivity | right; left; reflexivity]].
  destruct (containers_run d _) eqn:Hrun; cbn;
    try (split; [reflexivity | right; right; intros c; discriminate]).
  repeat split. now rewrite without_ssh_port.
Qed.

(** X3. [stop_container] returns exactly when the daemon stopped the
    container or reports it missing; it then forgets the record of a
    non-empty rental_id and touches no other record. When it raises, the
    manager is unchanged (the record is kept). An empty or absent
    rental_id never removes a record. *)
Theorem stop_container_not_found_is_success (d : Daemon) (container_id : string)
    (rental_id : option string) (graceful : bool) (timeout : Z) (m : t) :
  let out := stop_container d container_id rental_id graceful timeout m in
  (out.1 = Ok tt <->
   get_and_stop d container_id graceful timeout = Stopped
   \/ get_and_stop d container_id graceful timeout = StopNotFound)
  /\ (out.1 = Ok tt ->
      forall k, _active_containers out.2 !! k
                = if bool_decide (rental_id = Some k /\ k <> "") then None
                  else _active_containers m !! k)
  /\ (forall e, out.1 = Raise e -> out.2 = m)
  /\ (rental_id = None \/ rental_id = Some "" -> out.2 = m).
Proof.
  cbv zeta. unfold stop_container, untrack. unfold_method.
  assert (Huntrack : forall k,
            _active_containers
              (match rental_id with
               | Some r =>
                   if negb (String.eqb r "")
                      && bool_decide (is_Some (_active_containers m !! r))
                   then set_active (delete r (_active_containers m)) m
                   else m
               | None => m
               end) !! k
            = if bool_decide (rental_id = Some k /\ k <> "") then None
              else _active_containers m !! k).
  { intros k. destruct rental_id as [r|].
    2:{ rewrite bool_decide_eq_false_2 by (intros [[=] _]). reflexivity. }
    destruct (String.eqb_spec r "") as [->|Hr]; cbn [negb andb].
    { rewrite bool_decide_eq_false_2; [reflexivity|]. intros [[= <-] H]. now apply H. }
    destruct (bool_decide (is_Some (_active_containers m !! r))) eqn:Hin; cbn.
    - destruct (decide (r = k)) as [->|Hk].
      + rewrite bool_decide_eq_true_2 by auto. apply lookup_delete_eq.
      + rewrite bool_decide_eq_false_2 by (intros [[=] _]; congruence).
        now apply lookup_delete_ne.
    - apply bool_decide_eq_false in Hin. rewrite <- eq_None_not_Some in Hin.
      destruct (decide (r = k)) as [->|Hk].
      + rewrite bool_decide_eq_true_2 by auto. exact Hin.
      + rewrite bool_decide_eq_false_2 by (intros [[=] _]; congruence). reflexivity. }
  assert (Hempty : rental_id = None \/ rental_id = Some "" ->
            match rental_id with
            | Some r =>
                if negb (String.eqb r "")
                   && bool_decide (is_Some (_active_containers m !! r))
                then set_active (delete r (_active_containers m)) m
                else m
            | None => m
            end = m).
  { intros [-> | ->]; reflexivity. }
  destruct (get_and_stop d container_id graceful timeout); cbn [fst snd];
    repeat split; intros; try discriminate; auto;
    try match goal with H : _ \/ _ |- _ => destruct H; discriminate end.
Qed.

Lemma stop_container_not_found_is_success_witness :
  _active_containers
    (stop_container
       (Sample.daemon_running "c1") "c1" (Some "r1") true 30
       (AgentOrchestrator.docker Sample.one_rental)).2 !! "r1"
  = if bool_decide (Some "r1" = Some "r1" /\ "r1" <> "") then None
    else _active_containers (AgentOrchestrator.docker Sample.one_rental) !! "r1".
Proof.
  refine (proj1 (proj2 (stop_container_not_found_is_success (Sample.daemon_running "c1")
            "c1" (Some "r1") true 30%Z (AgentOrchestrator.docker Sample.one_rental)))
            _ "r1").
  reflexivity.
Defined.

End Containers.

Section ActiveRentals.
Import DockerManager.

Lemma get_container_status_cases d container_id :
  (inspection_raises d container_id = true
   /\ exists e, get_container_status d container_id = Raise e)
  \/ (inspection_raises d container_id = false /\ is_present d container_id = true
      /\ exists s, get_container_status d container_id = Ok (Some s))
  \/ (inspection_raises d container_id = false /\ is_present d container_id = false
      /\ get_container_status d container_id = Ok None).
Proof.
  unfold inspection_raises, is_present, get_container_status.
  destruct (inspect d container_id); eauto 8.
Qed.

Lemma still_existing_spec d l : forall acc,
  NoDup l.*1 -> (forall k, k ∈ l.*1 -> acc !! k = None) ->
  if existsb (fun kv => inspection_raises d kv.2) l
  then exists e, still_existing d l acc = Raise e
  else exists r, still_existing d l acc = Ok r
                 /\ forall k v, r !! k = Some v
                      <-> ((k, v) ∈ l /\ is_present d v = true) \/ acc !! k = Some v.
Proof.
  induction l as [|[k0 v0] l IH]; intros acc Hnodup Hfresh.
  - cbn. exists acc. split; [reflexivity|]. intros k v. split; [auto|].
    intros [[Hin _]|H]; [|exact H]. now apply elem_of_nil in Hin.
  - cbn [fmap list_fmap fst] in Hnodup. apply NoDup_cons in Hnodup as [Hk0 Hnodup].
    cbn [existsb still_existing snd].
    destruct (get_container_status_cases d v0)
      as [(-> & e & ->) | [(-> & Hp & s & ->) | (-> & Hp & ->)]]; cbn [orb].
    + eauto.
    + specialize (IH (<[k0 := v0]> acc) Hnodup).
      destruct (existsb _ l).
      * apply IH. intros k Hk. rewrite lookup_insert_ne; [|congruence].
        apply Hfresh. now right.
      * destruct IH as (r & -> & Hr).
        { intros k Hk. rewrite lookup_insert_ne; [|congruence].
          apply Hfresh. now right. }
        exists r. split; [reflexivity|]. intros k v. rewrite Hr, elem_of_cons.
        rewrite lookup_insert. split.
        -- intros [[Hin Hv] | Hacc]; [tauto|].
           case_decide; [|tauto]. injection Hacc as <-. subst k. left. tauto.
        -- intros [[[[= -> ->] | Hin] Hv] | Hacc].
           ++ right. now rewrite decide_True.
           ++ tauto.
           ++ right. case_decide; [|exact Hacc]. subst k.
              rewrite Hfresh in Hacc by now left. discriminate.
    + specialize (IH acc Hnodup).
      destruct (existsb _ l).
      * apply IH. intros k Hk. apply Hfresh. now right.
      * destruct IH as (r & -> & Hr).
        { intros k Hk. apply Hfresh. now right. }
        exists r. split; [reflexivity|]. intros k v. rewrite Hr, elem_of_cons.
        split; [tauto|]. intros [[[[= -> ->] | Hin] Hv] | Hacc]; [congruence|tauto|tauto].
Qed.

Lemma raising_among_tracked d (m : gmap string string) :
  existsb (fun kv => inspection_raises d kv.2) (map_to_list m) = true
  <-> exists rental_id container_id,
        m !! rental_id = Some container_id /\ inspection_raises d container_id = true.
Proof.
  rewrite existsb_exists. split.
  - intros ([k v] & Hin & Hr). exists k, v. split; [|exact Hr].
    now apply elem_of_map_to_list, list_elem_of_In.
  - intros (k & v & Hm & Hr). exists (k, v). split; [|exact Hr].
    now apply list_elem_of_In, elem_of_map_to_list.
Qed.

Lemma list_active_rentals_cases d m :
  if existsb (fun kv => inspection_raises d kv.2) (map_to_list (_active_containers m))
  then exists e, list_active_rentals d m = (Raise e, m)
  else let present := filter (fun kv => is_present d kv.2 = true) (_active_containers m) in
       list_active_rentals d m = (Ok present, set_active present m).
Proof.
  rewrite list_active_rentals_unfold.
  pose proof (still_existing_spec d (map_to_list (_active_containers m)) ∅
                (NoDup_fst_map_to_list _) (fun k _ => lookup_empty k)) as H.
  destruct (existsb _ _).
  - destruct H as [e ->]. eauto.
  - destruct H as (r & -> & Hr). cbv zeta.
    assert (r = filter (fun kv => is_present d kv.2 = true) (_active_containers m)) as ->;
      [|reflexivity].
    apply map_eq. intros k. apply option_eq. intros v.
    rewrite Hr, map_lookup_filter_Some, elem_of_map_to_list, lookup_empty. cbn.
    split; [intros [H|[=]]; exact H | auto].
Qed.

End ActiveRentals.

(** X4. [list_active_rentals] inspects every tracked container. If one
    inspection raises (anything but "not found"), the call raises and the
    tracking map is unchanged. Otherwise it returns, and keeps as the new
    tracking map, exactly the records whose container the daemon still
    knows: records of missing containers are pruned, no other is. *)
Theorem list_active_rentals_prunes_missing (d : DockerManager.Daemon)
    (m : DockerManager.t) :
  let raising := exists rental_id container_id,
                   DockerManager._active_containers m !! rental_id = Some container_id
                   /\ DockerManager.inspection_raises d container_id = true in
  let present := filter (fun kv => DockerManager.is_present d kv.2 = true)
                   (DockerManager._active_containers m) in
  (raising -> exists e, DockerManager.list_active_rentals d m = (Raise e, m))
  /\ (~ raising ->
      DockerManager.list_active_rentals d m
      = (Ok present, DockerManager.set_active present m)).
Proof.
  cbv zeta. pose proof (list_active_rentals_cases d m) as H.
  pose proof (raising_among_tracked d (DockerManager._active_containers m)) as Hr.
  destruct (existsb _ _); split; intros Hcase.
  - exact H.
  - exfalso. apply Hcase, Hr. reflexivity.
  - apply Hr in Hcase. discriminate.
  - exact H.
Qed.

Lemma list_active_rentals_prunes_missing_witness :
  exists e,
    DockerManager.list_active_rentals (Sample.daemon_failing_inspect "c2")
      (AgentOrchestrator.docker Sample.two_rentals)
    = (Raise e, AgentOrchestrator.docker Sample.two_rentals).
Proof.
  apply (list_active_rentals_prunes_missing (Sample.daemon_failing_inspect "c2")
           (AgentOrchestrator.docker Sample.two_rentals)).
  exists "r2", "c2". split; vm_compute; reflexivity.
Defined.

(** X5. [list_active_rentals] is stable: once it has returned, calling
    it again while the daemon answers the same returns the same map and
    leaves the manager as it is. *)
Theorem list_active_rentals_is_stable (d : DockerManager.Daemon)
    (m m' : DockerManager.t) (active : gmap string string) :
  DockerManager.list_active_rentals d m = (Ok active, m') ->
  DockerManager.list_active_rentals d m' = (Ok active, m').
Proof.
  intros Hfirst.
  pose proof (list_active_rentals_cases d m) as H1.
  pose proof (raising_among_tracked d (DockerManager._active_containers m)) as Hr1.
  destruct (existsb _ _) eqn:Hex1.
  { destruct H1 as [e He]. congruence. }
  cbv zeta in H1. rewrite H1 in Hfirst. injection Hfirst as <- <-.
  pose proof (list_active_rentals_cases d
                (DockerManager.set_active
                   (filter (fun kv => DockerManager.is_present d kv.2 = true)
                      (DockerManager._active_containers m)) m)) as H2.
  pose proof (raising_among_tracked d
                (filter (fun kv => DockerManager.is_present d kv.2 = true)
                   (DockerManager._active_containers m))) as Hr2.
  cbn [DockerManager._active_containers DockerManager.set_active] in H2.
  destruct (existsb _ (map_to_list (filter _ _))).
  { exfalso. destruct Hr2 as [(k & v & Hk & Hv) _]; [reflexivity|].
    apply map_lookup_filter_Some in Hk as [Hk _].
    assert (Hfalse : false = true) by (apply Hr1; eauto).
    discriminate Hfalse. }
  cbv zeta in H2. rewrite H2. f_equal.
  - f_equal. apply map_filter_id. intros k v Hk.
    now apply map_lookup_filter_Some in Hk as [_ Hk].
  - rewrite (map_filter_id _ (filter _ _)); [reflexivity|].
    intros k v Hk. now apply map_lookup_filter_Some in Hk as [_ Hk].
Qed.

Lemma list_active_rentals_is_stable_witness :
  DockerManager.list_active_rentals Sample.daemon
    (AgentOrchestrator.docker Sample.two_rentals)
  = (Ok (DockerManager._active_containers (AgentOrchestrator.docker Sample.two_rentals)),
     AgentOrchestrator.docker Sample.two_rentals).
Proof.
  apply (list_active_rentals_is_stable Sample.daemon
           (AgentOrchestrator.docker Sample.two_rentals)).
  vm_compute. reflexivity.
Defined.

Section Cleanup_containers.
Import DockerManager.
Variable d : Daemon.
Variable remove : string -> bool -> RemoveOutcome.

Lemma cleanup_loop_spec items : forall removed m,
  NoDup items.*1 ->
  (forall k v, (k, v) ∈ items -> _active_containers m !! k = Some v) ->
  let out := cleanup_loop d remove items removed m in
  (forall k, _active_containers out.2 !! k = None
             \/ _active_containers out.2 !! k = _active_containers m !! k)
  /\ (forall k v, _active_containers m !! k = Some v ->
        _active_containers out.2 !! k = None ->
        (k, v) ∈ items /\ removable d remove v = true)
  /\ (forall removed', out.1 = Ok removed' ->
        (forall k v, (k, v) ∈ items -> removable d remove v = true ->
           _active_containers out.2 !! k = None)
        /\ (forall c, c ∈ removed'
              <-> c ∈ removed \/ exists k, (k, c) ∈ items /\ removable d remove c = true)).
Proof.
  induction items as [|[k0 v0] items IH]; intros removed m Hnodup Htracked; cbv zeta.
  { cbn. split; [auto|]. split; [intros k v H1 H2; congruence|].
    intros removed' [= <-]. split.
    - intros k v Hin. now apply elem_of_nil in Hin.
    - intros c. split; [auto|]. intros [H|(k & Hin & _)]; [exact H|].
      now apply elem_of_nil in Hin. }
  cbn [fmap list_fmap fst] in Hnodup. apply NoDup_cons in Hnodup as [Hk0 Hnodup].
  assert (Hrest : forall m1,
            (forall k, k <> k0 -> _active_containers m1 !! k = _active_containers m !! k) ->
            forall k v, (k, v) ∈ items -> _active_containers m1 !! k = Some v).
  { intros m1 Hm1 k v Hin. rewrite Hm1.
    - apply Htracked. now right.
    - intros ->. apply Hk0. apply list_elem_of_fmap. now exists (k0, v). }
  assert (Hhead : _active_containers m !! k0 = Some v0) by (apply Htracked; now left).
  (* the head is passed over: the loop goes on from the same manager *)
  assert (Hskip : removable d remove v0 = false ->
            let out := cleanup_loop d remove items removed m in
            (forall k, _active_containers out.2 !! k = None
                       \/ _active_containers out.2 !! k = _active_containers m !! k)
            /\ (forall k v, _active_containers m !! k = Some v ->
                  _active_containers out.2 !! k = None ->
                  (k, v) ∈ (k0, v0) :: items /\ removable d remove v = true)
            /\ (forall removed', out.1 = Ok removed' ->
                  (forall k v, (k, v) ∈ (k0, v0) :: items -> removable d remove v = true ->
                     _active_containers out.2 !! k = None)
                  /\ (forall c, c ∈ removed'
                        <-> c ∈ removed
                            \/ exists k, (k, c) ∈ (k0, v0) :: items
                                         /\ removable d remove c = true))).
  { intros Hnot. cbv zeta.
    destruct (IH removed m Hnodup (Hrest m (fun _ _ => eq_refl))) as (H1 & H2 & H3).
    split; [exact H1|]. split.
    - intros k v Hk Hgone. destruct (H2 k v Hk Hgone). split; [now right | assumption].
    - intros removed' Hret. destruct (H3 removed' Hret) as [H4 H5]. split.
      + intros k v [[= -> ->] | Hin]%elem_of_cons Hv; [congruence | eauto].
      + intros c. rewrite H5. split.
        * intros [H | (k & Hin & Hv)]; [auto|]. right. exists k. split; [now right | exact Hv].
        * intros [H | (k & [[= -> ->] | Hin]%elem_of_cons & Hv)];
            [auto | congruence | right; eauto]. }
  cbn [cleanup_loop]. unfold mbind, M_bind, pure_result.
  unfold removable in Hskip |- *.
  destruct (get_container_status d v0) as [status|e] eqn:Hstatus.
  2:{ cbn. split; [auto|]. split; [intros k v H1 H2; congruence | discriminate]. }
  destruct (is_terminal status) eqn:Hterminal; [|now apply Hskip].
  destruct (remove_container remove v0 false) as [[]|e] eqn:Hremove.
  2:{ destruct (Exn.is_docker_error e); [now apply Hskip|].
      cbn. split; [auto|]. split; [intros k v H1 H2; congruence | discriminate]. }
  clear Hskip. unfold modify. cbn [fst snd].
  set (m1 := set_active (delete k0 (_active_containers m)) m).
  assert (Hm1 : forall k, k <> k0 ->
            _active_containers m1 !! k = _active_containers m !! k).
  { intros k Hk. subst m1. cbn. now apply lookup_delete_ne. }
  destruct (IH (removed ++ [v0])%list m1 Hnodup (Hrest m1 Hm1)) as (H1 & H2 & H3).
  assert (Hgone0 : _active_containers (cleanup_loop d remove items (removed ++ [v0]) m1).2
                   !! k0 = None).
  { destruct (H1 k0) as [H|H]; [exact H|]. rewrite H. subst m1. cbn.
    apply lookup_delete_eq. }
  assert (Hv0 : removable d remove v0 = true).
  { unfold removable. now rewrite Hstatus, Hterminal, Hremove. }
  split; [|split].
  - intros k. destruct (decide (k = k0)) as [->|Hk]; [now left|].
    destruct (H1 k) as [H|H]; [now left|]. right. rewrite H. now apply Hm1.
  - intros k v Hk Hgone. destruct (decide (k = k0)) as [->|Hne].
    + assert (v = v0) as -> by congruence. split; [now left | exact Hv0].
    + rewrite <- Hm1 in Hk by exact Hne.
      destruct (H2 k v Hk Hgone) as [Hin Hv]. split; [now right | exact Hv].
  - intros removed' Hret. destruct (H3 removed' Hret) as [H4 H5]. split.
    + intros k v [[= -> ->] | Hin]%elem_of_cons Hv; [exact Hgone0 | eauto].
    + intros c. rewrite H5, elem_of_app, list_elem_of_singleton. split.
      * intros [[H | ->] | (k & Hin & Hv)].
        -- now left.
        -- right. exists k0. split; [now left | exact Hv0].
        -- right. exists k. split; [now right | exact Hv].
      * intros [H | (k & [[= -> ->] | Hin]%elem_of_cons & Hv)];
          [now left; left | now left; right | right; eauto].
Qed.

End Cleanup_containers.

(** X6. [cleanup_stopped_containers] only ever drops records, and only
    of containers the daemon reports as exited or dead and whose removal
    did not raise; a running container, and one the daemon no longer
    knows, keep their record. When it returns, it has dropped every such
    record, and the list it returns holds exactly their container ids. *)
Theorem cleanup_drops_only_terminal_containers (d : DockerManager.Daemon)
    (remove : string -> bool -> DockerManager.RemoveOutcome) (m : DockerManager.t) :
  let out := DockerManager.cleanup_stopped_containers d remove m in
  let records := DockerManager._active_containers m in
  let records' := DockerManager._active_containers out.2 in
  (forall rental_id container_id, records' !! rental_id = Some container_id ->
     records !! rental_id = Some container_id)
  /\ (forall rental_id container_id, records !! rental_id = Some container_id ->
        DockerManager.removable d remove container_id = false ->
        records' !! rental_id = Some container_id)
  /\ (forall removed, out.1 = Ok removed ->
        (forall rental_id container_id, records !! rental_id = Some container_id ->
           DockerManager.removable d remove container_id = true ->
           records' !! rental_id = None)
        /\ (forall container_id, container_id ∈ removed
              <-> exists rental_id, records !! rental_id = Some container_id
                    /\ DockerManager.removable d remove container_id = true)).
Proof.
  cbv zeta. unfold DockerManager.cleanup_stopped_containers, mbind, M_bind, get.
  cbv beta iota.
  pose proof (cleanup_loop_spec d remove
                (map_to_list (DockerManager._active_containers m)) [] m
                (NoDup_fst_map_to_list _)
                (fun k v H => proj1 (elem_of_map_to_list _ k v) H)) as (H1 & H2 & H3).
  cbv zeta in H1, H2, H3. split; [|split].
  - intros k v Hk. destruct (H1 k) as [H|H]; rewrite H in Hk; [discriminate | exact Hk].
  - intros k v Hk Hnot. destruct (H1 k) as [H|H]; [|now rewrite H].
    destruct (H2 k v Hk H) as [_ Hv]. rewrite Hv in Hnot. discriminate.
  - intros removed Hret. destruct (H3 removed Hret) as [H4 H5]. split.
    + intros k v Hk Hv. apply (H4 k v); [|exact Hv]. now apply elem_of_map_to_list.
    + intros c. rewrite H5. split.
      * intros [Hnil | (k & Hin & Hv)]; [now apply elem_of_nil in Hnil|].
        exists k. split; [now apply elem_of_map_to_list | exact Hv].
      * intros (k & Hk & Hv). right. exists k.
        split; [now apply elem_of_map_to_list | exact Hv].
Qed.

Lemma cleanup_drops_only_terminal_containers_witness :
  DockerManager._active_containers
    (DockerManager.cleanup_stopped_containers Sample.daemon
       (fun _ _ => DockerManager.Removed)
       (AgentOrchestrator.docker Sample.one_rental)).2 !! "r1"
  = Some "c1".
Proof.
  apply (cleanup_drops_only_terminal_containers Sample.daemon
           (fun _ _ => DockerManager.Removed)
           (AgentOrchestrator.docker Sample.one_rental)); vm_compute; reflexivity.
Defined.

(** ** Tunnel supervisor *)

Section TunnelConfig.
Import TunnelManager.

Lemma proxy_sections_raises os rental_id local_ports items :
  (exists e, proxy_sections os rental_id local_ports items = Raise e)
  <-> exists k v, (k, v) ∈ items /\ py_int os k = None.
Proof.
  induction items as [|[k0 v0] items IH]; cbn [proxy_sections].
  - split; [intros [e [=]] | intros (k & v & Hin & _); now apply elem_of_nil in Hin].
  - destruct (py_int os k0) as [n|] eqn:Hk0.
    + destruct (proxy_sections os rental_id local_ports items) as [lines|e] eqn:Hrest.
      * split; [intros [e [=]]|].
        intros (k & v & [[= -> ->] | Hin]%elem_of_cons & Hk); [congruence|].
        destruct IH as [_ IH]. destruct IH as [e [=]]. eauto.
      * split; [|eauto]. intros _. destruct IH as [IH _].
        destruct IH as (k & v & Hin & Hk); [eauto|].
        exists k, v. split; [now right | exact Hk].
    + split; [|eauto]. intros _. exists k0, v0. split; [now left | exact Hk0].
Qed.

End TunnelConfig.

(** X7. The tunnel config text can be generated exactly when every key
    of the port mapping is an int literal: [int(container_port)] is the
    default argument of [local_ports.get] and is evaluated also for the
    ports that [local_ports] holds. With a key that is not one,
    [create_tunnel] for a rental without a tunnel raises before it has
    written a file or recorded anything. *)
Theorem tunnel_needs_numeric_port_keys (os : TunnelManager.Os) (rental_id : string)
    (port_mapping local_ports : gmap string Z) (h : TunnelManager.Host) :
  let bad_key := exists key port, port_mapping !! key = Some port
                                   /\ TunnelManager.py_int os key = None in
  ((exists e, TunnelManager._generate_tunnel_config os (TunnelManager.mgr h) rental_id
                port_mapping local_ports = Raise e) <-> bad_key)
  /\ (bad_key ->
      TunnelManager._active_tunnels (TunnelManager.mgr h) !! rental_id = None ->
      exists e, TunnelManager.create_tunnel os rental_id port_mapping (Some local_ports) h
                = (Raise e, h)).
Proof.
  cbv zeta.
  assert (Hgen : (exists e, TunnelManager._generate_tunnel_config os (TunnelManager.mgr h)
                              rental_id port_mapping local_ports = Raise e)
                 <-> exists key port, port_mapping !! key = Some port
                                      /\ TunnelManager.py_int os key = None).
  { unfold TunnelManager._generate_tunnel_config.
    pose proof (proxy_sections_raises os rental_id local_ports (map_to_list port_mapping))
      as Hsec.
    destruct (TunnelManager.proxy_sections _ _ _ _) as [lines|e].
    - split; [intros [e [=]]|]. intros (k & v & Hk & Hint).
      destruct Hsec as [_ Hsec]. destruct Hsec as [e [=]].
      exists k, v. split; [now apply elem_of_map_to_list | exact Hint].
    - split; [|eauto]. intros _. destruct Hsec as [Hsec _].
      destruct Hsec as (k & v & Hin & Hint); [eauto|].
      exists k, v. split; [now apply elem_of_map_to_list | exact Hint]. }
  split; [exact Hgen|]. intros Hbad Habsent. apply Hgen in Hbad as [e He].
  rewrite create_tunnel_unfold, bool_decide_eq_false_2.
  - cbn [TunnelManager.resolved_ports]. rewrite He. eauto.
  - rewrite Habsent. intros [? [=]].
Qed.

Lemma tunnel_needs_numeric_port_keys_witness :
  exists e,
    TunnelManager.create_tunnel Sample.os "r7" {[ "ssh" := 30022%Z ]}
      (Some {[ "ssh" := 49153%Z ]}) (TunnelRun.init Sample.frp ∅)
    = (Raise e, TunnelRun.init Sample.frp ∅).
Proof.
  apply (tunnel_needs_numeric_port_keys Sample.os "r7" {[ "ssh" := 30022%Z ]}
           {[ "ssh" := 49153%Z ]} (TunnelRun.init Sample.frp ∅)).
  - exists "ssh", 30022%Z. split; vm_compute; reflexivity.
  - vm_compute. reflexivity.
Defined.

(** X8. Create then destroy is a round trip. For a rental with no tunnel
    and no recorded config, and a config path not yet on disk, a
    [create_tunnel] that returns followed by [destroy_tunnel] leaves the
    tunnel map, the config map and the disk exactly as they were. *)
Theorem create_then_destroy_restores (os : TunnelManager.Os) (rental_id : string)
    (port_mapping : gmap string Z) (local_ports : option (gmap string Z))
    (h : TunnelManager.Host) :
  TunnelManager._active_tunnels (TunnelManager.mgr h) !! rental_id = None ->
  TunnelManager._tunnel_configs (TunnelManager.mgr h) !! rental_id = None ->
  TunnelManager.disk h !! TunnelManager.config_path os rental_id = None ->
  (TunnelManager.create_tunnel os rental_id port_mapping local_ports h).1 = Ok tt ->
  let h1 := (TunnelManager.create_tunnel os rental_id port_mapping local_ports h).2 in
  let h2 := (TunnelManager.destroy_tunnel rental_id h1).2 in
  is_Some (TunnelManager._active_tunnels (TunnelManager.mgr h1) !! rental_id)
  /\ is_Some (TunnelManager.disk h1 !! TunnelManager.config_path os rental_id)
  /\ TunnelManager._active_tunnels (TunnelManager.mgr h2)
     = TunnelManager._active_tunnels (TunnelManager.mgr h)
  /\ TunnelManager._tunnel_configs (TunnelManager.mgr h2)
     = TunnelManager._tunnel_configs (TunnelManager.mgr h)
  /\ TunnelManager.disk h2 = TunnelManager.disk h.
Proof.
  intros Hactive Hconfig Hdisk Hok. cbv zeta.
  destruct (create_tunnel_cases os rental_id port_mapping local_ports h)
    as [_ [(Hin & _) | [(_ & (e & He) & _)
         | [(_ & (e & He) & _) | (_ & _ & _ & pid & content & Ha & Hc & Hd)]]]].
  - rewrite Hactive in Hin. now destruct Hin.
  - rewrite He in Hok. discriminate.
  - rewrite He in Hok. discriminate.
  - rewrite destroy_tunnel_unfold, Ha, Hc, Hd, !lookup_insert_eq. cbn.
    rewrite ?Ha, ?Hc, ?Hd, !delete_insert_eq, !delete_id by assumption.
    repeat split; eauto.
Qed.

Lemma create_then_destroy_restores_witness :
  TunnelManager.disk
    (TunnelManager.destroy_tunnel "r1"
       (TunnelManager.create_tunnel Sample.os "r1" {[ "22" := 30022%Z ]} None
          (TunnelRun.init Sample.frp ∅)).2).2
  = TunnelManager.disk (TunnelRun.init Sample.frp ∅).
Proof.
  apply (create_then_destroy_restores Sample.os "r1" {[ "22" := 30022%Z ]} None
           (TunnelRun.init Sample.frp ∅)); vm_compute; reflexivity.
Defined.

(** X9. A [create_tunnel] that raises starts no tunnel and leaves no
    file behind: the tunnel map is unchanged and every file on disk
    afterwards was there before, with its text. Of the config map only
    the rental's own entry can differ: it may be left pointing at the
    removed file. *)
Theorem failed_create_leaves_no_tunnel_and_no_file (os : TunnelManager.Os)
    (rental_id : string) (port_mapping : gmap string Z)
    (local_ports : option (gmap string Z)) (h : TunnelManager.Host) (e : Exn.t) :
  (TunnelManager.create_tunnel os rental_id port_mapping local_ports h).1 = Raise e ->
  let h' := (TunnelManager.create_tunnel os rental_id port_mapping local_ports h).2 in
  TunnelManager._active_tunnels (TunnelManager.mgr h')
  = TunnelManager._active_tunnels (TunnelManager.mgr h)
  /\ TunnelManager.disk h' ⊆ TunnelManager.disk h
  /\ (forall k, k <> rental_id ->
        TunnelManager._tunnel_configs (TunnelManager.mgr h') !! k
        = TunnelManager._tunnel_configs (TunnelManager.mgr h) !! k).
Proof.
  intros Hraise. cbv zeta.
  destruct (create_tunnel_cases os rental_id port_mapping local_ports h)
    as [_ [(_ & He & _) | [(_ & (e' & He) & _)
         | [(_ & _ & _ & Ha & Hc & Hd) | (_ & Hok & _)]]]].
  - rewrite He in Hraise. discriminate.
  - rewrite He. cbn. repeat split; reflexivity.
  - rewrite Ha, Hc, Hd. repeat split.
    + apply delete_subseteq.
    + intros k Hk. apply lookup_insert_ne. congruence.
  - rewrite Hok in Hraise. discriminate.
Qed.

Lemma failed_create_leaves_no_tunnel_and_no_file_witness :
  TunnelManager.disk
    (TunnelManager.create_tunnel
       {| TunnelManager.is_executable := fun _ => false;
          TunnelManager.which := fun _ => None;
          TunnelManager.expanduser := TunnelManager.expanduser Sample.os;
          TunnelManager.mktemp := TunnelManager.mktemp Sample.os;
          TunnelManager.popen := TunnelManager.popen Sample.os;
          TunnelManager.poll := TunnelManager.poll Sample.os;
          TunnelManager.py_int := TunnelManager.py_int Sample.os |}
       "r1" {[ "22" := 30022%Z ]} None (TunnelRun.init Sample.frp ∅)).2
  ⊆ TunnelManager.disk (TunnelRun.init Sample.frp ∅).
Proof.
  eapply (failed_create_leaves_no_tunnel_and_no_file
            {| TunnelManager.is_executable := fun _ => false;
               TunnelManager.which := fun _ => None;
               TunnelManager.expanduser := TunnelManager.expanduser Sample.os;
               TunnelManager.mktemp := TunnelManager.mktemp Sample.os;
               TunnelManager.popen := TunnelManager.popen Sample.os;
               TunnelManager.poll := TunnelManager.poll Sample.os;
               TunnelManager.py_int := TunnelManager.py_int Sample.os |}
            "r1" {[ "22" := 30022%Z ]} None (TunnelRun.init Sample.frp ∅)).
  vm_compute. reflexivity.
Defined.

(** X10. [destroy_tunnel] is idempotent and tolerant: for a rental
    without a tunnel it returns with nothing changed, so destroying twice
    is destroying once; and after it the rental has neither a tunnel
    record nor, if it had a tunnel, a config record or config file. *)
Theorem destroy_tunnel_is_idempotent (rental_id : string) (h : TunnelManager.Host) :
  let h1 := (TunnelManager.destroy_tunnel rental_id h).2 in
  (TunnelManager._active_tunnels (TunnelManager.mgr h) !! rental_id = None ->
   TunnelManager.destroy_tunnel rental_id h = (Ok tt, h))
  /\ TunnelManager.destroy_tunnel rental_id h1 = (Ok tt, h1)
  /\ TunnelManager._active_tunnels (TunnelManager.mgr h1) !! rental_id = None
  /\ (forall process path,
        TunnelManager._active_tunnels (TunnelManager.mgr h) !! rental_id = Some process ->
        TunnelManager._tunnel_configs (TunnelManager.mgr h) !! rental_id = Some path ->
        TunnelManager._tunnel_configs (TunnelManager.mgr h1) !! rental_id = None
        /\ TunnelManager.disk h1 !! path = None).
Proof.
  cbv zeta. rewrite (destroy_tunnel_unfold rental_id h).
  destruct (TunnelManager._active_tunnels (TunnelManager.mgr h) !! rental_id)
    as [process|] eqn:Hactive; cbn [snd].
  - split; [discriminate|]. split; [|split].
    + rewrite destroy_tunnel_unfold. cbn. now rewrite lookup_delete_eq.
    + cbn. apply lookup_delete_eq.
    + intros p path _ Hconfig. cbn. rewrite Hconfig.
      split; apply lookup_delete_eq.
  - split; [reflexivity|]. split; [|split].
    + rewrite destroy_tunnel_unfold. now rewrite Hactive.
    + exact Hactive.
    + intros p path [=].
Qed.

Lemma destroy_tunnel_is_idempotent_witness :
  TunnelManager.destroy_tunnel "r9" (AgentOrchestrator.tunnel Sample.one_rental)
  = (Ok tt, AgentOrchestrator.tunnel Sample.one_rental).
Proof.
  assert (Habsent : TunnelManager._active_tunnels
                      (TunnelManager.mgr (AgentOrchestrator.tunnel Sample.one_rental))
                    !! "r9" = None) by (vm_compute; reflexivity).
  exact (proj1 (destroy_tunnel_is_idempotent "r9"
                  (AgentOrchestrator.tunnel Sample.one_rental)) Habsent).
Defined.

Section ActiveTunnels.
Import TunnelManager TunnelRun.

Lemma prune_or_keep_result os rental_id process active h :
  (prune_or_keep os (rental_id, process) active h).1
  = Ok (match poll os process with
        | None => <[rental_id := process]> active
        | Some _ => active
        end).
Proof.
  unfold prune_or_keep, unlink. unfold_method.
  destruct (poll os process); [|reflexivity]. cbn.
  destruct (_ !! rental_id); reflexivity.
Qed.

Lemma prune_loop_spec os items : forall active h,
  NoDup items.*1 ->
  (forall k, k ∈ items.*1 -> active !! k = None) ->
  exists r,
    (prune_loop os items active h).1 = Ok r
    /\ (forall k v, r !! k = Some v
          <-> ((k, v) ∈ items /\ poll os v = None) \/ active !! k = Some v)
    /\ (forall k v, _active_tunnels (mgr (prune_loop os items active h).2) !! k = Some v
          <-> _active_tunnels (mgr h) !! k = Some v
              /\ ~ exists v', (k, v') ∈ items /\ poll os v' <> None).
Proof.
  induction items as [|[k0 v0] items IH]; intros active h Hnodup Hfresh.
  - exists active. cbn. split; [reflexivity|]. split.
    + intros k v. split; [auto|]. intros [[Hin _]|H]; [|exact H].
      now apply elem_of_nil in Hin.
    + intros k v. split; [|tauto]. intros H. split; [exact H|].
      intros (v' & Hin & _). now apply elem_of_nil in Hin.
  - cbn [fmap list_fmap fst] in Hnodup. apply NoDup_cons in Hnodup as [Hk0 Hnodup].
    cbn [prune_loop]. unfold mbind, M_bind.
    pose proof (prune_or_keep_result os k0 v0 active h) as Hres.
    pose proof (prune_or_keep_forget os k0 v0 active h) as Hst.
    destruct (prune_or_keep os (k0, v0) active h) as [res h1].
    cbn [fst snd] in Hres, Hst. subst res h1.
    destruct (poll os v0) as [code|] eqn:Hpoll.
    + destruct (IH active (forget k0 h) Hnodup) as (r & Hr & Hmap & Hact).
      { intros k Hk. apply Hfresh. now right. }
      exists r. split; [exact Hr|]. split.
      * intros k v. rewrite Hmap, elem_of_cons. split; [tauto|].
        intros [[[[= -> ->] | Hin] Hv] | Hacc]; [congruence | tauto | tauto].
      * intros k v. rewrite Hact. cbn [forget mgr _active_tunnels set_active_tunnels
                                       set_tunnel_configs].
        rewrite lookup_delete_Some. split.
        -- intros [[Hne Hk] Hnot]. split; [exact Hk|].
           intros (v' & [[= -> ->] | Hin]%elem_of_cons & Hv'); [congruence|].
           apply Hnot. eauto.
        -- intros [Hk Hnot]. split; [split; [|exact Hk]|].
           ++ intros <-. apply Hnot. exists v0. split; [now left | congruence].
           ++ intros (v' & Hin & Hv'). apply Hnot. exists v'.
              split; [now right | exact Hv'].
    + destruct (IH (<[k0 := v0]> active) h Hnodup) as (r & Hr & Hmap & Hact).
      { intros k Hk. rewrite lookup_insert_ne.
        - apply Hfresh. now right.
        - intros ->. contradiction. }
      exists r. split; [exact Hr|]. split.
      * intros k v. rewrite Hmap, elem_of_cons, lookup_insert. split.
        -- intros [[Hin Hv] | Hacc]; [tauto|].
           case_decide; [|tauto]. injection Hacc as <-. subst k. left. tauto.
        -- intros [[[[= -> ->] | Hin] Hv] | Hacc].
           ++ right. now rewrite decide_True.
           ++ tauto.
           ++ right. case_decide; [|exact Hacc]. subst k.
              rewrite Hfresh in Hacc by now left. discriminate.
      * intros k v. rewrite Hact. split.
        -- intros [Hk Hnot]. split; [exact Hk|].
           intros (v' & [[= -> ->] | Hin]%elem_of_cons & Hv'); [congruence|].
           apply Hnot. eauto.
        -- intros [Hk Hnot]. split; [exact Hk|].
           intros (v' & Hin & Hv'). apply Hnot. exists v'.
           split; [now right | exact Hv'].
Qed.

End ActiveTunnels.

(** X11. [list_active_tunnels] returns exactly the tunnels whose child
    process has not exited, each with its pid, and prunes the rest: the
    tunnel map it leaves is the map it returns. *)
Theorem list_active_tunnels_keeps_running (os : TunnelManager.Os)
    (h : TunnelManager.Host) :
  let running := filter (fun kv => TunnelManager.poll os kv.2 = None)
                   (TunnelManager._active_tunnels (TunnelManager.mgr h)) in
  (TunnelManager.list_active_tunnels os h).1 = Ok running
  /\ TunnelManager._active_tunnels
       (TunnelManager.mgr (TunnelManager.list_active_tunnels os h).2) = running.
Proof.
  cbv zeta. unfold TunnelManager.list_active_tunnels, mbind, M_bind, get. cbv beta iota.
  destruct (prune_loop_spec os
              (map_to_list (TunnelManager._active_tunnels (TunnelManager.mgr h))) ∅ h
              (NoDup_fst_map_to_list _) (fun k _ => lookup_empty k))
    as (r & Hr & Hmap & Hact).
  rewrite Hr. split.
  - f_equal. apply map_eq. intros k. apply option_eq. intros v.
    rewrite Hmap, map_lookup_filter_Some, elem_of_map_to_list, lookup_empty. cbn.
    split; [intros [H|[=]]; exact H | auto].
  - apply map_eq. intros k. apply option_eq. intros v.
    rewrite Hact, map_lookup_filter_Some. cbn. split.
    + intros [Hk Hnot]. split; [exact Hk|].
      destruct (TunnelManager.poll os v) eqn:Hv; [|reflexivity].
      exfalso. apply Hnot. exists v. split; [now apply elem_of_map_to_list | congruence].
    + intros [Hk Hv]. split; [exact Hk|].
      intros (v' & Hin & Hv'). apply elem_of_map_to_list in Hin. congruence.
Qed.

(** X12. [health_check] reports one status per recorded tunnel and no
    other: the status [get_tunnel_status] gives for it, which is never
    "not_found". *)
Theorem health_check_covers_recorded_tunnels (os : TunnelManager.Os)
    (m : TunnelManager.t) (rental_id : string) :
  (is_Some (TunnelManager.health_check os m !! rental_id)
   <-> is_Some (TunnelManager._active_tunnels m !! rental_id))
  /\ (forall status, TunnelManager.health_check os m !! rental_id = Some status ->
        status = TunnelManager.get_tunnel_status os m rental_id
        /\ status <> "not_found").
Proof.
  unfold TunnelManager.health_check. rewrite map_lookup_imap.
  destruct (TunnelManager._active_tunnels m !! rental_id) as [process|] eqn:Hactive; cbn.
  - split; [split; eauto|]. intros status [= <-]. split; [reflexivity|].
    unfold TunnelManager.get_tunnel_status. rewrite Hactive.
    destruct (TunnelManager.poll os process) as [code|]; [|discriminate].
    destruct (code =? 0)%Z; discriminate.
  - split; [split; intros [? [=]] | discriminate].
Qed.

Lemma health_check_covers_recorded_tunnels_witness :
  "running" = TunnelManager.get_tunnel_status Sample.os
                (TunnelManager.mgr (AgentOrchestrator.tunnel Sample.one_rental)) "r1"
  /\ "running" <> "not_found".
Proof.
  apply (health_check_covers_recorded_tunnels Sample.os
           (TunnelManager.mgr (AgentOrchestrator.tunnel Sample.one_rental)) "r1").
  vm_compute. reflexivity.
Defined.

(** X13. The frpc binary path is resolved once: after [frpc_path] has
    returned a path, every later call returns that same path without
    looking at the file system again. A failed resolution raises
    FRPCNotFoundError and caches nothing, so the next call searches
    again. *)
Theorem frpc_path_is_cached (os : TunnelManager.Os) (m : TunnelManager.t) :
  match TunnelManager.frpc_path os m with
  | (Ok path, m') =>
      TunnelManager._frpc_path m' = Some path
      /\ forall os', TunnelManager.frpc_path os' m' = (Ok path, m')
  | (Raise e, m') =>
      m' = m /\ TunnelManager._frpc_path m = None
      /\ exists msg, e = Exn.FRPCNotFoundError msg
  end.
Proof.
  assert (Hcached : forall os' path m',
            TunnelManager._frpc_path m' = Some path ->
            TunnelManager.frpc_path os' m' = (Ok path, m')).
  { intros os' path m' H. unfold TunnelManager.frpc_path. unfold_method.
    now rewrite H. }
  unfold TunnelManager.frpc_path at 1. unfold_method.
  destruct (TunnelManager._frpc_path m) as [cached|] eqn:Hcache.
  { split; [exact Hcache | intros os'; now apply Hcached]. }
  destruct (match TunnelManager.frpc_path_setting (TunnelManager.config m) with
            | Some p =>
                if negb (String.eqb p "") && TunnelManager.is_executable os p
                then Some p else None
            | None => None
            end) as [configured|]; cbv beta iota.
  { split; [reflexivity | intros os'; now apply Hcached]. }
  destruct (TunnelManager.which os "frpc") as [in_path|]; cbv beta iota.
  { split; [reflexivity | intros os'; now apply Hcached]. }
  destruct (find (TunnelManager.is_executable os) (TunnelManager.common_paths os))
    as [common|]; cbv beta iota.
  { split; [reflexivity | intros os'; now apply Hcached]. }
  split; [reflexivity | split; [reflexivity | eauto]].
Qed.

(** ** Control session *)

(** X14. Sending fails fast. On a client that is not connected,
    [send_message] returns False whatever the network would answer and
    changes nothing (but for the trace of the call). And once a write has
    met a closed connection, the client counts as not connected, so every
    later send returns False. *)
Theorem send_fails_fast_when_not_connected (net : BackendClient.Net)
    (message : Event) (c : BackendClient.t) :
  (BackendClient.is_connected c = false ->
   BackendClient.send_message net message c
   = (false, BackendClient.record_send message false c))
  /\ (BackendClient.is_connected c = true ->
      BackendClient.wire net (length (BackendClient.sent c))
      = BackendClient.ConnectionClosed ->
      let c' := (BackendClient.send_message net message c).2 in
      (BackendClient.send_message net message c).1 = false
      /\ BackendClient.is_connected c' = false
      /\ forall net' message', (BackendClient.send_message net' message' c').1 = false).
Proof.
  unfold BackendClient.send_message. split.
  - intros ->. reflexivity.
  - intros -> ->. cbn. repeat split.
Qed.

Lemma send_fails_fast_when_not_connected_witness :
  BackendClient.send_message Sample.net
    (AgentErrorEvent "node-1" "HANDLER_ERROR" "boom")
    (BackendClient.init 5 0 5 "node-1")
  = (false,
     BackendClient.record_send (AgentErrorEvent "node-1" "HANDLER_ERROR" "boom") false
       (BackendClient.init 5 0 5 "node-1")).
Proof.
  apply (send_fails_fast_when_not_connected Sample.net
           (AgentErrorEvent "node-1" "HANDLER_ERROR" "boom")
           (BackendClient.init 5 0 5 "node-1")).
  reflexivity.
Defined.

(** X15. [connect] on a connected client returns True without dialling
    and changes nothing. Otherwise it returns True exactly when the dial
    is accepted, and then the client is connected, its reconnect counter
    is back to 0 and its status is Online, whatever it was; a refused or
    failed dial leaves the client untouched. *)
Theorem connect_resets_the_attempt_counter (net : BackendClient.Net)
    (c : BackendClient.t) :
  (BackendClient._connected c = true -> BackendClient.connect net c = (true, c))
  /\ (BackendClient._connected c = false ->
      let c' := (BackendClient.connect net c).2 in
      ((BackendClient.connect net c).1 = true
       <-> BackendClient.dial net = BackendClient.Established)
      /\ ((BackendClient.connect net c).1 = true ->
          BackendClient.is_connected c' = true
          /\ BackendClient._reconnect_count c' = 0%Z
          /\ BackendClient._status c' = ONLINE
          /\ BackendClient.sent c' = BackendClient.sent c
          /\ BackendClient.heartbeat_interval c' = BackendClient.heartbeat_interval c)
      /\ ((BackendClient.connect net c).1 = false -> c' = c)).
Proof.
  unfold BackendClient.connect. split.
  - intros ->. reflexivity.
  - intros ->. destruct (BackendClient.dial net); cbn;
      repeat split; intros; try discriminate; auto.
Qed.

Lemma connect_resets_the_attempt_counter_witness :
  BackendClient.connect Sample.net_down
    (BackendClient.set_connected true (BackendClient.init 5 0 5 "node-1"))
  = (true, BackendClient.set_connected true (BackendClient.init 5 0 5 "node-1")).
Proof.
  apply (connect_resets_the_attempt_counter Sample.net_down
           (BackendClient.set_connected true (BackendClient.init 5 0 5 "node-1"))).
  reflexivity.
Defined.

(** X16. A lost session counts as a reconnect attempt. When a served
    session ends while the client should still run, the loop sleeps the
    plain reconnect delay and the counter goes from 0 to 1; if the next
    dial fails, the counter is 2: the loop breaks at once when the
    configured maximum is 1 or 2, and otherwise sleeps
    min(base * 4, 300) seconds, not min(base * 2, 300). *)
Theorem lost_session_counts_as_an_attempt (net : BackendClient.Net)
    (c : BackendClient.t) :
  BackendClient._should_run c = true ->
  BackendClient._reconnect_count c = 0%Z ->
  BackendClient.dial net <> BackendClient.Established ->
  let base := BackendClient.reconnect_delay c in
  let limit := BackendClient.max_reconnect_attempts c in
  let c1 := (BackendClient.run_after_serve c).2 in
  (BackendClient.run_after_serve c).1 = Some base
  /\ BackendClient._reconnect_count c1 = 1%Z
  /\ BackendClient._reconnect_count (BackendClient.run_dial net c1).2 = 2%Z
  /\ (BackendClient.run_dial net c1).1
     = (if (0 <? limit)%Z && (limit <=? 2)%Z then BackendClient.Break
        else BackendClient.SleepAndRetry (Z.min (base * 4) 300)).
Proof.
  intros Hrun Hcount Hdial base limit c1.
  subst c1. unfold BackendClient.run_after_serve. rewrite Hrun, Hcount. cbn [fst snd].
  rewrite run_dial_failed by (try reflexivity; exact Hdial).
  repeat split.
Qed.

Lemma lost_session_counts_as_an_attempt_witness :
  (BackendClient.run_dial Sample.net_down
     (BackendClient.run_after_serve
        (Sample.connected Sample.default_allowed).(AgentOrchestrator.backend)).2).1
  = BackendClient.SleepAndRetry 20.
Proof.
  apply (lost_session_counts_as_an_attempt Sample.net_down
           (Sample.connected Sample.default_allowed).(AgentOrchestrator.backend));
    [reflexivity | reflexivity | discriminate].
Defined.

(** X17. For a non-negative base, the delay before the next dial never
    exceeds 300 seconds, does not decrease as the attempt counter grows,
    and no longer depends on the counter from the fifth attempt on. *)
Theorem backoff_delay_is_capped_and_monotone (base n n' : Z) :
  (0 <= base)%Z -> (0 <= n <= n')%Z ->
  (BackendClient.backoff_delay base n <= BackendClient.backoff_delay base n' <= 300)%Z
  /\ ((5 <= n)%Z ->
      BackendClient.backoff_delay base n' = BackendClient.backoff_delay base n
      /\ BackendClient.backoff_delay base n = Z.min (base * 32) 300).
Proof.
  intros Hbase [Hn Hnn']. unfold BackendClient.backoff_delay. split.
  - split; [|apply Z.le_min_r].
    apply Z.min_le_compat_r, Z.mul_le_mono_nonneg_l; [exact Hbase|].
    apply Z.pow_le_mono_r; lia.
  - intros H5. rewrite (Z.min_r n 5), (Z.min_r n' 5) by lia. split; reflexivity.
Qed.

Lemma backoff_delay_is_capped_and_monotone_witness :
  (BackendClient.backoff_delay 5 3 <= BackendClient.backoff_delay 5 7 <= 300)%Z.
Proof.
  apply (backoff_delay_is_capped_and_monotone 5 3 7); lia.
Defined.

Section LimitedDials.
Import BackendClient.

Lemma dial_delays_limited net k : forall c,
  _connected c = false -> dial net <> Established ->
  (0 < max_reconnect_attempts c)%Z ->
  dial_delays net k c
  = map (fun i => backoff_delay (reconnect_delay c) (_reconnect_count c + Z.of_nat i))
        (seq 1 (Nat.min k (Z.to_nat (max_reconnect_attempts c - 1 - _reconnect_count c)))).
Proof.
  induction k as [|k IH]; intros c Hc Hd Hmax; [reflexivity|].
  cbn [dial_delays]. rewrite run_dial_failed by assumption.
  destruct (0 <? max_reconnect_attempts c)%Z eqn:H0; [|lia]. cbn [andb].
  destruct (max_reconnect_attempts c <=? _reconnect_count c + 1)%Z eqn:Hle.
  - replace (Z.to_nat (max_reconnect_attempts c - 1 - _reconnect_count c)) with 0%nat by lia.
    rewrite Nat.min_0_r. reflexivity.
  - rewrite IH by assumption.
    cbn [set_reconnect_count reconnect_delay _reconnect_count max_reconnect_attempts].
    replace (Z.to_nat (max_reconnect_attempts c - 1 - _reconnect_count c))
      with (S (Z.to_nat (max_reconnect_attempts c - 1 - (_reconnect_count c + 1)))) by lia.
    rewrite <- Nat.succ_min_distr. cbn [seq map]. f_equal.
    rewrite <- (seq_shift _ 1), map_map.
    apply map_ext. intros i. f_equal. lia.
Qed.

End LimitedDials.

(** X18. With a positive maximum of reconnect attempts, dials that keep
    failing are given up: from a counter at n the loop sleeps at most
    max - 1 - n times, with the delays of the attempts n+1, n+2, ..., and
    then breaks; however many dials are allowed for, the delays slept are
    those of the attempts below the maximum. *)
Theorem max_attempts_bounds_the_dials (net : BackendClient.Net)
    (c : BackendClient.t) (k : nat) :
  BackendClient._connected c = false ->
  BackendClient.dial net <> BackendClient.Established ->
  (0 < BackendClient.max_reconnect_attempts c)%Z ->
  let base := BackendClient.reconnect_delay c in
  let n := BackendClient._reconnect_count c in
  let left := Z.to_nat (BackendClient.max_reconnect_attempts c - 1 - n) in
  BackendClient.dial_delays net k c
  = map (fun i => BackendClient.backoff_delay base (n + Z.of_nat i))
        (seq 1 (Nat.min k left))
  /\ (length (BackendClient.dial_delays net k c) <= left)%nat.
Proof.
  intros Hc Hd Hmax base n left.
  rewrite dial_delays_limited by assumption. split; [reflexivity|].
  rewrite length_map, length_seq. apply Nat.le_min_r.
Qed.

Lemma max_attempts_bounds_the_dials_witness :
  BackendClient.dial_delays Sample.net_down 10 (BackendClient.init 5 3 5 "node-1")
  = [10; 20]%Z.
Proof.
  apply (max_attempts_bounds_the_dials Sample.net_down
           (BackendClient.init 5 3 5 "node-1") 10);
    [reflexivity | discriminate | reflexivity].
Defined.

(** X19. One turn of the heartbeat loop on a running, connected client
    hands exactly one heartbeat frame to the connection, carrying the node
    id and the status the client has at that moment, and then sleeps the
    heartbeat interval; when reading the metrics raises, nothing is sent
    and the loop still sleeps and goes on. A heartbeat that meets a closed
    connection ends the loop at its next turn. *)
Theorem heartbeat_carries_current_status (net : BackendClient.Net)
    (get_metrics : result NodeMetrics) (c : BackendClient.t) :
  BackendClient._should_run c = true ->
  BackendClient.is_connected c = true ->
  let r := BackendClient.heartbeat_turn net get_metrics c in
  r.1 = Some (BackendClient.heartbeat_interval c)
  /\ BackendClient.status r.2 = BackendClient.status c
  /\ match get_metrics with
     | Ok metrics =>
         BackendClient.emitted r.2
         = (BackendClient.emitted c
            ++ [HeartbeatEvent (BackendClient.node_id c) (BackendClient.status c) metrics])%list
         /\ (BackendClient.wire net (length (BackendClient.sent c))
             = BackendClient.ConnectionClosed ->
             forall net' get_metrics',
               BackendClient.heartbeat_turn net' get_metrics' r.2 = (None, r.2))
     | Raise _ => r.2 = c
     end.
Proof.
  intros Hrun Hconn r. subst r. unfold BackendClient.heartbeat_turn.
  rewrite Hrun, Hconn. cbn [andb fst snd].
  destruct get_metrics as [metrics|e]; [|repeat split].
  unfold BackendClient.send_heartbeat.
  rewrite heartbeat_interval_send_message. unfold BackendClient.status.
  rewrite status_send_message, emitted_send_message.
  repeat split.
  intros Hclosed net' gm'.
  unfold BackendClient.send_message. rewrite Hconn, Hclosed. cbn [negb snd].
  unfold BackendClient.heartbeat_turn, BackendClient.is_connected. cbn.
  rewrite andb_false_r. reflexivity.
Qed.

Lemma heartbeat_carries_current_status_witness :
  (BackendClient.heartbeat_turn Sample.net (Raise (Exn.Foreign "psutil"))
     (Sample.connected Sample.default_allowed).(AgentOrchestrator.backend)).1
  = Some (BackendClient.heartbeat_interval
            (Sample.connected Sample.default_allowed).(AgentOrchestrator.backend)).
Proof.
  apply (heartbeat_carries_current_status Sample.net (Raise (Exn.Foreign "psutil"))
           (Sample.connected Sample.default_allowed).(AgentOrchestrator.backend));
    reflexivity.
Defined.

(** ** Orchestrator *)

Section Reports.
Import AgentOrchestrator.
Variable w : World.

(** What the [except] clause of the start handler leaves. *)
Lemma start_failure_report e a :
  ((in_backend (BackendClient.send_error (net w) "START_INSTANCE_FAILED" (Exn.str e)) ;;
    mret tt) a).2
  = set_backend
      (BackendClient.send_message (net w)
         (AgentErrorEvent (BackendClient.node_id (backend a))
            "START_INSTANCE_FAILED" (Exn.str e)) (backend a)).2 a.
Proof.
  unfold in_backend, BackendClient.send_error. unfold_method.
  destruct (BackendClient.send_message _ _ _); reflexivity.
Qed.

Lemma start_container_returned d data m container_id info m' :
  DockerManager.start_container d data m = (Ok (container_id, info), m') ->
  m' = DockerManager.set_active
         (<[start_rental_id data := container_id]> (DockerManager._active_containers m)) m.
Proof.
  unfold DockerManager.start_container. unfold mbind, M_bind, get.
  destruct (negb _); [discriminate|].
  destruct (pull_image_outcome d (image data) m) as [-> | (e & -> & _)];
    [|discriminate].
  destruct (DockerManager.containers_run d _); cbn; intros [=]; subst; reflexivity.
Qed.

Lemma stop_container_raised d container_id rental_id graceful timeout m e m' :
  DockerManager.stop_container d container_id rental_id graceful timeout m = (Raise e, m') ->
  m' = m.
Proof.
  unfold DockerManager.stop_container. unfold_method.
  destruct (DockerManager.get_and_stop _ _ _ _); intros [=]; subst; reflexivity.
Qed.


End Reports.

(** X20. No rollback of a started container. When the container of a
    start_instance command was started and recorded but its tunnel could
    not be created, the handler reports START_INSTANCE_FAILED with the
    tunnel's error, and that is all: the container record of the rental
    stays, no tunnel is recorded for it, and the node status is as
    before. *)
Theorem tunnel_failure_keeps_the_container (w : AgentOrchestrator.World)
    (data : StartInstanceCommandData) (a : AgentOrchestrator.t)
    (container_id : string) (info : ConnectionInfo) (d' : DockerManager.t) (e : Exn.t) :
  DockerManager.start_container (AgentOrchestrator.daemon w) data
    (AgentOrchestrator.docker a) = (Ok (container_id, info), d') ->
  (TunnelManager.create_tunnel (AgentOrchestrator.os w) (start_rental_id data)
     (proxy_port_mapping data)
     (Some (DockerManager.get_container_ports (AgentOrchestrator.daemon w) container_id))
     (AgentOrchestrator.tunnel a)).1 = Raise e ->
  let a' := AgentOrchestrator.exec
              (AgentOrchestrator.handle_command w (StartInstanceCommand data)) a in
  AgentOrchestrator.emitted_during a a'
  = [AgentErrorEvent (BackendClient.node_id (AgentOrchestrator.backend a))
       "START_INSTANCE_FAILED" (Exn.str e)]
  /\ Run.container_records a'
     = <[start_rental_id data := container_id]> (Run.container_records a)
  /\ Run.tunnel_records a' = Run.tunnel_records a
  /\ Run.node_status a' = Run.node_status a.
Proof.
  intros Hstart Htunnel. cbv zeta. rewrite exec_handle_command by reflexivity.
  unfold AgentOrchestrator.exec, AgentOrchestrator.registered_handler,
    AgentOrchestrator._handle_start_instance, try_except.
  rewrite start_instance_try_unfold, Hstart.
  apply start_container_returned in Hstart. subst d'.
  pose proof (create_tunnel_cases (AgentOrchestrator.os w) (start_rental_id data)
                (proxy_port_mapping data)
                (Some (DockerManager.get_container_ports
                         (AgentOrchestrator.daemon w) container_id))
                (AgentOrchestrator.tunnel a)) as [_ Hcases].
  cbv zeta in Hcases.
  destruct (TunnelManager.create_tunnel _ _ _ _ _) as [[[]|e0] h'];
    cbn [fst] in Htunnel; [discriminate|]. injection Htunnel as ->.
  cbv beta iota zeta. rewrite start_failure_report.
  unfold Run.container_records, Run.tunnel_records, Run.node_status, BackendClient.status.
  cbn [AgentOrchestrator.backend AgentOrchestrator.set_backend AgentOrchestrator.docker
       AgentOrchestrator.tunnel AgentOrchestrator.set_tunnel AgentOrchestrator.set_docker
       DockerManager._active_containers DockerManager.set_active].
  split; [|split; [reflexivity|split; [|apply status_send_message]]].
  - erewrite emitted_during_app; [|cbn; apply sent_send_message]. reflexivity.
  - cbn [snd fst] in Hcases.
    destruct Hcases as [(_ & [=] & _) | [(_ & (e1 & [= _ ->]) & _)
      | [(_ & _ & _ & Hactive & _) | (_ & [=] & _)]]];
      [reflexivity | exact Hactive].
Qed.

Lemma tunnel_failure_keeps_the_container_witness :
  Run.container_records
    (AgentOrchestrator.exec
       (AgentOrchestrator.handle_command Sample.world
          (StartInstanceCommand
             (Sample.start_data "r1" "pytorch/pytorch:2.0.0" {[ "http" := 30080%Z ]})))
       (Sample.connected Sample.default_allowed))
  = <[ "r1" := "c1" ]> (Run.container_records (Sample.connected Sample.default_allowed)).
Proof.
  assert (Hstart :
    DockerManager.start_container (AgentOrchestrator.daemon Sample.world)
      (Sample.start_data "r1" "pytorch/pytorch:2.0.0" {[ "http" := 30080%Z ]})
      (AgentOrchestrator.docker (Sample.connected Sample.default_allowed))
    = (Ok ("c1", {| ssh_host := "localhost"; ssh_port := 22%Z;
                    additional_ports := {[ "http" := 30080%Z ]} |}),
       (DockerManager.start_container (AgentOrchestrator.daemon Sample.world)
          (Sample.start_data "r1" "pytorch/pytorch:2.0.0" {[ "http" := 30080%Z ]})
          (AgentOrchestrator.docker (Sample.connected Sample.default_allowed))).2))
    by (vm_compute; reflexivity).
  assert (Htunnel :
    (TunnelManager.create_tunnel (AgentOrchestrator.os Sample.world) "r1"
       {[ "http" := 30080%Z ]}
       (Some (DockerManager.get_container_ports (AgentOrchestrator.daemon Sample.world) "c1"))
       (AgentOrchestrator.tunnel (Sample.connected Sample.default_allowed))).1
    = Raise (Exn.Foreign "invalid literal for int() with base 10: 'http'"))
    by (vm_compute; reflexivity).
  exact (proj1 (proj2 (tunnel_failure_keeps_the_container Sample.world
           (Sample.start_data "r1" "pytorch/pytorch:2.0.0" {[ "http" := 30080%Z ]})
           (Sample.connected Sample.default_allowed) "c1" _ _ _ Hstart Htunnel))).
Defined.

Section StopTunnel.
Import AgentOrchestrator.

Lemma stop_instance_tunnel w data a :
  tunnel (exec (_handle_stop_instance w (StopInstanceCommand data)) a)
  = (TunnelManager.destroy_tunnel (stop_rental_id data) (tunnel a)).2.
Proof.
  rewrite handle_stop_instance_unfold. cbv zeta.
  destruct (DockerManager.stop_container _ _ _ _ _ _) as [[[]|e] d']; [|reflexivity].
  destruct (DockerManager.still_existing _ _ _); [|reflexivity].
  destruct (decide _); reflexivity.
Qed.

End StopTunnel.

(** X21. The stop handler releases the tunnel first, whatever follows:
    after a stop_instance command the tunnel state is that of
    [destroy_tunnel] on the rental, so no tunnel is recorded for it, also
    when the daemon then fails to stop the container. In that case the
    container records are untouched (the rental stays tracked, without a
    tunnel) and the only event is instance_stopped with reason
    "error". *)
Theorem stop_releases_the_tunnel_first (w : AgentOrchestrator.World)
    (data : StopInstanceCommandData) (a : AgentOrchestrator.t) :
  let a' := AgentOrchestrator.exec
              (AgentOrchestrator.handle_command w (StopInstanceCommand data)) a in
  AgentOrchestrator.tunnel a'
  = (TunnelManager.destroy_tunnel (stop_rental_id data) (AgentOrchestrator.tunnel a)).2
  /\ Run.tunnel_records a' = delete (stop_rental_id data) (Run.tunnel_records a)
  /\ (forall e d',
        DockerManager.stop_container (AgentOrchestrator.daemon w) (stop_container_id data)
          (Some (stop_rental_id data)) (graceful data) (timeout_seconds data)
          (AgentOrchestrator.docker a) = (Raise e, d') ->
        Run.container_records a' = Run.container_records a
        /\ AgentOrchestrator.emitted_during a a'
           = [InstanceStoppedEvent (stop_rental_id data) (stop_container_id data)
                "error" (Some (Exn.str e))]).
Proof.
  cbv zeta. rewrite exec_handle_command by reflexivity.
  cbn [AgentOrchestrator.registered_handler].
  split; [apply stop_instance_tunnel|]. split.
  - unfold Run.tunnel_records. rewrite stop_instance_tunnel. apply active_after_destroy.
  - intros e d' Hstop. rewrite handle_stop_instance_unfold. cbv zeta. rewrite Hstop.
    apply stop_container_raised in Hstop. subst d'. split.
    + reflexivity.
    + erewrite emitted_during_app; [|cbn; apply sent_send_message]. reflexivity.
Qed.

Lemma stop_releases_the_tunnel_first_witness :
  let w := Sample.world_with
             {| DockerManager.images_get := DockerManager.images_get Sample.daemon;
                DockerManager.images_pull := DockerManager.images_pull Sample.daemon;
                DockerManager.containers_run := DockerManager.containers_run Sample.daemon;
                DockerManager.get_and_stop := fun _ _ _ =>
                  DockerManager.StopAPIError "500 Server Error";
                DockerManager.inspect := DockerManager.inspect Sample.daemon;
                DockerManager.host_ports := DockerManager.host_ports Sample.daemon |} in
  let a' := AgentOrchestrator.exec
              (AgentOrchestrator.handle_command w
                 (StopInstanceCommand (Sample.stop_data "r1" "c1"))) Sample.one_rental in
  Run.container_records a' = Run.container_records Sample.one_rental
  /\ AgentOrchestrator.emitted_during Sample.one_rental a'
     = [InstanceStoppedEvent "r1" "c1" "error"
          (Some "Failed to stop container: 500 Server Error")].
Proof.
  cbv zeta.
  refine (proj2 (proj2 (stop_releases_the_tunnel_first _
            (Sample.stop_data "r1" "c1") Sample.one_rental))
            (Exn.DockerError "Failed to stop container: 500 Server Error")
            (AgentOrchestrator.docker Sample.one_rental) _).
  vm_compute. reflexivity.
Defined.

(** X22. Shutdown of a running agent marks the node Offline, drops the
    connection and the run flag, and destroys every tunnel, but leaves
    the container records as they are and sends nothing; a second
    shutdown does nothing. *)
Theorem shutdown_keeps_the_containers (a : AgentOrchestrator.t) :
  AgentOrchestrator._running a = true ->
  let a' := AgentOrchestrator.shutdown a in
  AgentOrchestrator._running a' = false
  /\ Run.node_status a' = OFFLINE
  /\ BackendClient.is_connected (AgentOrchestrator.backend a') = false
  /\ BackendClient._should_run (AgentOrchestrator.backend a') = false
  /\ Run.tunnel_records a' = ∅
  /\ AgentOrchestrator.docker a' = AgentOrchestrator.docker a
  /\ AgentOrchestrator.emitted_during a a' = []
  /\ AgentOrchestrator.shutdown a' = a'.
Proof.
  intros Hrunning. cbv zeta. unfold AgentOrchestrator.shutdown. rewrite Hrunning.
  cbn [negb]. unfold AgentOrchestrator.exec, AgentOrchestrator.in_tunnel, zoom.
  rewrite destroy_all_tunnels_unfold. cbn [fst snd].
  unfold Run.node_status, Run.tunnel_records.
  cbn [AgentOrchestrator._running AgentOrchestrator.set_running AgentOrchestrator.backend
       AgentOrchestrator.set_backend AgentOrchestrator.tunnel AgentOrchestrator.set_tunnel
       AgentOrchestrator.docker negb].
  repeat split.
  - pose proof (destroy_all_tunnels_empties (AgentOrchestrator.tunnel a)) as H.
    rewrite destroy_all_tunnels_unfold in H. exact H.
  - apply emitted_during_nothing. reflexivity.
Qed.

Lemma shutdown_keeps_the_containers_witness :
  Run.tunnel_records (AgentOrchestrator.shutdown Sample.two_rentals) = ∅
  /\ AgentOrchestrator.docker (AgentOrchestrator.shutdown Sample.two_rentals)
     = AgentOrchestrator.docker Sample.two_rentals.
Proof.
  assert (Hrunning : AgentOrchestrator._running Sample.two_rentals = true)
    by (vm_compute; reflexivity).
  pose proof (shutdown_keeps_the_containers Sample.two_rentals Hrunning) as H.
  cbv zeta in H. split; [apply H | apply H].
Defined.


(** ** Hardware detection *)

Section Temperatures.
Import Hardware.

Lemma readings_of_elem name temps readings :
  readings_of name temps = Some readings -> (name, readings) ∈ temps.
Proof.
  induction temps as [|[k r] temps IH]; cbn; [discriminate|].
  destruct (String.eqb_spec k name) as [->|_].
  - intros [= ->]. left.
  - intros H. right. now apply IH.
Qed.

Lemma common_sensor_elem names temps reading :
  common_sensor names temps = Some reading ->
  exists name rest, name ∈ names /\ (name, reading :: rest) ∈ temps.
Proof.
  induction names as [|name names IH]; cbn; [discriminate|].
  destruct (readings_of name temps) as [[|r rest]|] eqn:Hr.
  - intros H. destruct (IH H) as (n & rest & Hn & Hin).
    exists n, rest. split; [now right | exact Hin].
  - intros [= ->]. exists name, rest. split; [left | now apply readings_of_elem].
  - intros H. destruct (IH H) as (n & rest & Hn & Hin).
    exists n, rest. split; [now right | exact Hin].
Qed.

Lemma first_available_elem temps reading :
  first_available temps = Some reading ->
  exists name rest, (name, reading :: rest) ∈ temps.
Proof.
  induction temps as [|[k [|r rest]] temps IH]; cbn; [discriminate| |].
  - intros H. destruct (IH H) as (n & rest & Hin). exists n, rest. now right.
  - intros [= ->]. exists k, rest. left.
Qed.

Lemma first_available_none temps :
  first_available temps = None <-> Forall (fun kv => kv.2 = []) temps.
Proof.
  induction temps as [|[k [|r rest]] temps IH]; cbn.
  - split; [constructor | reflexivity].
  - rewrite IH. split; [now constructor | now inversion 1].
  - split; [discriminate | inversion 1; discriminate].
Qed.

Lemma common_sensor_none names temps :
  Forall (fun kv => kv.2 = []) temps -> common_sensor names temps = None.
Proof.
  intros Hall. destruct (common_sensor names temps) as [reading|] eqn:H; [|reflexivity].
  destruct (common_sensor_elem _ _ _ H) as (name & rest & _ & Hin).
  rewrite Forall_forall in Hall. specialize (Hall _ Hin). discriminate.
Qed.

End Temperatures.

(** X24. The CPU temperature is None exactly when reading the sensors
    raises or no sensor has a reading. Otherwise it is the first reading
    of some sensor; it is the first reading of "coretemp" whenever that
    sensor has one, whatever the other sensors and their order. *)
Theorem cpu_temperature_is_a_first_reading (sensors : result Hardware.Sensors) :
  (Hardware._get_cpu_temperature sensors = None <->
   match sensors with
   | Raise _ => True
   | Ok temps => Forall (fun kv => kv.2 = []) temps
   end)
  /\ (forall reading, Hardware._get_cpu_temperature sensors = Some reading ->
        exists temps name rest, sensors = Ok temps /\ (name, reading :: rest) ∈ temps)
  /\ (forall temps reading rest,
        sensors = Ok temps ->
        Hardware.readings_of "coretemp" temps = Some (reading :: rest) ->
        Hardware._get_cpu_temperature sensors = Some reading).
Proof.
  destruct sensors as [temps|e].
  2:{ repeat split; [discriminate | discriminate]. }
  unfold Hardware._get_cpu_temperature.
  split; [|split].
  - destruct temps as [|kv temps]; [split; [constructor | reflexivity]|].
    destruct (Hardware.common_sensor _ (kv :: temps)) as [reading|] eqn:Hc.
    + split; [discriminate|]. intros Hall.
      now rewrite (common_sensor_none _ _ Hall) in Hc.
    + apply first_available_none.
  - intros reading. destruct temps as [|kv temps]; [discriminate|].
    destruct (Hardware.common_sensor _ (kv :: temps)) as [r|] eqn:Hc.
    + intros [= ->]. destruct (common_sensor_elem _ _ _ Hc) as (name & rest & _ & Hin).
      eauto.
    + intros H. destruct (first_available_elem _ _ H) as (name & rest & Hin). eauto.
  - intros temps' reading rest [= <-] Hcore.
    destruct temps as [|kv temps]; [discriminate|].
    cbn [Hardware.common_sensor]. rewrite Hcore. reflexivity.
Qed.

Lemma cpu_temperature_is_a_first_reading_witness :
  Hardware._get_cpu_temperature
    (Ok [("nvme", [(389 # 10)%Q]); ("acpitz", []); ("coretemp", [(52 # 1)%Q; (50 # 1)%Q])])
  = Some (52 # 1)%Q.
Proof.
  refine (proj2 (proj2 (cpu_temperature_is_a_first_reading _)) _ (52 # 1)%Q [(50 # 1)%Q] _ _);
    reflexivity.
Defined.

(** X25. The CUDA version string: for the driver's integer
    1000 * major + 10 * minor + patch, with minor below 100 and patch
    below 10, it is the decimal of major, a dot, and the decimal of minor;
    the patch digit is dropped. *)
Theorem cuda_version_string_decodes (major minor patch : Z) :
  (0 <= minor < 100)%Z -> (0 <= patch < 10)%Z ->
  Hardware.cuda_version_string (1000 * major + 10 * minor + patch)
  = Py.str_int major +:+ "." +:+ Py.str_int minor.
Proof.
  intros Hminor Hpatch. unfold Hardware.cuda_version_string.
  replace ((1000 * major + 10 * minor + patch) / 1000)%Z with major
    by (apply (Z.div_unique _ _ _ (10 * minor + patch)); lia).
  replace ((1000 * major + 10 * minor + patch) mod 1000)%Z with (10 * minor + patch)%Z
    by (apply (Z.mod_unique _ _ major); lia).
  replace ((10 * minor + patch) / 10)%Z with minor
    by (apply (Z.div_unique _ _ _ patch); lia).
  reflexivity.
Qed.

Lemma cuda_version_string_decodes_witness :
  Hardware.cuda_version_string 12020 = "12.2".
Proof.
  apply (cuda_version_string_decodes 12 2 0); lia.
Defined.

(** ** Settings *)

(** X26. [validate_required] lists a field name exactly when that field
    is the empty string, for each of the five required fields, and so
    returns the empty list exactly when all five are set. *)
Theorem validate_required_lists_the_empty_fields (s : Config.AgentSettings) :
  let missing := Config.validate_required s in
  ("backend.url" ∈ missing <-> Config.url (Config.backend s) = "")
  /\ ("backend.api_key" ∈ missing <-> Config.api_key (Config.backend s) = "")
  /\ ("node.id" ∈ missing <-> Config.id (Config.node s) = "")
  /\ ("frp.server_addr" ∈ missing <-> TunnelManager.server_addr (Config.frp s) = "")
  /\ ("frp.token" ∈ missing <-> TunnelManager.token (Config.frp s) = "")
  /\ (missing = [] <->
      Config.url (Config.backend s) <> ""
      /\ Config.api_key (Config.backend s) <> ""
      /\ Config.id (Config.node s) <> ""
      /\ TunnelManager.server_addr (Config.frp s) <> ""
      /\ TunnelManager.token (Config.frp s) <> "").
Proof.
  cbv zeta. unfold Config.validate_required.
  destruct (String.eqb_spec (Config.url (Config.backend s)) "") as [H1|H1];
  destruct (String.eqb_spec (Config.api_key (Config.backend s)) "") as [H2|H2];
  destruct (String.eqb_spec (Config.id (Config.node s)) "") as [H3|H3];
  destruct (String.eqb_spec (TunnelManager.server_addr (Config.frp s)) "") as [H4|H4];
  destruct (String.eqb_spec (TunnelManager.token (Config.frp s)) "") as [H5|H5];
    cbn [app];
    repeat split; intros; try assumption; try discriminate;
    try (exfalso; tauto);
    try (repeat (first [left; reflexivity | right]));
    repeat match goal with
           | H : _ ∈ [] |- _ => inversion H
           | H : _ ∈ _ :: _ |- _ => inversion H; clear H; subst; try discriminate
           end.
Qed.

(** ** Runs from construction *)

Section RunInvariant.
Import AgentOrchestrator.

Lemma node_id_send_message net message c :
  BackendClient.node_id (BackendClient.send_message net message c).2
  = BackendClient.node_id c.
Proof.
  unfold BackendClient.send_message.
  destruct (negb _); [reflexivity|]. destruct (BackendClient.wire _ _); reflexivity.
Qed.

Lemma destroy_tunnel_config rental_id h :
  TunnelManager.config (TunnelManager.mgr (TunnelManager.destroy_tunnel rental_id h).2)
  = TunnelManager.config (TunnelManager.mgr h).
Proof. rewrite destroy_tunnel_unfold. destruct (_ !! rental_id); reflexivity. Qed.

(** What a handled command can do to the identity of the node, the
    relay settings and the heartbeat interval. *)
Lemma handle_command_frame w command a :
  let a' := exec (handle_command w command) a in
  BackendClient.node_id (backend a') = BackendClient.node_id (backend a)
  /\ settings_frp a' = settings_frp a
  /\ (BackendClient.heartbeat_interval (backend a')
      = BackendClient.heartbeat_interval (backend a)
      \/ (0 < BackendClient.heartbeat_interval (backend a'))%Q).
Proof.
  cbv zeta.
  destruct command as [data|data|data|data];
    rewrite ?exec_handle_command by reflexivity; cbn [registered_handler].
  - unfold exec, _handle_start_instance, try_except.
    rewrite start_instance_try_unfold.
    destruct (DockerManager.start_container _ _ _) as [[[container_id info]|e] d'].
    2:{ cbv beta iota zeta. rewrite start_failure_report. unfold settings_frp. cbn.
        rewrite node_id_send_message, heartbeat_interval_send_message. auto. }
    pose proof (create_tunnel_cases (os w) (start_rental_id data)
                  (proxy_port_mapping data)
                  (Some (DockerManager.get_container_ports (daemon w) container_id))
                  (tunnel a)) as [Hconfig _].
    cbv zeta in Hconfig.
    destruct (TunnelManager.create_tunnel _ _ _ _ _) as [[[]|e] h'];
      cbn [snd] in Hconfig.
    2:{ cbv beta iota zeta. rewrite start_failure_report. unfold settings_frp. cbn.
        rewrite node_id_send_message, heartbeat_interval_send_message. auto. }
    cbv beta iota zeta. cbn [snd].
    match goal with
    | |- context [if ?c then _ else _] => destruct c
    end; unfold settings_frp; cbn;
      rewrite node_id_send_message, heartbeat_interval_send_message; auto.
  - split; [|split].
    + rewrite handle_stop_instance_unfold. cbv zeta.
      destruct (DockerManager.stop_container _ _ _ _ _ _) as [[[]|e] d'];
        [|cbn; now rewrite ?node_id_send_message].
      destruct (DockerManager.still_existing _ _ _);
        [|cbn; now rewrite ?node_id_send_message].
      destruct (decide _); cbn; now rewrite ?node_id_send_message.
    + unfold settings_frp. rewrite stop_instance_tunnel. apply destroy_tunnel_config.
    + left. rewrite handle_stop_instance_unfold. cbv zeta.
      destruct (DockerManager.stop_container _ _ _ _ _ _) as [[[]|e] d'];
        [|cbn; now rewrite ?heartbeat_interval_send_message].
      destruct (DockerManager.still_existing _ _ _);
        [|cbn; now rewrite ?heartbeat_interval_send_message].
      destruct (decide _); cbn; now rewrite ?heartbeat_interval_send_message.
  - cbn. auto.
  - destruct (Z.ltb_spec 0 (heartbeat_interval_ms (config data))) as [Hms|Hms].
    + pose proof (true_div_1000_result _ Hms) as Hdiv.
      destruct (1000 * (2 ^ 1024 - 2 ^ 970) <=? heartbeat_interval_ms (config data))%Z.
      * destruct (update_config_raises w data a _ Hms Hdiv) as [_ ->].
        unfold settings_frp. cbn.
        rewrite node_id_send_message, heartbeat_interval_send_message. auto.
      * destruct Hdiv as (x & Hx & Hpos & _).
        assert (Hend : runs_to_end (UpdateConfigCommand data) = true).
        { cbn. apply Z.ltb_lt in Hms. now rewrite Hms, Hx. }
        rewrite (exec_handle_command w _ _ Hend). unfold exec.
        cbn [registered_handler].
        rewrite (update_config_returns _ _ Hend). cbv zeta. cbn [snd].
        apply Z.ltb_lt in Hms. rewrite Hms, Hx.
        destruct (cfg_allowed_images (config data)); unfold settings_frp; cbn; auto.
    + assert (H0 : (0 <? heartbeat_interval_ms (config data))%Z = false)
        by (apply Z.ltb_ge; exact Hms).
      assert (Hend : runs_to_end (UpdateConfigCommand data) = true).
      { cbn. now rewrite H0. }
      rewrite (exec_handle_command w _ _ Hend). unfold exec.
      cbn [registered_handler].
      rewrite (update_config_returns _ _ Hend). cbv zeta. cbn [snd]. rewrite H0.
      destruct (cfg_allowed_images (config data)); unfold settings_frp; cbn; auto.
Qed.

Lemma perform_frame w op a :
  let a' := Run.perform w op a in
  BackendClient.node_id (backend a') = BackendClient.node_id (backend a)
  /\ settings_frp a' = settings_frp a
  /\ (BackendClient.heartbeat_interval (backend a')
      = BackendClient.heartbeat_interval (backend a)
      \/ (0 < BackendClient.heartbeat_interval (backend a'))%Q).
Proof.
  destruct op as [command| |]; cbn [Run.perform].
  - apply handle_command_frame.
  - cbv zeta. unfold BackendClient.run_after_serve.
    destruct (BackendClient._should_run (backend a)); cbn; auto.
  - cbv zeta. unfold connect, BackendClient.connect.
    destruct (BackendClient._connected (backend a)); [cbn; auto|].
    destruct (BackendClient.dial (net w)); cbn; auto.
Qed.

End RunInvariant.

(** X27. Over any run of an orchestrator built from its settings
    (commands handled, sessions lost and redialled, in whatever worlds),
    the node id and the relay settings stay the configured ones, and a
    heartbeat interval configured at one second or more stays positive:
    update_config can change it, but never to zero or below. *)
Theorem run_keeps_identity_and_positive_heartbeat (s : Config.AgentSettings)
    (disk0 : gmap string string)
    (steps : list (AgentOrchestrator.World * Run.Operation)) :
  (1 <= Config.heartbeat_interval_seconds (Config.node s))%Z ->
  let a := Run.perform_all steps (Config.orchestrator s disk0) in
  BackendClient.node_id (AgentOrchestrator.backend a) = Config.id (Config.node s)
  /\ AgentOrchestrator.settings_frp a = Config.frp s
  /\ (0 < BackendClient.heartbeat_interval (AgentOrchestrator.backend a))%Q.
Proof.
  intros Hinterval. cbv zeta.
  assert (Hinit :
    BackendClient.node_id (AgentOrchestrator.backend (Config.orchestrator s disk0))
    = Config.id (Config.node s)
    /\ AgentOrchestrator.settings_frp (Config.orchestrator s disk0) = Config.frp s
    /\ (0 < BackendClient.heartbeat_interval
              (AgentOrchestrator.backend (Config.orchestrator s disk0)))%Q).
  { repeat split. cbn. unfold Qlt. cbn. lia. }
  revert Hinit. generalize (Config.orchestrator s disk0).
  induction steps as [|[w op] steps IH]; intros a Ha; [exact Ha|].
  cbn [Run.perform_all]. apply IH.
  destruct Ha as (Hid & Hfrp & Hhb).
  destruct (perform_frame w op a) as (Hid' & Hfrp' & Hhb').
  rewrite Hid', Hfrp'. repeat split; try assumption.
  destruct Hhb' as [-> | Hpos]; assumption.
Qed.

Lemma run_keeps_identity_and_positive_heartbeat_witness :
  let s := {| Config.backend := {| Config.url := "wss://fleet.example.com/fleet";
                                   Config.api_key := "k3y";
                                   Config.reconnect_delay_seconds := 5;
                                   Config.max_reconnect_attempts := 0 |};
              Config.node := {| Config.id := "node-1";
                                Config.heartbeat_interval_seconds := 5 |};
              Config.frp := Sample.frp;
              Config.docker := Sample.docker_config Sample.default_allowed;
              Config.resources := {| Config.max_concurrent_rentals := 0;
                                     Config.reserved_cpu_cores := 1 |} |} in
  let a := Run.perform_all
             [(Sample.world, Run.Connect);
              (Sample.world, Run.Handle (Sample.update 0 0 []));
              (Sample.world, Run.Handle (Sample.update 250 0 []))]
             (Config.orchestrator s ∅) in
  BackendClient.node_id (AgentOrchestrator.backend a) = "node-1"
  /\ AgentOrchestrator.settings_frp a = Sample.frp
  /\ (0 < BackendClient.heartbeat_interval (AgentOrchestrator.backend a))%Q.
Proof.
  cbv zeta.
  refine (run_keeps_identity_and_positive_heartbeat _ ∅ _ _).
  cbn. lia.
Defined.
